(** * bitmap.py: colour equality, histogram distance and lazy cropping

    A shallow embedding of [src/bitmap.py] and the properties its
    specification states about it.

    Python integers are unbounded, so they are [Z].  Python floats are IEEE 754
    binary64 values; they are the [spec_float] of the Standard Library at
    precision 53 and maximal exponent 1024, whose operations are ordinary
    functions that compute inside the logic.  Exceptions are a result type.
    [Bitmap] objects are mutable and can be aliased, so they live in a store
    addressed by references and every method threads that store. *)

From Stdlib Require Import ZArith Bool Lia.
From Stdlib Require Import Strings.Byte.
From Stdlib Require Import Floats.SpecFloat.
From stdpp Require Import base option list gmap.

Local Open Scope Z_scope.

(** ** Python runtime fragments used by the module *)

Module Py.

(** The exceptions the modelled code can raise.  [EngineError] is the bare
    [Exception] raised by [_BitmapTools._RunCommand] on an empty reply,
    [StructError] is [struct.error].  [NoObject] is no Python exception: it
    is the outcome of a method called on a reference that the object store
    does not hold, which no Python program can write. *)
Inductive exn : Set :=
| ValueError
| IndexError
| AssertionError
| OverflowError
| ZeroDivisionError
| StructError
| EngineError
| NoObject.

Inductive Res (A : Type) : Type :=
| Ok (a : A)
| Raise (e : exn).
Global Arguments Ok {A} a.
Global Arguments Raise {A} e.

Definition bind {A B} (m : Res A) (k : A -> Res B) : Res B :=
  match m with
  | Ok a => k a
  | Raise e => Raise e
  end.

Definition is_ok {A} (m : Res A) : bool :=
  match m with Ok _ => true | Raise _ => false end.

(** [sum(l)] on a sequence of ints. *)
Definition sum (l : list Z) : Z := fold_left Z.add l 0.

(** [l[i]]: a negative index counts from the end, an index outside
    [-len, len) raises [IndexError]. *)
Definition norm_index (n : nat) (i : Z) : option nat :=
  let j := if i <? 0 then i + Z.of_nat n else i in
  if (0 <=? j) && (j <? Z.of_nat n) then Some (Z.to_nat j) else None.

Definition getitem {A} (l : list A) (i : Z) : Res A :=
  match norm_index (length l) i with
  | Some j => match l !! j with Some a => Ok a | None => Raise IndexError end
  | None => Raise IndexError
  end.

(** [l[i] = a] *)
Definition setitem {A} (l : list A) (i : Z) (a : A) : Res (list A) :=
  match norm_index (length l) i with
  | Some j => Ok (<[j := a]> l)
  | None => Raise IndexError
  end.

(** [range(n)] *)
Definition range (n : Z) : list Z := seqZ 0 n.

(** *** Floats *)

Definition prec : Z := 53.
Definition emax : Z := 1024.

Definition float : Set := spec_float.

Definition fzero : float := S754_zero false.

(** Conversion of an int to a float rounds to the nearest float, ties to
    even, and raises [OverflowError] when the int is too large. *)
Definition float_of_int (z : Z) : Res float :=
  match binary_normalize prec emax z 0 false with
  | S754_infinity _ => Raise OverflowError
  | f => Ok f
  end.

Definition feqb (x y : float) : bool := SFeqb x y.

(** [x / n] for a float [x] and an int [n]: the int is converted first, and
    a zero divisor raises [ZeroDivisionError]. *)
Definition float_div_int (x : float) (n : Z) : Res float :=
  bind (float_of_int n) (fun d =>
    if feqb d fzero then Raise ZeroDivisionError
    else Ok (SFdiv prec emax x d)).

Definition fabs (x : float) : float := SFabs x.

Definition fadd (x y : float) : float := SFadd prec emax x y.

(** The expression [abs(float(total) / n1 / n2)]. *)
Definition abs_quotient (total n1 n2 : Z) : Res float :=
  bind (float_of_int total) (fun t =>
  bind (float_div_int t n1) (fun q1 =>
  bind (float_div_int q1 n2) (fun q2 =>
  Ok (fabs q2)))).

(** The float is a number, zero or infinite included, with sign bit [s]. *)
Definition has_sign (s : bool) (f : float) : Prop :=
  match f with
  | S754_nan => False
  | S754_zero s' => s' = s
  | S754_infinity s' => s' = s
  | S754_finite s' _ _ => s' = s
  end.

(** The two floats are the same value, bit for bit. *)
Definition float_same (x y : float) : bool :=
  match x, y with
  | S754_zero s, S754_zero s' => Bool.eqb s s'
  | S754_infinity s, S754_infinity s' => Bool.eqb s s'
  | S754_nan, S754_nan => true
  | S754_finite s m e, S754_finite s' m' e' =>
      Bool.eqb s s' && Pos.eqb m m' && Z.eqb e e'
  | _, _ => false
  end.

(** [x <= y] on floats; false when either is not a number. *)
Definition fleb (x y : float) : bool := SFleb x y.

(** [==] on the outcome of two calls that return floats. *)
Definition res_float_eqb (x y : Res float) : bool :=
  match x, y with
  | Ok a, Ok b => feqb a b
  | _, _ => false
  end.

End Py.

Import Py.

(** ** HistogramDistance *)

(** One turn of the loop [for value1, value2 in zip(hist1, hist2)], on the
    pair [(total, remainder)]. *)
Definition walk_step (n1 n2 : Z) (st : Z * Z) (v : Z * Z) : Z * Z :=
  let '(total, remainder) := st in
  let '(value1, value2) := v in
  let remainder := remainder + (value1 * n2 - value2 * n1) in
  (total + Z.abs remainder, remainder).

Definition walk (n1 n2 : Z) (hist1 hist2 : list Z) : Z * Z :=
  fold_left (walk_step n1 n2) (zip hist1 hist2) (0, 0).

Definition HistogramDistance (hist1 hist2 : list Z) : Res float :=
  if negb (length hist1 =? length hist2)%nat then Raise ValueError
  else
    let n1 := Py.sum hist1 in
    let n2 := Py.sum hist2 in
    if n1 =? 0 then Raise ValueError
    else if n2 =? 0 then Raise ValueError
    else
      let '(total, remainder) := walk n1 n2 hist1 hist2 in
      if negb (remainder =? 0) then Raise AssertionError
      else abs_quotient total n1 n2.

(** The specification's reading of the walk: bucket [i] of a histogram, the
    signed remainder carried after the first [k] buckets and the total
    accumulated over them. *)
Definition bucket (hist : list Z) (i : nat) : Z := nth i hist 0.

Fixpoint remainder_after (n1 n2 : Z) (hist1 hist2 : list Z) (k : nat) : Z :=
  match k with
  | O => 0
  | S i => remainder_after n1 n2 hist1 hist2 i
           + (bucket hist1 i * n2 - bucket hist2 i * n1)
  end.

Fixpoint total_after (n1 n2 : Z) (hist1 hist2 : list Z) (k : nat) : Z :=
  match k with
  | O => 0
  | S i => total_after n1 n2 hist1 hist2 i
           + Z.abs (remainder_after n1 n2 hist1 hist2 (S i))
  end.

(** ** RgbaColor *)

Module RgbaColor.

Record t : Set := mk { r : Z; g : Z; b : Z; a : Z }.

(** [RgbaColor(r, g, b)]: the alpha channel defaults to 255. *)
Definition new (r g b : Z) : t := mk r g b 255.

(** [__int__] *)
Definition to_int (self : t) : Z :=
  Z.lor (Z.lor (Z.shiftl (r self) 16) (Z.shiftl (g self) 8)) (b self).

(** [self[i]] on the named tuple, for [i] in [0..3]. *)
Definition getitem (self : t) (i : nat) : Z :=
  match i with
  | O => r self
  | 1%nat => g self
  | 2%nat => b self
  | _ => a self
  end.

Definition IsEqual (self expected_color : t) (tolerance : Z) : bool :=
  let r_diff := Z.abs (r self - r expected_color) in
  let g_diff := Z.abs (g self - g expected_color) in
  let b_diff := Z.abs (b self - b expected_color) in
  let a_diff := Z.abs (a self - a expected_color) in
  (r_diff <=? tolerance) && (g_diff <=? tolerance)
  && (b_diff <=? tolerance) && (a_diff <=? tolerance).

(** The invariant of the data model: every channel is a byte. *)
Definition in_range (self : t) : Prop :=
  forall i : nat, 0 <= getitem self i < 256.

(** [assert self.IsEqual(RgbaColor(r, g, b), tolerance)] *)
Definition AssertIsRGB (self : t) (r g b tolerance : Z) : Res unit :=
  if IsEqual self (new r g b) tolerance then Ok tt else Raise AssertionError.

(** [assert self.IsEqual(RgbaColor(r, g, b, a), tolerance)] *)
Definition AssertIsRGBA (self : t) (r g b a tolerance : Z) : Res unit :=
  if IsEqual self (mk r g b a) tolerance then Ok tt
  else Raise AssertionError.

Definition WEB_PAGE_TEST_ORANGE : t := new 222 100 13.
Definition WHITE : t := new 255 255 255.

End RgbaColor.

(** ** ColorHistogram *)

Module ColorHistogram.

Record t : Set := mk {
  r : list Z;
  g : list Z;
  b : list Z;
  default_color : option RgbaColor.t
}.

(** [self[i]] for [i] in [xrange(3)]. *)
Definition getitem (self : t) (i : nat) : list Z :=
  match i with
  | O => r self
  | 1%nat => g self
  | _ => b self
  end.

(** The histogram that enters the distance for channel [i] of one operand:
    the channel itself, or, when it sums to zero, [[0] * 256] with
    [hist[default_color[i]] = 1].  A colour is a non-empty tuple and so is
    true; [None] is false. *)
Definition operand (self : t) (i : nat) : Res (list Z) :=
  if Py.sum (getitem self i) =? 0 then
    match default_color self with
    | None => Raise ValueError
    | Some c => Py.setitem (replicate 256 0) (RgbaColor.getitem c i) 1
    end
  else Ok (getitem self i).

(** The distance that one turn of [for i in xrange(3)] adds: both operands
    are prepared, [self] first, then [HistogramDistance] runs. *)
Definition channel_distance (self other : t) (i : nat) : Res float :=
  Py.bind (operand self i) (fun hist1 =>
  Py.bind (operand other i) (fun hist2 =>
  HistogramDistance hist1 hist2)).

(** The body of the loop, on the running [total]. *)
Definition Distance_step (self other : t) (total : float) (i : nat)
  : Res float :=
  Py.bind (channel_distance self other i) (fun d =>
  Ok (fadd total d)).

Fixpoint Distance_loop (self other : t) (total : float) (channels : list nat)
  : Res float :=
  match channels with
  | [] => Ok total
  | i :: rest =>
      Py.bind (Distance_step self other total i) (fun total' =>
      Distance_loop self other total' rest)
  end.

(** [total] starts as the int 0; adding a float to it converts it first. *)
Definition Distance (self other : t) : Res float :=
  Distance_loop self other fzero (seq 0 3).

(** The specification's substitute for an empty channel: 256 buckets, a
    single count of 1 at bucket [v]. *)
Definition spike (v : Z) : list Z :=
  (fun j => if j =? v then 1 else 0) <$> seqZ 0 256.




(** Channel [i] of a histogram can enter a distance: it has data whose sum
    converts to a float, or it has none and the default colour gives a
    bucket for it. *)
Definition usable (self : t) (i : nat) : Prop :=
  (Py.sum (getitem self i) <> 0
   /\ is_ok (float_of_int (Py.sum (getitem self i))) = true)
  \/ (Py.sum (getitem self i) = 0
      /\ exists c, default_color self = Some c
                   /\ 0 <= RgbaColor.getitem c i < 256).

(** No channel of the histogram has data. *)
Definition empty (self : t) : Prop :=
  forall i : nat, Py.sum (getitem self i) = 0.


End ColorHistogram.

(** ** Bitmap *)

Module Bitmap.

(** What [_pixels] can hold: a list of ints, a [str] as the engine returns
    it, or a [bytearray]. *)
Inductive pixel_data : Set :=
| IntSeq (l : list Z)
| Str (s : list byte)
| ByteArray (s : list byte).

Definition box : Set := (Z * Z * Z * Z)%type.

(** The fields of a [Bitmap] object.  [_metadata] is left out: only the
    [metadata] property touches it. *)
Record t : Set := mk {
  _bpp : Z;
  _width : Z;
  _height : Z;
  _pixels : pixel_data;
  _crop_box : option box
}.

Definition ref : Set := nat.

(** The object store, and computations over it that may raise. The store
    survives an exception. *)
Abbreviation store := (gmap nat t).

Definition M (A : Type) : Type := store -> Res A * store.

Definition ret {A} (a : A) : M A := fun h => (Ok a, h).

Definition raise {A} (e : exn) : M A := fun h => (Raise e, h).

Definition bind {A B} (m : M A) (k : A -> M B) : M B :=
  fun h => match m h with
           | (Ok a, h') => k a h'
           | (Raise e, h') => (Raise e, h')
           end.

Definition lift {A} (m : Res A) : M A := fun h => (m, h).

Declare Scope bitmap_scope.
Delimit Scope bitmap_scope with bitmap.
Notation "x <- m ;; k" := (bind m (fun x => k))
  (at level 100, m at next level, right associativity) : bitmap_scope.
Notation "m ;;; k" := (bind m (fun _ => k))
  (at level 100, right associativity) : bitmap_scope.
Local Open Scope bitmap_scope.

(** Reading an object. *)
Definition get (self : ref) : M t :=
  fun h => match h !! self with
           | Some o => (Ok o, h)
           | None => (Raise NoObject, h)
           end.

Definition modify (self : ref) (f : t -> t) : M unit :=
  o <- get self ;;
  (fun h => (Ok tt, <[self := f o]> h)).

Definition set_pixels (p : pixel_data) (o : t) : t :=
  mk (_bpp o) (_width o) (_height o) p (_crop_box o).
Definition set_size (w h : Z) (o : t) : t :=
  mk (_bpp o) w h (_pixels o) (_crop_box o).
Definition set_crop_box (c : option box) (o : t) : t :=
  mk (_bpp o) (_width o) (_height o) (_pixels o) c.

(** *** Bytes *)

#[global] Instance byte_eq_decision : EqDecision byte := Byte.byte_eq_dec.

Definition int_of_byte (x : byte) : Z := Z.of_N (Byte.to_N x).

Definition byte_of_int (z : Z) : option byte :=
  if (0 <=? z) && (z <? 256) then Byte.of_N (Z.to_N z) else None.

(** [bytearray(pixels)]: an int outside [range(256)] raises [ValueError]. *)
Definition bytearray (p : pixel_data) : Res (list byte) :=
  match p with
  | IntSeq l =>
      match mapM byte_of_int l with
      | Some s => Ok s
      | None => Raise ValueError
      end
  | Str s => Ok s
  | ByteArray s => Ok s
  end.

Definition len (p : pixel_data) : Z :=
  match p with
  | IntSeq l => Z.of_nat (length l)
  | Str s => Z.of_nat (length s)
  | ByteArray s => Z.of_nat (length s)
  end.

(** *** _BitmapTools *)

(** The [bitmaptools] child process is not part of the module: it is a
    parameter.  [binary_exists] is [os.path.exists('./bitmaptools')];
    [crop_pixels_reply dims pixels] is what one process answers to the
    command [CROP_PIXELS] after it was sent the seven dimensions and the
    pixel bytes, an exception standing for an empty reply. *)
Class PixelEngine : Type := {
  binary_exists : bool;
  crop_pixels_reply : list Z -> list byte -> Res (list byte)
}.

Definition int32 (z : Z) : bool := (- 2 ^ 31 <=? z) && (z <? 2 ^ 31).

(** [struct.pack('i' * len(l), *l)] *)
Definition struct_pack_i (l : list Z) : Res (list Z) :=
  if forallb int32 l then Ok l else Raise StructError.

(** [_BitmapTools(dimensions, pixels).CropPixels()] *)
Definition CropPixels `{PixelEngine} (dimensions : list Z)
    (pixels : pixel_data) : Res (list byte) :=
  if negb binary_exists then Raise AssertionError
  else
    Py.bind (struct_pack_i dimensions) (fun packed_dims =>
    Py.bind (bytearray pixels) (fun buf =>
    crop_pixels_reply packed_dims buf)).

(** *** Properties *)

Definition bpp (self : ref) : M Z :=
  o <- get self ;; ret (_bpp o).

Definition logical_width (o : t) : Z :=
  match _crop_box o with
  | Some (_, _, w, _) => w
  | None => _width o
  end.

Definition logical_height (o : t) : Z :=
  match _crop_box o with
  | Some (_, _, _, h) => h
  | None => _height o
  end.

Definition width (self : ref) : M Z :=
  o <- get self ;; ret (logical_width o).

Definition height (self : ref) : M Z :=
  o <- get self ;; ret (logical_height o).

(** [self._crop_box or (0, 0, self._width, self._height)]: a box is a
    4-tuple and so is true. *)
Definition active_box (o : t) : box :=
  match _crop_box o with
  | Some c => c
  | None => (0, 0, _width o, _height o)
  end.

(** [self._PrepareTools().CropPixels()] *)
Definition _PrepareTools_CropPixels `{PixelEngine} (o : t)
  : Res (list byte) :=
  let '(l, t, w, h) := active_box o in
  CropPixels [_bpp o; _width o; _height o; l; t; w; h] (_pixels o).

Definition pixels `{PixelEngine} (self : ref) : M (list byte) :=
  o <- get self ;;
  match _crop_box o with
  | Some (_, _, w, h) =>
      cropped <- lift (_PrepareTools_CropPixels o) ;;
      modify self (set_pixels (Str cropped)) ;;;
      modify self (set_size w h) ;;;
      modify self (set_crop_box None)
  | None => ret tt
  end ;;;
  o <- get self ;;
  match _pixels o with
  | ByteArray s => ret s
  | p =>
      s <- lift (bytearray p) ;;
      modify self (set_pixels (ByteArray s)) ;;;
      ret s
  end.

(** The reads of [GetPixelColor] once [pixels = self.pixels] is at hand:
    [bpp] bytes from [base = bpp * (y * width + x)]; three bytes give an
    opaque colour. *)
Definition color_at (bpp width : Z) (pixels : list byte) (x y : Z)
  : Res RgbaColor.t :=
  let base := bpp * (y * width + x) in
  if bpp =? 4 then
    Py.bind (Py.getitem pixels (base + 0)) (fun c0 =>
    Py.bind (Py.getitem pixels (base + 1)) (fun c1 =>
    Py.bind (Py.getitem pixels (base + 2)) (fun c2 =>
    Py.bind (Py.getitem pixels (base + 3)) (fun c3 =>
    Ok (RgbaColor.mk (int_of_byte c0) (int_of_byte c1)
                     (int_of_byte c2) (int_of_byte c3))))))
  else
    Py.bind (Py.getitem pixels (base + 0)) (fun c0 =>
    Py.bind (Py.getitem pixels (base + 1)) (fun c1 =>
    Py.bind (Py.getitem pixels (base + 2)) (fun c2 =>
    Ok (RgbaColor.new (int_of_byte c0) (int_of_byte c1) (int_of_byte c2))))).

Definition GetPixelColor `{PixelEngine} (self : ref) (x y : Z)
  : M RgbaColor.t :=
  pixels <- pixels self ;;
  o <- get self ;;
  lift (color_at (_bpp o) (_width o) pixels x y).

(** *** IsEqual *)

(** A [for] loop whose body may [return]: [Some v] is a return of [v], [None]
    is falling through to the next turn. *)
Fixpoint for_return {A R} (l : list A) (body : A -> M (option R))
  : M (option R) :=
  match l with
  | [] => ret None
  | x :: rest =>
      r <- body x ;;
      match r with
      | Some v => ret (Some v)
      | None => for_return rest body
      end
  end.

(** The pixel loop of [IsEqual], with its [return True] at the end. *)
Definition IsEqual_scan `{PixelEngine} (self other : ref) (tolerance : Z)
  : M bool :=
  rows <- height self ;;
  r <- for_return (Py.range rows) (fun y =>
         cols <- width self ;;
         for_return (Py.range cols) (fun x =>
           c0 <- GetPixelColor self x y ;;
           c1 <- GetPixelColor other x y ;;
           if negb (RgbaColor.IsEqual c0 c1 tolerance) then ret (Some false)
           else ret None)) ;;
  match r with
  | Some v => ret v
  | None => ret true
  end.

(** [self.pixels == other.pixels] *)
Definition IsEqual_bytes `{PixelEngine} (self other : ref) : M bool :=
  p0 <- pixels self ;;
  p1 <- pixels other ;;
  ret (bool_decide (p0 = p1)).

Definition IsEqual `{PixelEngine} (self other : ref) (tolerance : Z)
  : M bool :=
  w0 <- width self ;;
  w1 <- width other ;;
  differ <- (if negb (w0 =? w1) then ret true
             else h0 <- height self ;;
                  h1 <- height other ;;
                  ret (negb (h0 =? h1))) ;;
  if differ : bool then ret false
  else
    scan <- (if negb (tolerance =? 0) then ret true
             else b0 <- bpp self ;;
                  b1 <- bpp other ;;
                  ret (negb (b0 =? b1))) ;;
    if scan : bool then IsEqual_scan self other tolerance
    else IsEqual_bytes self other.

(** *** Diff *)

(** A [for] loop that updates a local value. *)
Fixpoint for_each {A S} (l : list A) (body : A -> S -> M S) (s : S) : M S :=
  match l with
  | [] => ret s
  | x :: rest => s' <- body x s ;; for_each rest body s'
  end.

Definition transparent_black : RgbaColor.t := RgbaColor.mk 0 0 0 0.

(** [self.GetPixelColor(x, y) if x < self.width and y < self.height else
    RgbaColor(0, 0, 0, 0)] *)
Definition side_color `{PixelEngine} (self : ref) (x y : Z)
  : M RgbaColor.t :=
  w <- width self ;;
  inside <- (if x <? w then h <- height self ;; ret (y <? h)
             else ret false) ;;
  if inside : bool then GetPixelColor self x y
  else ret transparent_black.

(** [diff[y][offset] = v] *)
Definition set_cell (diff : list (list Z)) (y offset v : Z)
  : Res (list (list Z)) :=
  Py.bind (Py.getitem diff y) (fun row =>
  Py.bind (Py.setitem row offset v) (fun row' =>
  Py.setitem diff y row')).

(** The three stores of the inner loop of [Diff], at [offset = x * 3]. *)
Definition write_pixel (diff : list (list Z)) (y x : Z) (c0 c1 : RgbaColor.t)
  : Res (list (list Z)) :=
  let offset := x * 3 in
  Py.bind (set_cell diff y offset
             (Z.abs (RgbaColor.r c0 - RgbaColor.r c1))) (fun diff =>
  Py.bind (set_cell diff y (offset + 1)
             (Z.abs (RgbaColor.g c0 - RgbaColor.g c1))) (fun diff =>
  set_cell diff y (offset + 2)
    (Z.abs (RgbaColor.b c0 - RgbaColor.b c1)))).

(** The body of the inner loop of [Diff]. *)
Definition Diff_pixel `{PixelEngine} (self other : ref) (y x : Z)
    (diff : list (list Z)) : M (list (list Z)) :=
  c0 <- side_color self x y ;;
  c1 <- side_color other x y ;;
  lift (write_pixel diff y x c0 c1).

(** [Diff] up to the grid [diff] that it hands to the PNG encoder.  The
    encoder and [Bitmap.FromPng] are not part of the module. *)
Definition Diff_grid `{PixelEngine} (self other : ref)
  : M (list (list Z)) :=
  w0 <- width self ;;
  w1 <- width other ;;
  let out_width := Z.max w0 w1 in
  h0 <- height self ;;
  h1 <- height other ;;
  let out_height := Z.max h0 h1 in
  let diff := replicate (Z.to_nat out_height)
                (replicate (Z.to_nat (out_width * 3)) 0) in
  for_each (Py.range out_height) (fun y =>
    for_each (Py.range out_width) (Diff_pixel self other y)) diff.

(** *** Crop *)

Definition Crop (self : ref) (left top width height : Z) : M ref :=
  o <- get self ;;
  let '(cur_left, cur_top, cur_width, cur_height) := active_box o in
  if (left <? 0) || (top <? 0)
     || (left + width >? cur_width)
     || (top + height >? cur_height)
  then raise ValueError
  else
    modify self (set_crop_box
                   (Some (cur_left + left, cur_top + top, width, height))) ;;;
    ret self.

(** *** Construction *)

(** [Bitmap(bpp, width, height, pixels)]: the new object gets a reference
    that the store does not hold yet. *)
Definition __init__ (bpp width height : Z) (pixels : pixel_data) : M ref :=
  if negb ((bpp =? 3) || (bpp =? 4)) then raise AssertionError
  else if negb (width >? 0) then raise AssertionError
  else if negb (height >? 0) then raise AssertionError
  else if len pixels =? 0 then raise AssertionError
  else if negb (bpp * width * height =? len pixels) then raise AssertionError
  else fun h =>
    let self := fresh (dom h) in
    (Ok self, <[self := mk bpp width height pixels None]> h).

(** *** The invariant of the data model *)

(** What a bitmap shows to its readers: bytes per pixel, logical size, and
    the bytes that [pixels] yields. *)
Definition view `{PixelEngine} (o : t) : Z * Z * Z * Res (list byte) :=
  (_bpp o, logical_width o, logical_height o,
   match _crop_box o with
   | Some _ => _PrepareTools_CropPixels o
   | None => bytearray (_pixels o)
   end).

(** [bpp] is 3 or 4, the logical size is not negative, and the bytes that
    [pixels] yields are [bpp * width * height] many. *)
Definition well_formed `{PixelEngine} (o : t) : Prop :=
  (_bpp o = 3 \/ _bpp o = 4)
  /\ 0 <= logical_width o /\ 0 <= logical_height o
  /\ exists buf, (view o).2 = Ok buf
       /\ Z.of_nat (length buf) = _bpp o * logical_width o * logical_height o.

(** *** The methods read off the views *)

(** The object that [pixels] leaves in the store when it yields [buf]. *)
Definition materialized (o : t) (buf : list byte) : t :=
  mk (_bpp o) (logical_width o) (logical_height o) (ByteArray buf) None.

(** The store that a read of the pixels of [self], which held [o], leaves. *)
Definition settled `{PixelEngine} (h : gmap nat t) (self : ref) (o : t)
  : gmap nat t :=
  match (view o).2 with
  | Ok buf => <[self := materialized o buf]> h
  | Raise _ => h
  end.

Definition view_t : Type := (Z * Z * Z * Res (list byte))%type.

(** What [GetPixelColor(x, y)] returns on an object with view [v]. *)
Definition color_of_view (v : view_t) (x y : Z) : Res RgbaColor.t :=
  let '(bpp, w, _, r) := v in
  Py.bind r (fun buf => color_at bpp w buf x y).

(** What [side_color] returns on an object with view [v]. *)
Definition side_of_view (v : view_t) (x y : Z) : Res RgbaColor.t :=
  let '(_, w, h, _) := v in
  if (x <? w) && (y <? h) then color_of_view v x y else Ok transparent_black.

(** A later store shows, object by object, what an earlier one showed. *)
Definition shows_same `{PixelEngine} (h0 h : gmap nat t) : Prop :=
  forall (r : ref) (o0 : t),
    h0 !! r = Some o0 -> exists o, h !! r = Some o /\ view o = view o0.

(** Loops whose bodies do not need the store. *)
Fixpoint fold_res {A S} (f : A -> S -> Res S) (l : list A) (s : S) : Res S :=
  match l with
  | [] => Ok s
  | x :: rest => Py.bind (f x s) (fold_res f rest)
  end.

Fixpoint first_return {A R} (f : A -> Res (option R)) (l : list A)
  : Res (option R) :=
  match l with
  | [] => Ok None
  | x :: rest =>
      Py.bind (f x) (fun r =>
        match r with
        | Some v => Ok (Some v)
        | None => first_return f rest
        end)
  end.

Definition Diff_pixel_of_views (va vb : view_t) (y x : Z)
    (diff : list (list Z)) : Res (list (list Z)) :=
  Py.bind (side_of_view va x y) (fun c0 =>
  Py.bind (side_of_view vb x y) (fun c1 =>
  write_pixel diff y x c0 c1)).

Definition compare_of_views (va vb : view_t) (tolerance : Z) (y x : Z)
  : Res (option bool) :=
  Py.bind (color_of_view va x y) (fun c0 =>
  Py.bind (color_of_view vb x y) (fun c1 =>
  if negb (RgbaColor.IsEqual c0 c1 tolerance) then Ok (Some false)
  else Ok None)).

(** The two views have colours at [(x, y)] that [RgbaColor.IsEqual] accepts. *)
Definition same_pixel (va vb : view_t) (tolerance : Z) (y x : Z) : bool :=
  match color_of_view va x y, color_of_view vb x y with
  | Ok c0, Ok c1 => RgbaColor.IsEqual c0 c1 tolerance
  | _, _ => false
  end.

(** The three numbers that [Diff] stores for a pair of colours. *)
Definition channel_diffs (c0 c1 : RgbaColor.t) : list Z :=
  [Z.abs (RgbaColor.r c0 - RgbaColor.r c1);
   Z.abs (RgbaColor.g c0 - RgbaColor.g c1);
   Z.abs (RgbaColor.b c0 - RgbaColor.b c1)].

(** Row [y] of the grid holds the three numbers [vals] from column [3 * x]
    on. *)
Definition cell_holds (diff : list (list Z)) (y x : nat) (vals : list Z)
  : Prop :=
  exists row, diff !! y = Some row
              /\ forall k : nat, (k < 3)%nat ->
                   row !! (3 * x + k)%nat = vals !! k.

(** Cell [(i, j)] of the grid, as a pair [k], holds the channel differences
    of what the two views contribute at column [j] of row [i]. *)
Definition cell_done (va vb : view_t) (k : nat * nat) (g : list (list Z))
  : Prop :=
  exists c0 c1,
    side_of_view va (Z.of_nat k.2) (Z.of_nat k.1) = Ok c0
    /\ side_of_view vb (Z.of_nat k.2) (Z.of_nat k.1) = Ok c1
    /\ cell_holds g k.1 k.2 (channel_diffs c0 c1).

(** What the bitmap [self], which the store [h] holds as [o], contributes to
    [Diff] at [(x, y)]: its pixel when its logical range contains the
    coordinate, transparent black otherwise. *)
Definition contribution `{PixelEngine} (h : gmap nat t) (self : ref) (o : t)
    (x y : Z) : Res RgbaColor.t :=
  if (x <? logical_width o) && (y <? logical_height o)
  then (GetPixelColor self x y h).1
  else Ok transparent_black.

(** The grid has [rows] rows of [3 * cols] numbers. *)
Definition grid_shape (rows cols : Z) (diff : list (list Z)) : Prop :=
  length diff = Z.to_nat rows
  /\ forall row, row ∈ diff -> length row = Z.to_nat (3 * cols).

(** Pixel number [k] of a buffer, counted row by row from the top left: its
    [bpp] bytes, the alpha of three bytes being 255. *)
Definition pixel_number (bpp : Z) (buf : list byte) (k : nat)
  : option RgbaColor.t :=
  let n := (Z.to_nat bpp * k)%nat in
  c0 ← buf !! n;
  c1 ← buf !! (n + 1)%nat;
  c2 ← buf !! (n + 2)%nat;
  if bpp =? 4 then
    c3 ← buf !! (n + 3)%nat;
    Some (RgbaColor.mk (int_of_byte c0) (int_of_byte c1)
            (int_of_byte c2) (int_of_byte c3))
  else
    Some (RgbaColor.new (int_of_byte c0) (int_of_byte c1) (int_of_byte c2)).

(** The pending crop box of the object, if any, lies inside its backing
    buffer. *)
Definition box_inside (o : t) : Prop :=
  match _crop_box o with
  | Some (l, t, w, h) =>
      0 <= l /\ 0 <= t /\ l + w <= _width o /\ t + h <= _height o
  | None => True
  end.

(** Every pixel of the logical range of the first bitmap passes
    [RgbaColor.IsEqual] against the pixel of the second at the same place. *)
Definition all_pixels_within `{PixelEngine} (oa ob : t) (tolerance : Z)
  : bool :=
  forallb
    (fun y => forallb (same_pixel (view oa) (view ob) tolerance y)
                (Py.range (logical_width oa)))
    (Py.range (logical_height oa)).

(** A caller that issues the crops of a list on one bitmap, one after the
    other, and goes on after a [ValueError]. *)
Fixpoint crop_calls (self : ref) (boxes : list box) (h : gmap nat t)
  : gmap nat t :=
  match boxes with
  | [] => h
  | (l, t, width, height) :: rest =>
      crop_calls self rest (Crop self l t width height h).2
  end.

(** A computation leaves every store showing what it showed. *)
Definition keeps_views `{PixelEngine} {A} (m : M A) : Prop :=
  forall h : gmap nat t, shows_same h (m h).2.

(** The reads of the bitmap [r] return in [h'] what they return in [h]. *)
Definition reads_same `{PixelEngine} (h h' : gmap nat t) (r : ref) : Prop :=
  (bpp r h').1 = (bpp r h).1
  /\ (width r h').1 = (width r h).1
  /\ (height r h').1 = (height r h).1
  /\ (pixels r h').1 = (pixels r h).1
  /\ forall x y, (GetPixelColor r x y h').1 = (GetPixelColor r x y h).1.

(** *** A reference engine *)

(** Modelled from the spec: the reply of the external [bitmaptools] process
    to [CROP_PIXELS], which the specification calls the cropped pixel buffer:
    the rows [top .. top + height) of the backing buffer, cut to the columns
    [left .. left + width). *)
Definition crop_rows (bpp width left top w h : Z) (buf : list byte)
  : list byte :=
  concat ((fun row =>
             take (Z.to_nat (bpp * w))
               (drop (Z.to_nat (bpp * ((top + row) * width + left))) buf))
          <$> seqZ 0 h).

Definition reference_engine : PixelEngine := {|
  binary_exists := true;
  crop_pixels_reply := fun dims buf =>
    match dims with
    | [bpp; width; _; box_left; box_top; w; h] =>
        Ok (crop_rows bpp width box_left box_top w h buf)
    | _ => Raise EngineError
    end
|}.

(** *** A small store *)

(** A 3 by 2 image of 3 bytes per pixel, held twice: object 0 with a pending
    crop to its two right columns, object 1 whole.  Object 2 is a 2 by 2
    image that differs from the crop of object 0 in its last byte. *)
Definition example_pixels : pixel_data :=
  IntSeq [1; 2; 3; 4; 5; 6; 7; 8; 9; 10; 11; 12; 13; 14; 15; 16; 17; 18].

Definition example_cropped : t := mk 3 3 2 example_pixels (Some (1, 0, 2, 2)).

Definition example_whole : t := mk 3 3 2 example_pixels None.

Definition example_other : t :=
  mk 3 2 2 (IntSeq [4; 5; 6; 7; 8; 9; 13; 14; 15; 16; 17; 99]) None.

Definition example_store : gmap nat t :=
  <[2%nat := example_other]>
    (<[1%nat := example_whole]> (<[0%nat := example_cropped]> ∅)).

End Bitmap.

(** ** _BitmapTools, byte by byte *)

Module BitmapTools.

(** The host of the module: whether [./bitmaptools] exists, the byte order
    of [struct] and [array] in native mode, whose C int has four bytes, and
    the child process, as what it writes to its stdout and stderr once it
    has read its stdin to the end. *)
Class Host : Type := {
  binary_exists : bool;
  big_endian : bool;
  child : list byte -> list byte * list byte
}.

Definition CROP_PIXELS : Z := 0.
Definition HISTOGRAM : Z := 1.
Definition BOUNDING_BOX : Z := 2.

Definition byte_of_Z (z : Z) : byte :=
  match Byte.of_N (Z.to_N (z mod 256)) with
  | Some x => x
  | None => Byte.x00
  end.

(** The four bytes of a C int in two's complement, the least significant
    first. *)
Definition int_bytes_le (z : Z) : list byte :=
  [byte_of_Z z; byte_of_Z (z / 256); byte_of_Z (z / 65536);
   byte_of_Z (z / 16777216)].

Definition int_bytes `{Host} (z : Z) : list byte :=
  if big_endian then rev (int_bytes_le z) else int_bytes_le z.

(** [struct.pack('i' * len(l), *l)] *)
Definition pack `{Host} (l : list Z) : Res (list byte) :=
  if forallb Bitmap.int32 l then Ok (concat (int_bytes <$> l))
  else Raise StructError.

Definition int_of_bytes_le (b0 b1 b2 b3 : byte) : Z :=
  let u := Bitmap.int_of_byte b0 + 256 * Bitmap.int_of_byte b1
           + 65536 * Bitmap.int_of_byte b2
           + 16777216 * Bitmap.int_of_byte b3 in
  if u <? 2 ^ 31 then u else u - 2 ^ 32.

Definition int_of_bytes `{Host} (b0 b1 b2 b3 : byte) : Z :=
  if big_endian then int_of_bytes_le b3 b2 b1 b0
  else int_of_bytes_le b0 b1 b2 b3.

(** The C ints that a string holds, four bytes each. *)
Fixpoint ints `{Host} (s : list byte) : list Z :=
  match s with
  | b0 :: b1 :: b2 :: b3 :: rest => int_of_bytes b0 b1 b2 b3 :: ints rest
  | _ => []
  end.

(** [struct.unpack('i' * n, s)] *)
Definition unpack `{Host} (n : nat) (s : list byte) : Res (list Z) :=
  if (length s =? 4 * n)%nat then Ok (ints s) else Raise StructError.

(** [out = array.array('i'); out.fromstring(s)] *)
Definition fromstring `{Host} (s : list byte) : Res (list Z) :=
  if (length s mod 4 =? 0)%nat then Ok (ints s) else Raise ValueError.

(** [stream.read(size)] on a stream that holds [stream] up to its end. *)
Definition read (size : Z) (stream : list byte) : list byte :=
  if size <? 0 then stream else take (Z.to_nat size) stream.

(** A [_BitmapTools] object: what was written to the stdin of its child so
    far, and whether that stdin is closed. *)
Record t : Set := mk {
  written : list byte;
  closed : bool
}.

Definition __init__ `{Host} (dimensions : list Z)
    (pixels : Bitmap.pixel_data) : Res t :=
  if negb binary_exists then Raise AssertionError
  else if negb (length dimensions =? 7)%nat then Raise StructError
  else
    Py.bind (pack dimensions) (fun packed_dims =>
    Py.bind (Bitmap.bytearray pixels) (fun pixels =>
    Ok (mk (packed_dims ++ pixels) false))).

(** [_RunCommand] on the ints of [command]: the outcome and the object
    afterwards. *)
Definition _RunCommand `{Host} (self : t) (command : list Z)
  : Res (list byte) * t :=
  if closed self then (Raise AssertionError, self)
  else
    match pack command with
    | Raise e => (Raise e, self)
    | Ok packed_command =>
        let self' := mk (written self ++ packed_command) true in
        let stdout := (child (written self')).1 in
        let length_packed := read 4 stdout in
        (if (length length_packed =? 0)%nat then Raise EngineError
         else
           Py.bind (unpack 1 length_packed) (fun unpacked =>
           Py.bind (Py.getitem unpacked 0) (fun length =>
           Ok (read length (drop 4 stdout)))),
         self')
    end.

Definition CropPixels `{Host} (self : t) : Res (list byte) * t :=
  _RunCommand self [CROP_PIXELS].

(** [-1 if ignore_color is None else int(ignore_color)] *)
Definition ignore_color_int (ignore_color : option RgbaColor.t) : Z :=
  match ignore_color with
  | None => -1
  | Some c => RgbaColor.to_int c
  end.

Definition Histogram `{Host} (self : t) (ignore_color : option RgbaColor.t)
    (tolerance : Z) : Res ColorHistogram.t * t :=
  let out := _RunCommand self [HISTOGRAM; ignore_color_int ignore_color;
                               tolerance] in
  (Py.bind out.1 (fun response =>
   Py.bind (fromstring response) (fun out =>
   if negb (length out =? 768)%nat then Raise AssertionError
   else Ok (ColorHistogram.mk (take 256 out) (take 256 (drop 256 out))
              (drop 512 out) ignore_color))),
   out.2).

Definition BoundingBox `{Host} (self : t) (color : RgbaColor.t)
    (tolerance : Z) : Res (option Bitmap.box * Z) * t :=
  let out := _RunCommand self [BOUNDING_BOX; RgbaColor.to_int color;
                               tolerance] in
  (Py.bind out.1 (fun response =>
   Py.bind (unpack 5 response) (fun unpacked =>
   match unpacked with
   | [l; t; w; h; count] =>
       Ok (if (w <? 0) || (h <? 0) then None else Some (l, t, w, h), count)
   | _ => Raise StructError
   end)),
   out.2).

(** [(self._bpp, self._width, self._height) + crop_box] *)
Definition dimensions (o : Bitmap.t) : list Z :=
  let '(l, t, w, h) := Bitmap.active_box o in
  [Bitmap._bpp o; Bitmap._width o; Bitmap._height o; l; t; w; h].

(** [Bitmap._PrepareTools] *)
Definition _PrepareTools `{Host} (o : Bitmap.t) : Res t :=
  __init__ (dimensions o) (Bitmap._pixels o).

(** [Bitmap.GetBoundingBox] *)
Definition GetBoundingBox `{Host} (self : Bitmap.ref) (color : RgbaColor.t)
    (tolerance : Z) : Bitmap.M (option Bitmap.box * Z) :=
  Bitmap.bind (Bitmap.get self) (fun o =>
  Bitmap.lift
    (Py.bind (_PrepareTools o) (fun tools =>
     (BoundingBox tools color tolerance).1))).

(** [Bitmap.ColorHistogram] *)
Definition Bitmap_ColorHistogram `{Host} (self : Bitmap.ref)
    (ignore_color : option RgbaColor.t) (tolerance : Z)
  : Bitmap.M ColorHistogram.t :=
  Bitmap.bind (Bitmap.get self) (fun o =>
  Bitmap.lift
    (Py.bind (_PrepareTools o) (fun tools =>
     (Histogram tools ignore_color tolerance).1))).

(** The engine that the properties of [pixels] take as a parameter, as this
    host gives it: the reply to [CROP_PIXELS] of a child that was sent the
    dimensions and the pixels. *)
Definition engine_of_host `{Host} : Bitmap.PixelEngine := {|
  Bitmap.binary_exists := binary_exists;
  Bitmap.crop_pixels_reply := fun dimensions pixels =>
    (CropPixels (mk (concat (int_bytes <$> dimensions) ++ pixels) false)).1
|}.

(** The request that reaches the child of a bitmap's tools: dimensions,
    pixels, command. *)
Definition request `{Host} (o : Bitmap.t) (pixels : list byte)
    (command : list Z) : list byte :=
  (concat (int_bytes <$> dimensions o) ++ pixels)
  ++ concat (int_bytes <$> command).

(** A host for examples: little endian, with a child that answers every
    request with [reply]. *)
Definition example_host (reply : list byte) : Host := {|
  binary_exists := true;
  big_endian := false;
  child := fun _ => (reply, [])
|}.

(** Replies of a child: a bounding box of negative size with no match, a
    histogram whose three channels hold four pixels in their first bucket,
    and four pixels of three bytes. *)
Definition example_box_reply : list byte :=
  concat (int_bytes_le <$> [20; 0; 0; -1; -1; 0]).

Definition example_channel : list Z := 4 :: replicate 255 0.

Definition example_histogram_reply : list byte :=
  concat (int_bytes_le
          <$> 3072 :: example_channel ++ example_channel ++ example_channel).

Definition example_crop_reply : list byte :=
  concat (int_bytes_le <$> [12; 67305985; 134678021; 202050057]).

End BitmapTools.

(** * Properties *)

(** ** Rounding a positive int never gives zero *)

Lemma digits2_pos_size (p : positive) : digits2_pos p = Pos.size p.
Proof. induction p as [p IH|p IH|]; simpl; congruence. Qed.

Lemma digits2_pos_lower (p : positive) :
  2 ^ (Z.pos (digits2_pos p) - 1) <= Z.pos p.
Proof.
  rewrite digits2_pos_size.
  pose proof (Pos.size_le p) as Hle.
  assert (Hz : Z.pos (2 ^ Pos.size p) <= Z.pos p~0) by exact Hle.
  rewrite Pos2Z.inj_pow in Hz.
  replace (Z.pos (Pos.size p)) with (Z.succ (Z.pos (Pos.size p) - 1)) in Hz
    by lia.
  rewrite Z.pow_succ_r in Hz by lia.
  lia.
Qed.

Lemma shr_1_lower (mrs : shr_record) (j : Z) :
  0 <= j -> 2 ^ (j + 1) <= shr_m mrs -> 2 ^ j <= shr_m (shr_1 mrs).
Proof.
  intros Hj Hm.
  assert (Hpos : 0 < 2 ^ j) by (apply Z.pow_pos_nonneg; lia).
  replace (j + 1) with (Z.succ j) in Hm by lia.
  rewrite Z.pow_succ_r in Hm by lia.
  destruct mrs as [m r s]; simpl in *.
  destruct m as [|[p|p|]|[p|p|]]; simpl; lia.
Qed.

Lemma iter_shr_1_lower (k : positive) :
  forall (mrs : shr_record) (j : Z),
    0 <= j -> 2 ^ (j + Z.pos k) <= shr_m mrs ->
    2 ^ j <= shr_m (SpecFloat.iter_pos shr_1 k mrs).
Proof.
  induction k as [k IH|k IH|]; intros mrs j Hj Hm; simpl.
  - apply IH; [lia|]. apply IH; [lia|]. apply shr_1_lower; [lia|].
    replace (j + Z.pos k + Z.pos k + 1) with (j + Z.pos k~1) by lia.
    exact Hm.
  - apply IH; [lia|]. apply IH; [lia|].
    replace (j + Z.pos k + Z.pos k) with (j + Z.pos k~0) by lia.
    exact Hm.
  - apply shr_1_lower; assumption.
Qed.

Lemma shr_m_of_loc (m : Z) (l : location) :
  shr_m (shr_record_of_loc m l) = m.
Proof. destruct l as [|[]]; reflexivity. Qed.

Lemma shr_fexp_pos (p : positive) (e : Z) (l : location) :
  emin prec emax <= e ->
  0 < shr_m (shr_fexp prec emax (Z.pos p) e l).1
  /\ e <= (shr_fexp prec emax (Z.pos p) e l).2.
Proof.
  intros He. unfold shr_fexp, shr. simpl Zdigits2.
  pose proof (digits2_pos_lower p) as Hlow.
  set (d := Z.pos (digits2_pos p)) in *.
  assert (Hn : fexp prec emax (d + e) - e <= d - 1).
  { unfold fexp, emin, prec, emax in *. lia. }
  destruct (fexp prec emax (d + e) - e) as [|k|k] eqn:Hk; simpl.
  - rewrite shr_m_of_loc. lia.
  - split; [|lia].
    assert (H1 : 2 ^ (d - 1 - Z.pos k)
                 <= shr_m (SpecFloat.iter_pos shr_1 k (shr_record_of_loc (Z.pos p) l))).
    { apply iter_shr_1_lower; [lia|]. rewrite shr_m_of_loc.
      replace (d - 1 - Z.pos k + Z.pos k) with (d - 1) by lia. exact Hlow. }
    assert (0 < 2 ^ (d - 1 - Z.pos k)) by (apply Z.pow_pos_nonneg; lia).
    lia.
  - rewrite shr_m_of_loc. lia.
Qed.

Lemma round_nearest_even_pos (mx : Z) (lx : location) :
  0 < mx -> 0 < round_nearest_even mx lx.
Proof.
  intros H. destruct lx as [|[]]; simpl; try lia.
  destruct (Z.even mx); lia.
Qed.

Lemma binary_round_aux_pos (sx : bool) (p : positive) (ex : Z) (lx : location) :
  emin prec emax <= ex ->
  (exists m e, binary_round_aux prec emax sx (Z.pos p) ex lx = S754_finite sx m e)
  \/ binary_round_aux prec emax sx (Z.pos p) ex lx = S754_infinity sx.
Proof.
  intros He. unfold binary_round_aux.
  destruct (shr_fexp_pos p ex lx He) as [Hm1 He1].
  destruct (shr_fexp prec emax (Z.pos p) ex lx) as [mrs' e'] eqn:E1.
  simpl in Hm1, He1.
  pose proof (round_nearest_even_pos (shr_m mrs') (loc_of_shr_record mrs') Hm1)
    as Hr.
  destruct (round_nearest_even (shr_m mrs') (loc_of_shr_record mrs'))
    as [|q|q] eqn:E2; try lia.
  assert (He' : emin prec emax <= e') by lia.
  destruct (shr_fexp_pos q e' loc_Exact He') as [Hm2 _].
  destruct (shr_fexp prec emax (Z.pos q) e' loc_Exact) as [mrs'' e''] eqn:E3.
  simpl in Hm2.
  destruct (shr_m mrs'') as [|m|m]; try lia.
  destruct (e'' <=? emax - prec); eauto.
Qed.

Lemma binary_normalize_pos (p : positive) :
  (exists m e, binary_normalize prec emax (Z.pos p) 0 false = S754_finite false m e)
  \/ binary_normalize prec emax (Z.pos p) 0 false = S754_infinity false.
Proof.
  unfold binary_normalize, binary_round, shl_align.
  assert (Hf : emin prec emax <= fexp prec emax (Z.pos (digits2_pos p) + 0)).
  { unfold fexp. lia. }
  destruct (fexp prec emax (Z.pos (digits2_pos p) + 0) - 0) as [|k|k];
    apply binary_round_aux_pos;
    first [exact Hf | unfold emin, prec, emax; lia].
Qed.

Lemma float_of_int_pos (n : Z) :
  0 < n ->
  (exists m e, float_of_int n = Ok (S754_finite false m e))
  \/ float_of_int n = Raise OverflowError.
Proof.
  intros Hn. destruct n as [|p|p]; try lia. unfold float_of_int.
  destruct (binary_normalize_pos p) as [(m & e & ->)| ->]; eauto.
Qed.

Lemma float_of_int_0 : float_of_int 0 = Ok fzero.
Proof. reflexivity. Qed.

(** [0.0 / n] is [0.0] for a positive int [n] that converts. *)
Lemma zero_div_pos (n : Z) (f : float) :
  0 < n -> float_of_int n = Ok f -> float_div_int fzero n = Ok fzero.
Proof.
  intros Hn Hf. unfold float_div_int. rewrite Hf. simpl.
  destruct (float_of_int_pos n Hn) as [(m & e & H)|H]; rewrite H in Hf;
    [|discriminate].
  injection Hf as <-. reflexivity.
Qed.

(** ** The walk of [HistogramDistance] *)

Section Walk.

Variables n1 n2 : Z.

Lemma sum_from (l : list Z) (acc : Z) : fold_left Z.add l acc = acc + Py.sum l.
Proof.
  unfold Py.sum. revert acc.
  induction l as [|x l IH]; intros acc; cbn [fold_left]; [lia|].
  rewrite (IH (acc + x)), (IH (0 + x)). lia.
Qed.

Lemma sum_snoc (l : list Z) (x : Z) : Py.sum (l ++ [x]) = Py.sum l + x.
Proof. unfold Py.sum. rewrite fold_left_app. reflexivity. Qed.

Lemma take_succ_bucket (hist : list Z) (k : nat) :
  (k < length hist)%nat -> take (S k) hist = take k hist ++ [bucket hist k].
Proof.
  intros Hk. destruct (lookup_lt_is_Some_2 hist k Hk) as [x Hx].
  unfold bucket. rewrite (nth_lookup_Some _ _ _ _ Hx).
  apply take_S_r. exact Hx.
Qed.

Lemma walk_snoc (hist1 hist2 : list Z) (v1 v2 : Z) :
  length hist1 = length hist2 ->
  walk n1 n2 (hist1 ++ [v1]) (hist2 ++ [v2])
  = walk_step n1 n2 (walk n1 n2 hist1 hist2) (v1, v2).
Proof.
  intros Hlen. unfold walk.
  rewrite zip_with_app by exact Hlen.
  rewrite fold_left_app. reflexivity.
Qed.

(** After [k] buckets the loop holds the total and the remainder that the
    specification defines bucket by bucket. *)
Lemma walk_prefix (hist1 hist2 : list Z) (k : nat) :
  length hist1 = length hist2 -> (k <= length hist1)%nat ->
  walk n1 n2 (take k hist1) (take k hist2)
  = (total_after n1 n2 hist1 hist2 k, remainder_after n1 n2 hist1 hist2 k).
Proof.
  intros Hlen. induction k as [|k IH]; intros Hk.
  - reflexivity.
  - rewrite !take_succ_bucket by lia.
    rewrite walk_snoc by (rewrite !length_take; lia).
    rewrite IH by lia. reflexivity.
Qed.

Lemma walk_full (hist1 hist2 : list Z) :
  length hist1 = length hist2 ->
  walk n1 n2 hist1 hist2
  = (total_after n1 n2 hist1 hist2 (length hist1),
     remainder_after n1 n2 hist1 hist2 (length hist1)).
Proof.
  intros Hlen.
  rewrite <- (walk_prefix hist1 hist2 (length hist1) Hlen (le_n _)).
  rewrite Hlen at 2. rewrite !firstn_all. reflexivity.
Qed.

(** The remainder is the difference of the two scaled prefix sums. *)
Lemma remainder_after_sums (hist1 hist2 : list Z) (k : nat) :
  length hist1 = length hist2 -> (k <= length hist1)%nat ->
  remainder_after n1 n2 hist1 hist2 k
  = Py.sum (take k hist1) * n2 - Py.sum (take k hist2) * n1.
Proof.
  intros Hlen. induction k as [|k IH]; intros Hk.
  - reflexivity.
  - simpl remainder_after. rewrite IH by lia.
    rewrite !take_succ_bucket by lia. rewrite !sum_snoc. lia.
Qed.

End Walk.

Lemma remainder_after_all (hist1 hist2 : list Z) :
  length hist1 = length hist2 ->
  remainder_after (Py.sum hist1) (Py.sum hist2) hist1 hist2 (length hist1) = 0.
Proof.
  intros Hlen. rewrite remainder_after_sums by (auto; lia).
  rewrite Hlen at 2. rewrite !firstn_all. lia.
Qed.

Lemma remainder_after_swap (n1 n2 : Z) (hist1 hist2 : list Z) (k : nat) :
  remainder_after n2 n1 hist2 hist1 k = - remainder_after n1 n2 hist1 hist2 k.
Proof. induction k as [|k IH]; simpl; [reflexivity|]. rewrite IH. lia. Qed.

Lemma total_after_swap (n1 n2 : Z) (hist1 hist2 : list Z) (k : nat) :
  total_after n2 n1 hist2 hist1 k = total_after n1 n2 hist1 hist2 k.
Proof.
  induction k as [|k IH]; [reflexivity|].
  cbn [total_after]. rewrite IH, remainder_after_swap, Z.abs_opp. reflexivity.
Qed.

Lemma remainder_after_self (n : Z) (hist : list Z) (k : nat) :
  remainder_after n n hist hist k = 0.
Proof. induction k as [|k IH]; simpl; [reflexivity|]. rewrite IH. lia. Qed.

Lemma total_after_self (n : Z) (hist : list Z) (k : nat) :
  total_after n n hist hist k = 0.
Proof.
  induction k as [|k IH]; [reflexivity|].
  cbn [total_after]. rewrite IH, remainder_after_self. reflexivity.
Qed.

(** With equal lengths and non-zero sums the function reaches its last line. *)
Lemma HistogramDistance_reaches_quotient (hist1 hist2 : list Z) :
  length hist1 = length hist2 ->
  Py.sum hist1 <> 0 -> Py.sum hist2 <> 0 ->
  HistogramDistance hist1 hist2
  = abs_quotient
      (total_after (Py.sum hist1) (Py.sum hist2) hist1 hist2 (length hist1))
      (Py.sum hist1) (Py.sum hist2).
Proof.
  intros Hlen H1 H2. unfold HistogramDistance.
  rewrite Hlen, Nat.eqb_refl. simpl negb. cbv iota.
  destruct (Z.eqb_spec (Py.sum hist1) 0) as [|_]; [contradiction|].
  destruct (Z.eqb_spec (Py.sum hist2) 0) as [|_]; [contradiction|].
  cbv zeta. rewrite walk_full by exact Hlen.
  rewrite remainder_after_all by exact Hlen. rewrite <- Hlen. reflexivity.
Qed.

Lemma abs_quotient_value (total n1 n2 : Z) (t f1 f2 : float) :
  0 < n1 -> 0 < n2 ->
  float_of_int total = Ok t -> float_of_int n1 = Ok f1 ->
  float_of_int n2 = Ok f2 ->
  abs_quotient total n1 n2
  = Ok (fabs (SFdiv prec emax (SFdiv prec emax t f1) f2)).
Proof.
  intros Hn1 Hn2 Ht Hf1 Hf2. unfold abs_quotient, float_div_int.
  rewrite Ht, Hf1, Hf2. simpl.
  destruct (float_of_int_pos n1 Hn1) as [(m1 & e1 & E1)|E1];
    rewrite E1 in Hf1; [|discriminate]. injection Hf1 as <-.
  destruct (float_of_int_pos n2 Hn2) as [(m2 & e2 & E2)|E2];
    rewrite E2 in Hf2; [|discriminate]. injection Hf2 as <-.
  reflexivity.
Qed.

Lemma abs_quotient_zero (n : Z) (f : float) :
  0 < n -> float_of_int n = Ok f -> abs_quotient 0 n n = Ok fzero.
Proof.
  intros Hn Hf. unfold abs_quotient. rewrite float_of_int_0. simpl.
  rewrite (zero_div_pos n f Hn Hf). simpl.
  rewrite (zero_div_pos n f Hn Hf). reflexivity.
Qed.

Lemma float_of_int_raises (z : Z) (e : exn) :
  float_of_int z = Raise e -> e = OverflowError.
Proof.
  unfold float_of_int.
  destruct (binary_normalize prec emax z 0 false); congruence.
Qed.

Lemma float_div_int_raises (x : float) (n : Z) (e : exn) :
  float_div_int x n = Raise e -> e = OverflowError \/ e = ZeroDivisionError.
Proof.
  unfold float_div_int.
  destruct (float_of_int n) as [d|e'] eqn:E; simpl.
  - destruct (feqb d fzero); [|discriminate]. intros [= <-]. auto.
  - intros [= <-]. left. exact (float_of_int_raises _ _ E).
Qed.

Lemma abs_quotient_not_assertion (total n1 n2 : Z) :
  abs_quotient total n1 n2 <> Raise AssertionError.
Proof.
  unfold abs_quotient.
  destruct (float_of_int total) as [t|e] eqn:Et; simpl.
  - destruct (float_div_int t n1) as [q1|e] eqn:E1; simpl.
    + destruct (float_div_int q1 n2) as [q2|e] eqn:E2; simpl; [discriminate|].
      intros [= ->]. destruct (float_div_int_raises _ _ _ E2); discriminate.
    + intros [= ->]. destruct (float_div_int_raises _ _ _ E1); discriminate.
  - intros [= ->]. pose proof (float_of_int_raises _ _ Et). discriminate.
Qed.

(** C1. For two bucket sequences of equal length with positive sums [n1] and
    [n2], [HistogramDistance] walks the buckets in index order: after [k]
    buckets the loop holds the signed remainder, the sum over [i < k] of
    [hist1[i] * n2 - hist2[i] * n1], and the total of the absolute values of
    the remainders so far.  It returns [abs(float(total) / n1 / n2)] for the
    total of the whole walk, a float whenever [total], [n1] and [n2] convert
    to floats. *)
Theorem HistogramDistance_walks_buckets (hist1 hist2 : list Z) :
  length hist1 = length hist2 ->
  0 < Py.sum hist1 -> 0 < Py.sum hist2 ->
  let n1 := Py.sum hist1 in
  let n2 := Py.sum hist2 in
  let total := total_after n1 n2 hist1 hist2 (length hist1) in
  (forall k : nat, (k <= length hist1)%nat ->
     walk n1 n2 (take k hist1) (take k hist2)
     = (total_after n1 n2 hist1 hist2 k, remainder_after n1 n2 hist1 hist2 k))
  /\ HistogramDistance hist1 hist2 = abs_quotient total n1 n2
  /\ (forall t f1 f2 : float,
        float_of_int total = Ok t -> float_of_int n1 = Ok f1 ->
        float_of_int n2 = Ok f2 ->
        HistogramDistance hist1 hist2
        = Ok (fabs (SFdiv prec emax (SFdiv prec emax t f1) f2))).
Proof.
  intros Hlen H1 H2 n1 n2 total. split; [|split].
  - intros k Hk. apply walk_prefix; assumption.
  - apply HistogramDistance_reaches_quotient; [assumption|lia|lia].
  - intros t f1 f2 Ht Hf1 Hf2.
    rewrite HistogramDistance_reaches_quotient by (auto; lia).
    apply abs_quotient_value; assumption.
Qed.

(** The theorem at the histograms [0, 3] and [1, 4]: the total is 3, the sums
    are 3 and 5, and the result is the float 0.2. *)
Lemma HistogramDistance_walks_buckets_witness :
  HistogramDistance [0; 3] [1; 4]
  = Ok (S754_finite false 7205759403792794 (-55)).
Proof.
  apply (proj2 (proj2 (HistogramDistance_walks_buckets [0; 3] [1; 4]
                         eq_refl eq_refl eq_refl))
           (S754_finite false 6755399441055744 (-51))
           (S754_finite false 6755399441055744 (-51))
           (S754_finite false 5629499534213120 (-50))); reflexivity.
Defined.

(** C2. For two bucket sequences of equal length with positive sums, the
    remainder after the last bucket is [sum(hist1) * n2 - sum(hist2) * n1],
    which is 0, so that [assert remainder == 0] passes: the call does not
    raise [AssertionError]. *)
Theorem HistogramDistance_remainder_zero (hist1 hist2 : list Z) :
  length hist1 = length hist2 ->
  0 < Py.sum hist1 -> 0 < Py.sum hist2 ->
  let n1 := Py.sum hist1 in
  let n2 := Py.sum hist2 in
  (walk n1 n2 hist1 hist2).2 = Py.sum hist1 * n2 - Py.sum hist2 * n1
  /\ (walk n1 n2 hist1 hist2).2 = 0
  /\ HistogramDistance hist1 hist2 <> Raise AssertionError.
Proof.
  intros Hlen H1 H2 n1 n2. subst n1 n2.
  rewrite walk_full by exact Hlen. simpl.
  rewrite remainder_after_all by exact Hlen. split; [lia|]. split; [reflexivity|].
  rewrite HistogramDistance_reaches_quotient by (auto; lia).
  apply abs_quotient_not_assertion.
Qed.

(** The theorem at the histograms [1, 2, 3] and [4, 5, 6]. *)
Lemma HistogramDistance_remainder_zero_witness :
  (walk 6 15 [1; 2; 3] [4; 5; 6]).2 = 0.
Proof.
  apply (proj1 (proj2 (HistogramDistance_remainder_zero [1; 2; 3] [4; 5; 6]
                         eq_refl eq_refl eq_refl))).
Defined.

(** C3 as stated fails: the histograms [0, 3] and [1, 4] have equal length
    and positive sums, and their distance is 0.2 in one order and
    0.19999999999999998 in the other, because the float [3.0] is divided by 3
    and then 5 in one call and by 5 and then 3 in the other. *)
Lemma HistogramDistance_not_symmetric :
  length [0; 3] = length [1; 4]
  /\ 0 < Py.sum [0; 3] /\ 0 < Py.sum [1; 4]
  /\ HistogramDistance [0; 3] [1; 4]
     = Ok (S754_finite false 7205759403792794 (-55))
  /\ HistogramDistance [1; 4] [0; 3]
     = Ok (S754_finite false 7205759403792793 (-55))
  /\ res_float_eqb (HistogramDistance [0; 3] [1; 4])
                   (HistogramDistance [1; 4] [0; 3]) = false
  /\ HistogramDistance [0; 3] [1; 4] <> HistogramDistance [1; 4] [0; 3].
Proof.
  repeat split; try reflexivity. vm_compute. discriminate.
Qed.

(** The distance of a histogram to itself is not 0 when its sum is beyond
    the floats: the division raises [OverflowError]. *)
Example HistogramDistance_self_overflow :
  HistogramDistance [2 ^ 1024] [2 ^ 1024] = Raise OverflowError.
Proof. vm_compute. reflexivity. Qed.

(** C3, amended.  For two bucket sequences of equal length with positive sums
    the walk accumulates the same integer total in both orders, so that the
    two calls return [abs(float(total) / n1 / n2)] and
    [abs(float(total) / n2 / n1)]; these are equal when [n1 = n2].  The
    distance of a sequence with a positive sum to itself is 0.0 whenever the
    sum converts to a float. *)
Theorem HistogramDistance_symmetric_total (hist1 hist2 : list Z) :
  length hist1 = length hist2 ->
  0 < Py.sum hist1 -> 0 < Py.sum hist2 ->
  let n1 := Py.sum hist1 in
  let n2 := Py.sum hist2 in
  let total := (walk n1 n2 hist1 hist2).1 in
  (walk n2 n1 hist2 hist1).1 = total
  /\ HistogramDistance hist1 hist2 = abs_quotient total n1 n2
  /\ HistogramDistance hist2 hist1 = abs_quotient total n2 n1
  /\ (n1 = n2 -> HistogramDistance hist1 hist2 = HistogramDistance hist2 hist1)
  /\ (forall f : float, float_of_int n1 = Ok f ->
        HistogramDistance hist1 hist1 = Ok fzero).
Proof.
  intros Hlen H1 H2 n1 n2 total. subst total n1 n2.
  rewrite (walk_full _ _ hist1 hist2) by exact Hlen.
  rewrite (walk_full _ _ hist2 hist1) by (symmetry; exact Hlen).
  cbn [fst].
  rewrite !(HistogramDistance_reaches_quotient hist1 hist2) by (auto; lia).
  rewrite !(HistogramDistance_reaches_quotient hist2 hist1) by (auto; lia).
  rewrite <- Hlen, total_after_swap.
  split; [reflexivity|]. split; [reflexivity|]. split; [reflexivity|].
  split.
  - intros ->. reflexivity.
  - intros f Hf.
    rewrite HistogramDistance_reaches_quotient by (auto; lia).
    rewrite total_after_self. apply (abs_quotient_zero _ f); assumption.
Qed.

(** The theorem at two histograms of sum 5, and at one of them against itself.
    *)
Lemma HistogramDistance_symmetric_total_witness :
  HistogramDistance [2; 0; 3] [1; 1; 3] = HistogramDistance [1; 1; 3] [2; 0; 3]
  /\ HistogramDistance [2; 0; 3] [2; 0; 3] = Ok fzero.
Proof.
  pose proof (HistogramDistance_symmetric_total [2; 0; 3] [1; 1; 3]
                eq_refl eq_refl eq_refl) as (_ & _ & _ & Hsym & Hself).
  split; [apply Hsym; reflexivity|].
  apply (Hself (S754_finite false 5629499534213120 (-50))). reflexivity.
Defined.

(** ** RgbaColor.IsEqual *)

(** C4. [c.IsEqual(e, t)] is true exactly when each of the four channels of
    [c] is within [t] of the same channel of [e], channel by channel; so
    (10,10,10) equals (12,12,12) within 2 and not within 1, although the
    colours are further apart than 2 as points. *)
Theorem RgbaColor_IsEqual_per_channel (c e : RgbaColor.t) (t : Z) :
  (RgbaColor.IsEqual c e t = true
   <-> Z.abs (RgbaColor.r c - RgbaColor.r e) <= t
       /\ Z.abs (RgbaColor.g c - RgbaColor.g e) <= t
       /\ Z.abs (RgbaColor.b c - RgbaColor.b e) <= t
       /\ Z.abs (RgbaColor.a c - RgbaColor.a e) <= t)
  /\ RgbaColor.IsEqual (RgbaColor.new 10 10 10) (RgbaColor.new 12 12 12) 2
     = true
  /\ RgbaColor.IsEqual (RgbaColor.new 10 10 10) (RgbaColor.new 12 12 12) 1
     = false.
Proof.
  split; [|split; reflexivity].
  unfold RgbaColor.IsEqual. cbv zeta.
  rewrite !andb_true_iff, !Z.leb_le. tauto.
Qed.

(** ** ColorHistogram.Distance *)

Lemma norm_index_in_range (n : nat) (i : Z) :
  0 <= i < Z.of_nat n -> norm_index n i = Some (Z.to_nat i).
Proof.
  intros Hi. unfold norm_index.
  destruct (Z.ltb_spec i 0); [lia|].
  destruct (Z.leb_spec 0 i); [|lia].
  destruct (Z.ltb_spec i (Z.of_nat n)); [reflexivity|lia].
Qed.

Lemma spike_length (v : Z) : length (ColorHistogram.spike v) = 256%nat.
Proof. unfold ColorHistogram.spike. rewrite length_fmap, length_seqZ. reflexivity. Qed.

Lemma spike_lookup (v : Z) (j : nat) :
  (j < 256)%nat ->
  ColorHistogram.spike v !! j = Some (if Z.of_nat j =? v then 1 else 0).
Proof.
  intros Hj. unfold ColorHistogram.spike.
  rewrite list_lookup_fmap, lookup_seqZ_lt by lia. reflexivity.
Qed.

(** [hist = [0] * 256; hist[v] = 1] builds the spike at [v]. *)
Lemma setitem_spike (v : Z) :
  0 <= v < 256 ->
  Py.setitem (replicate 256 0) v 1 = Ok (ColorHistogram.spike v).
Proof.
  intros Hv. unfold Py.setitem.
  rewrite length_replicate, norm_index_in_range by lia. f_equal.
  apply list_eq. intros j.
  destruct (decide (j < 256)%nat) as [Hj|Hj].
  - rewrite spike_lookup by exact Hj.
    destruct (decide (j = Z.to_nat v)) as [->|Hne].
    + rewrite list_lookup_insert_eq by (rewrite length_replicate; lia).
      rewrite Z2Nat.id by lia. rewrite Z.eqb_refl. reflexivity.
    + rewrite list_lookup_insert_ne by congruence.
      rewrite lookup_replicate_2 by exact Hj.
      destruct (Z.eqb_spec (Z.of_nat j) v); [lia|reflexivity].
  - rewrite !lookup_ge_None_2; [reflexivity| |].
    + rewrite spike_length. lia.
    + rewrite length_insert, length_replicate. lia.
Qed.

Lemma operand_data (h : ColorHistogram.t) (i : nat) :
  Py.sum (ColorHistogram.getitem h i) <> 0 ->
  ColorHistogram.operand h i = Ok (ColorHistogram.getitem h i).
Proof.
  intros Hs. unfold ColorHistogram.operand.
  destruct (Z.eqb_spec (Py.sum (ColorHistogram.getitem h i)) 0);
    [contradiction|reflexivity].
Qed.

Lemma operand_default (h : ColorHistogram.t) (i : nat) (c : RgbaColor.t) :
  Py.sum (ColorHistogram.getitem h i) = 0 ->
  ColorHistogram.default_color h = Some c ->
  0 <= RgbaColor.getitem c i < 256 ->
  ColorHistogram.operand h i = Ok (ColorHistogram.spike (RgbaColor.getitem c i)).
Proof.
  intros Hs Hc Hv. unfold ColorHistogram.operand.
  rewrite Hs, Hc. simpl. apply setitem_spike. exact Hv.
Qed.


(** ** The object store *)

Lemma get_held (h : gmap nat Bitmap.t) (self : Bitmap.ref) (o : Bitmap.t) :
  h !! self = Some o -> Bitmap.get self h = (Ok o, h).
Proof. intros H. unfold Bitmap.get. rewrite H. reflexivity. Qed.

Lemma modify_held (h : gmap nat Bitmap.t) (self : Bitmap.ref) (o : Bitmap.t)
    (f : Bitmap.t -> Bitmap.t) :
  h !! self = Some o -> Bitmap.modify self f h = (Ok tt, <[self := f o]> h).
Proof.
  intros H. unfold Bitmap.modify, Bitmap.bind. rewrite (get_held _ _ _ H).
  reflexivity.
Qed.

Lemma bind_ok {A B : Type} (m : Bitmap.M A) (k : A -> Bitmap.M B)
    (h h' : gmap nat Bitmap.t) (v : A) :
  m h = (Ok v, h') -> Bitmap.bind m k h = k v h'.
Proof. intros Hm. unfold Bitmap.bind. rewrite Hm. reflexivity. Qed.

Lemma width_held (h : gmap nat Bitmap.t) (self : Bitmap.ref) (o : Bitmap.t) :
  h !! self = Some o -> Bitmap.width self h = (Ok (Bitmap.logical_width o), h).
Proof.
  intros H. unfold Bitmap.width, Bitmap.bind. rewrite (get_held _ _ _ H).
  reflexivity.
Qed.

Lemma height_held (h : gmap nat Bitmap.t) (self : Bitmap.ref) (o : Bitmap.t) :
  h !! self = Some o -> Bitmap.height self h = (Ok (Bitmap.logical_height o), h).
Proof.
  intros H. unfold Bitmap.height, Bitmap.bind. rewrite (get_held _ _ _ H).
  reflexivity.
Qed.

Lemma bpp_held (h : gmap nat Bitmap.t) (self : Bitmap.ref) (o : Bitmap.t) :
  h !! self = Some o -> Bitmap.bpp self h = (Ok (Bitmap._bpp o), h).
Proof.
  intros H. unfold Bitmap.bpp, Bitmap.bind. rewrite (get_held _ _ _ H).
  reflexivity.
Qed.

(** The active box has the logical size. *)
Lemma active_box_size (o : Bitmap.t) :
  exists l t, Bitmap.active_box o
              = (l, t, Bitmap.logical_width o, Bitmap.logical_height o).
Proof.
  unfold Bitmap.active_box, Bitmap.logical_width, Bitmap.logical_height.
  destruct (Bitmap._crop_box o) as [[[[l t] w] hh]|]; eauto.
Qed.

(** ** Indexing *)

Lemma norm_index_nat (n i : nat) :
  (i < n)%nat -> norm_index n (Z.of_nat i) = Some i.
Proof.
  intros Hi. unfold norm_index.
  destruct (Z.ltb_spec (Z.of_nat i) 0); [lia|].
  destruct (Z.leb_spec 0 (Z.of_nat i)); [|lia].
  destruct (Z.ltb_spec (Z.of_nat i) (Z.of_nat n)); [|lia].
  cbn. rewrite Nat2Z.id. reflexivity.
Qed.

Lemma getitem_nat {A : Type} (l : list A) (i : nat) (a : A) :
  l !! i = Some a -> Py.getitem l (Z.of_nat i) = Ok a.
Proof.
  intros Hl. unfold Py.getitem.
  rewrite norm_index_nat by (eapply lookup_lt_Some; exact Hl).
  rewrite Hl. reflexivity.
Qed.

Lemma setitem_nat {A : Type} (l : list A) (i : nat) (a : A) :
  (i < length l)%nat -> Py.setitem l (Z.of_nat i) a = Ok (<[i := a]> l).
Proof.
  intros Hi. unfold Py.setitem. rewrite norm_index_nat by exact Hi.
  reflexivity.
Qed.

(** ** Reading a colour from a buffer *)

Lemma color_at_3 (w : Z) (buf : list byte) (x y : Z) (n : nat)
    (b0 b1 b2 : byte) :
  3 * (y * w + x) = Z.of_nat n ->
  buf !! n = Some b0 -> buf !! (n + 1)%nat = Some b1 ->
  buf !! (n + 2)%nat = Some b2 ->
  Bitmap.color_at 3 w buf x y
  = Ok (RgbaColor.new (Bitmap.int_of_byte b0) (Bitmap.int_of_byte b1)
          (Bitmap.int_of_byte b2)).
Proof.
  intros Hn H0 H1 H2. unfold Bitmap.color_at. cbv zeta. rewrite Hn.
  cbn [Z.eqb Pos.eqb].
  replace (Z.of_nat n + 0) with (Z.of_nat n) by lia.
  replace (Z.of_nat n + 1) with (Z.of_nat (n + 1)) by lia.
  replace (Z.of_nat n + 2) with (Z.of_nat (n + 2)) by lia.
  rewrite (getitem_nat _ _ _ H0), (getitem_nat _ _ _ H1),
    (getitem_nat _ _ _ H2).
  reflexivity.
Qed.

Lemma color_at_4 (w : Z) (buf : list byte) (x y : Z) (n : nat)
    (b0 b1 b2 b3 : byte) :
  4 * (y * w + x) = Z.of_nat n ->
  buf !! n = Some b0 -> buf !! (n + 1)%nat = Some b1 ->
  buf !! (n + 2)%nat = Some b2 -> buf !! (n + 3)%nat = Some b3 ->
  Bitmap.color_at 4 w buf x y
  = Ok (RgbaColor.mk (Bitmap.int_of_byte b0) (Bitmap.int_of_byte b1)
          (Bitmap.int_of_byte b2) (Bitmap.int_of_byte b3)).
Proof.
  intros Hn H0 H1 H2 H3. unfold Bitmap.color_at. cbv zeta. rewrite Hn.
  cbn [Z.eqb Pos.eqb].
  replace (Z.of_nat n + 0) with (Z.of_nat n) by lia.
  replace (Z.of_nat n + 1) with (Z.of_nat (n + 1)) by lia.
  replace (Z.of_nat n + 2) with (Z.of_nat (n + 2)) by lia.
  replace (Z.of_nat n + 3) with (Z.of_nat (n + 3)) by lia.
  rewrite (getitem_nat _ _ _ H0), (getitem_nat _ _ _ H1),
    (getitem_nat _ _ _ H2), (getitem_nat _ _ _ H3).
  reflexivity.
Qed.

(** A pixel inside a buffer of the right length starts where its bytes all
    lie inside the buffer. *)
Lemma pixel_offset (bpp w hh x y : Z) (len : nat) :
  0 < bpp -> Z.of_nat len = bpp * w * hh ->
  0 <= x < w -> 0 <= y < hh ->
  exists n : nat, bpp * (y * w + x) = Z.of_nat n
                  /\ (Z.of_nat n + bpp <= Z.of_nat len).
Proof.
  intros Hb Hlen Hx Hy.
  assert (H0 : 0 <= y * w + x) by nia.
  assert (H1 : y * w + x + 1 <= w * hh) by nia.
  exists (Z.to_nat (bpp * (y * w + x))).
  rewrite Z2Nat.id by nia. split; [reflexivity|]. nia.
Qed.

Lemma color_at_ok (bpp w hh : Z) (buf : list byte) (x y : Z) :
  bpp = 3 \/ bpp = 4 ->
  Z.of_nat (length buf) = bpp * w * hh ->
  0 <= x < w -> 0 <= y < hh ->
  exists c, Bitmap.color_at bpp w buf x y = Ok c.
Proof.
  intros Hb Hlen Hx Hy.
  destruct (pixel_offset bpp w hh x y (length buf)) as (n & Hn & Hend);
    [lia|assumption..|].
  destruct Hb as [-> | ->].
  - destruct (lookup_lt_is_Some_2 buf n) as [b0 H0]; [lia|].
    destruct (lookup_lt_is_Some_2 buf (n + 1)) as [b1 H1]; [lia|].
    destruct (lookup_lt_is_Some_2 buf (n + 2)) as [b2 H2]; [lia|].
    eexists. apply (color_at_3 w buf x y n b0 b1 b2); assumption.
  - destruct (lookup_lt_is_Some_2 buf n) as [b0 H0]; [lia|].
    destruct (lookup_lt_is_Some_2 buf (n + 1)) as [b1 H1]; [lia|].
    destruct (lookup_lt_is_Some_2 buf (n + 2)) as [b2 H2]; [lia|].
    destruct (lookup_lt_is_Some_2 buf (n + 3)) as [b3 H3]; [lia|].
    eexists. apply (color_at_4 w buf x y n b0 b1 b2 b3); assumption.
Qed.

(** ** [pixels] and [GetPixelColor] through the views *)

Section Views.

Context `{Bitmap.PixelEngine}.

Lemma view_materialized (o : Bitmap.t) (buf : list byte) :
  (Bitmap.view o).2 = Ok buf ->
  Bitmap.view (Bitmap.materialized o buf) = Bitmap.view o.
Proof.
  intros Hv. unfold Bitmap.view in *. simpl in *. rewrite Hv. reflexivity.
Qed.

(** [pixels] yields the bytes of the view and leaves the materialized
    object. *)
Lemma pixels_yields (h : gmap nat Bitmap.t) (self : Bitmap.ref) (o : Bitmap.t)
    (buf : list byte) :
  h !! self = Some o -> (Bitmap.view o).2 = Ok buf ->
  Bitmap.pixels self h = (Ok buf, <[self := Bitmap.materialized o buf]> h).
Proof.
  intros Ho Hv. unfold Bitmap.pixels, Bitmap.bind at 1.
  rewrite (get_held _ _ _ Ho).
  destruct o as [bpp w0 h0 px [[[[l t] w] hh]|]]; unfold Bitmap.view in Hv;
    simpl in Hv; cbn [Bitmap._crop_box].
  - unfold Bitmap.bind, Bitmap.lift. rewrite Hv.
    rewrite (modify_held _ _ _ _ Ho).
    rewrite (modify_held _ _ _ _ (lookup_insert_eq _ _ _)).
    rewrite (modify_held _ _ _ _ (lookup_insert_eq _ _ _)).
    rewrite (get_held _ _ _ (lookup_insert_eq _ _ _)).
    cbn. rewrite (modify_held _ _ _ _ (lookup_insert_eq _ _ _)).
    rewrite !insert_insert_eq. reflexivity.
  - unfold Bitmap.bind, Bitmap.ret. rewrite (get_held _ _ _ Ho).
    destruct px as [ints|s|s]; cbn [Bitmap._pixels]; simpl in Hv.
    + unfold Bitmap.lift. cbn [Bitmap._pixels Bitmap.bytearray]. simpl.
      destruct (mapM Bitmap.byte_of_int ints) as [s|]; [|discriminate].
      injection Hv as <-. rewrite (modify_held _ _ _ _ Ho). reflexivity.
    + injection Hv as <-. unfold Bitmap.lift. simpl.
      rewrite (modify_held _ _ _ _ Ho). reflexivity.
    + injection Hv as <-. rewrite insert_id by exact Ho. reflexivity.
Qed.

(** When the view has no bytes, [pixels] raises and the store stays. *)
Lemma pixels_raises (h : gmap nat Bitmap.t) (self : Bitmap.ref) (o : Bitmap.t)
    (e : exn) :
  h !! self = Some o -> (Bitmap.view o).2 = Raise e ->
  Bitmap.pixels self h = (Raise e, h).
Proof.
  intros Ho Hv. unfold Bitmap.pixels, Bitmap.bind at 1.
  rewrite (get_held _ _ _ Ho).
  destruct o as [bpp w0 h0 px [[[[l t] w] hh]|]]; unfold Bitmap.view in Hv;
    simpl in Hv; cbn [Bitmap._crop_box].
  - unfold Bitmap.bind, Bitmap.lift. rewrite Hv. reflexivity.
  - unfold Bitmap.bind, Bitmap.ret. rewrite (get_held _ _ _ Ho).
    destruct px as [ints|s|s]; cbn [Bitmap._pixels]; simpl in Hv;
      try discriminate.
    unfold Bitmap.lift. simpl.
    destruct (mapM Bitmap.byte_of_int ints) as [s|]; [discriminate|].
    injection Hv as <-. reflexivity.
Qed.

Lemma GetPixelColor_view (h : gmap nat Bitmap.t) (self : Bitmap.ref)
    (o : Bitmap.t) (x y : Z) :
  h !! self = Some o ->
  Bitmap.GetPixelColor self x y h
  = (Bitmap.color_of_view (Bitmap.view o) x y, Bitmap.settled h self o).
Proof.
  intros Ho. unfold Bitmap.GetPixelColor, Bitmap.bind, Bitmap.settled.
  destruct (Bitmap.view o) as [[[bpp w] hh] [buf|e]] eqn:Ev.
  - rewrite (pixels_yields h self o buf Ho) by (rewrite Ev; reflexivity).
    rewrite (get_held _ _ _ (lookup_insert_eq _ _ _)).
    cbn. unfold Bitmap.view in Ev. injection Ev as <- <- _ _. reflexivity.
  - rewrite (pixels_raises h self o e Ho) by (rewrite Ev; reflexivity).
    reflexivity.
Qed.

Lemma shows_same_refl (h : gmap nat Bitmap.t) : Bitmap.shows_same h h.
Proof. intros r o Ho. eauto. Qed.

Lemma shows_same_trans (h0 h1 h2 : gmap nat Bitmap.t) :
  Bitmap.shows_same h0 h1 -> Bitmap.shows_same h1 h2 ->
  Bitmap.shows_same h0 h2.
Proof.
  intros H01 H12 r o0 Ho0.
  destruct (H01 r o0 Ho0) as (o1 & Ho1 & Hv1).
  destruct (H12 r o1 Ho1) as (o2 & Ho2 & Hv2).
  exists o2. split; [exact Ho2|congruence].
Qed.

Lemma shows_same_settled (h : gmap nat Bitmap.t) (self : Bitmap.ref)
    (o : Bitmap.t) :
  h !! self = Some o -> Bitmap.shows_same h (Bitmap.settled h self o).
Proof.
  intros Ho. unfold Bitmap.settled.
  destruct ((Bitmap.view o).2) as [buf|e] eqn:Ev; [|apply shows_same_refl].
  intros r o0 Ho0. destruct (decide (r = self)) as [->|Hne].
  - rewrite lookup_insert_eq. eexists. split; [reflexivity|].
    rewrite Ho in Ho0. injection Ho0 as <-. apply view_materialized. exact Ev.
  - rewrite lookup_insert_ne by congruence. eauto.
Qed.

(** [side_color] computes [side_of_view] and keeps what the store shows. *)
Lemma side_color_view (h : gmap nat Bitmap.t) (self : Bitmap.ref)
    (o : Bitmap.t) (x y : Z) :
  h !! self = Some o ->
  (Bitmap.side_color self x y h).1 = Bitmap.side_of_view (Bitmap.view o) x y
  /\ Bitmap.shows_same h (Bitmap.side_color self x y h).2.
Proof.
  intros Ho. unfold Bitmap.side_color, Bitmap.bind.
  rewrite (width_held _ _ _ Ho). unfold Bitmap.side_of_view, Bitmap.view.
  destruct (x <? Bitmap.logical_width o); cbn [andb].
  - rewrite (height_held _ _ _ Ho). cbn.
    destruct (y <? Bitmap.logical_height o).
    + rewrite (GetPixelColor_view _ _ _ _ _ Ho). cbn [fst snd].
      split; [reflexivity|apply shows_same_settled; exact Ho].
    + split; [reflexivity|apply shows_same_refl].
  - cbn. split; [reflexivity|apply shows_same_refl].
Qed.

(** The constructor hands out a new reference to an object that satisfies
    the invariant. *)
Lemma init_well_formed (bpp w hh : Z) (s : list byte)
    (h h' : gmap nat Bitmap.t) (r : Bitmap.ref) :
  Bitmap.__init__ bpp w hh (Bitmap.ByteArray s) h = (Ok r, h') ->
  h !! r = None
  /\ h' = <[r := Bitmap.mk bpp w hh (Bitmap.ByteArray s) None]> h
  /\ Bitmap.well_formed (Bitmap.mk bpp w hh (Bitmap.ByteArray s) None).
Proof.
  unfold Bitmap.__init__, Bitmap.raise.
  destruct (Z.eqb_spec bpp 3) as [Hb3|Hb3];
    destruct (Z.eqb_spec bpp 4) as [Hb4|Hb4]; cbn [orb negb];
    try discriminate;
    (destruct (Z.gtb_spec w 0) as [Hw|Hw]; cbn [negb]; [|discriminate];
     destruct (Z.gtb_spec hh 0) as [Hh|Hh]; cbn [negb]; [|discriminate];
     destruct (Z.eqb_spec (Bitmap.len (Bitmap.ByteArray s)) 0);
       [discriminate|];
     destruct (Z.eqb_spec (bpp * w * hh) (Bitmap.len (Bitmap.ByteArray s)))
       as [Hlen|Hlen]; cbn [negb]; [|discriminate];
     intros [= <- <-];
     split; [apply not_elem_of_dom, is_fresh|];
     split; [reflexivity|];
     split; [auto|]; split; [cbn; lia|]; split; [cbn; lia|];
     exists s; split; [reflexivity|]; cbn in *; lia).
Qed.

(** A well-formed bitmap has a colour at every coordinate of its logical
    range. *)
Lemma color_of_view_ok (o : Bitmap.t) (x y : Z) :
  Bitmap.well_formed o ->
  0 <= x < Bitmap.logical_width o -> 0 <= y < Bitmap.logical_height o ->
  exists c, Bitmap.color_of_view (Bitmap.view o) x y = Ok c.
Proof.
  intros (Hb & _ & _ & buf & Hv & Hlen) Hx Hy.
  unfold Bitmap.color_of_view. unfold Bitmap.view in *. cbn [snd] in Hv.
  rewrite Hv. cbn [Py.bind].
  apply (color_at_ok _ _ (Bitmap.logical_height o)); assumption.
Qed.

Lemma side_of_view_ok (o : Bitmap.t) (x y : Z) :
  Bitmap.well_formed o -> 0 <= x -> 0 <= y ->
  exists c, Bitmap.side_of_view (Bitmap.view o) x y = Ok c.
Proof.
  intros Hwf Hx Hy. unfold Bitmap.side_of_view.
  change (Bitmap.view o)
    with (Bitmap._bpp o, Bitmap.logical_width o, Bitmap.logical_height o,
          (Bitmap.view o).2) at 1.
  cbv iota beta.
  destruct (Z.ltb_spec x (Bitmap.logical_width o));
    destruct (Z.ltb_spec y (Bitmap.logical_height o)); cbn [andb]; eauto.
  apply color_of_view_ok; [assumption|lia|lia].
Qed.

(** [contribution] is [side_of_view] on the view of the object. *)
Lemma contribution_view (h : gmap nat Bitmap.t) (self : Bitmap.ref)
    (o : Bitmap.t) (x y : Z) :
  h !! self = Some o ->
  Bitmap.contribution h self o x y = Bitmap.side_of_view (Bitmap.view o) x y.
Proof.
  intros Ho. unfold Bitmap.contribution, Bitmap.side_of_view.
  rewrite (GetPixelColor_view _ _ _ _ _ Ho). reflexivity.
Qed.

End Views.

(** ** The reference engine keeps the invariant *)

Lemma length_concat_fmap {A B : Type} (f : A -> list B) (n : nat) (l : list A) :
  (forall x, x ∈ l -> length (f x) = n) ->
  length (concat (f <$> l)) = (length l * n)%nat.
Proof.
  induction l as [|x l IH]; intros Hf; [reflexivity|].
  cbn [fmap list_fmap concat length]. rewrite length_app.
  rewrite (Hf x) by left. fold (fmap f l).
  rewrite IH by (intros y Hy; apply Hf; right; exact Hy). lia.
Qed.

Lemma crop_rows_length (bpp W H l t w h : Z) (s : list byte) :
  0 < bpp -> 0 <= l -> 0 <= t -> 0 <= w -> 0 <= h ->
  l + w <= W -> t + h <= H ->
  Z.of_nat (length s) = bpp * W * H ->
  Z.of_nat (length (Bitmap.crop_rows bpp W l t w h s)) = bpp * w * h.
Proof.
  intros Hb Hl Ht Hw Hh Hlw Hth Hlen. unfold Bitmap.crop_rows.
  rewrite (length_concat_fmap _ (Z.to_nat (bpp * w))).
  - rewrite length_seqZ. nia.
  - intros row Hrow. apply elem_of_seqZ in Hrow.
    rewrite length_take, length_drop.
    assert (H1 : (t + row + 1) * W <= H * W)
      by (apply Z.mul_le_mono_nonneg_r; lia).
    assert (H2 : (t + row) * W + l + w <= W * H) by lia.
    assert (H3 : bpp * ((t + row) * W + l + w) <= bpp * (W * H))
      by (apply Z.mul_le_mono_nonneg_l; lia).
    assert (H4 : 0 <= (t + row) * W + l) by nia.
    assert (H5 : 0 <= bpp * ((t + row) * W + l)) by nia.
    lia.
Qed.

(** A bitmap over a full buffer with a pending crop inside it is well formed
    for the reference engine. *)
Lemma reference_crop_well_formed (bpp W H l t w h : Z) (s : list byte) :
  bpp = 3 \/ bpp = 4 ->
  0 <= l -> 0 <= t -> 0 <= w -> 0 <= h ->
  l + w <= W -> t + h <= H -> W < 2 ^ 31 -> H < 2 ^ 31 ->
  Z.of_nat (length s) = bpp * W * H ->
  @Bitmap.well_formed Bitmap.reference_engine
    (Bitmap.mk bpp W H (Bitmap.ByteArray s) (Some (l, t, w, h))).
Proof.
  intros Hb Hl Ht Hw Hh Hlw Hth HW HH Hlen.
  assert (E31 : 2 ^ 31 = 2147483648) by reflexivity.
  split; [exact Hb|]. split; [exact Hw|]. split; [exact Hh|].
  exists (Bitmap.crop_rows bpp W l t w h s). split.
  - unfold Bitmap.view. cbn [snd Bitmap._crop_box].
    unfold Bitmap._PrepareTools_CropPixels, Bitmap.active_box.
    cbn [Bitmap._crop_box Bitmap._bpp Bitmap._width Bitmap._height
         Bitmap._pixels].
    unfold Bitmap.CropPixels. cbn [Bitmap.binary_exists
      Bitmap.reference_engine negb].
    assert (Hpack : Bitmap.struct_pack_i [bpp; W; H; l; t; w; h]
                    = Ok [bpp; W; H; l; t; w; h]).
    { unfold Bitmap.struct_pack_i.
      assert (Hall : forallb Bitmap.int32 [bpp; W; H; l; t; w; h] = true).
      { cbn [forallb]. unfold Bitmap.int32.
        rewrite !andb_true_iff, !Z.leb_le, !Z.ltb_lt. rewrite E31 in *.
        lia. }
      rewrite Hall. reflexivity. }
    rewrite Hpack. reflexivity.
  - cbn [Bitmap.logical_width Bitmap.logical_height Bitmap._crop_box
         Bitmap._bpp].
    apply (crop_rows_length bpp W H); try assumption. lia.
Qed.

(** ** Bitmap.Crop *)

(** The test that guards the [raise] in [Crop]. *)
Lemma Crop_guard (left top width height cur_width cur_height : Z) :
  (left <? 0) || (top <? 0) || (left + width >? cur_width)
  || (top + height >? cur_height) = true
  <-> left < 0 \/ top < 0 \/ left + width > cur_width
      \/ top + height > cur_height.
Proof.
  rewrite !orb_true_iff, !Z.ltb_lt, !Z.gtb_gt. tauto.
Qed.

Lemma Crop_invalid (h : gmap nat Bitmap.t) (self : Bitmap.ref) (o : Bitmap.t)
    (left top width height : Z) :
  h !! self = Some o ->
  left < 0 \/ top < 0 \/ left + width > Bitmap.logical_width o
  \/ top + height > Bitmap.logical_height o ->
  Bitmap.Crop self left top width height h = (Raise ValueError, h).
Proof.
  intros Ho Hbad. unfold Bitmap.Crop, Bitmap.bind.
  rewrite (get_held _ _ _ Ho).
  destruct (active_box_size o) as (l & t & ->).
  apply Crop_guard in Hbad. rewrite Hbad. reflexivity.
Qed.

Lemma Crop_valid (h : gmap nat Bitmap.t) (self : Bitmap.ref) (o : Bitmap.t)
    (left top width height : Z) :
  h !! self = Some o ->
  ~ (left < 0 \/ top < 0 \/ left + width > Bitmap.logical_width o
     \/ top + height > Bitmap.logical_height o) ->
  Bitmap.Crop self left top width height h
  = (Ok self,
     <[self := Bitmap.set_crop_box
                 (Some ((Bitmap.active_box o).1.1.1 + left,
                        (Bitmap.active_box o).1.1.2 + top, width, height)) o]>
       h).
Proof.
  intros Ho Hgood. unfold Bitmap.Crop, Bitmap.bind.
  rewrite (get_held _ _ _ Ho).
  destruct (active_box_size o) as (l & t & ->).
  rewrite <- Crop_guard in Hgood.
  destruct (_ || _ || _ || _); [exfalso; auto|].
  rewrite (modify_held _ _ _ _ Ho). reflexivity.
Qed.

(** C6. [Crop] raises [ValueError('Invalid dimensions')] exactly when
    [left < 0], [top < 0], [left + width] exceeds the current logical width
    or [top + height] the current logical height; then the store, and with
    it the crop box and the logical width and height of the bitmap, is what
    it was. *)
Theorem Crop_rejects_exactly_invalid_boxes
    (h : gmap nat Bitmap.t) (self : Bitmap.ref) (o : Bitmap.t)
    (left top width height : Z) :
  h !! self = Some o ->
  let invalid :=
    left < 0 \/ top < 0 \/ left + width > Bitmap.logical_width o
    \/ top + height > Bitmap.logical_height o in
  let out := Bitmap.Crop self left top width height h in
  (out.1 = Raise ValueError <-> invalid)
  /\ (invalid ->
      out.2 = h
      /\ out.2 !! self = Some o
      /\ (Bitmap.width self out.2).1 = Ok (Bitmap.logical_width o)
      /\ (Bitmap.height self out.2).1 = Ok (Bitmap.logical_height o)).
Proof.
  intros Ho invalid out. subst out. split.
  - split.
    + intros Hr.
      destruct ((left <? 0) || (top <? 0)
                || (left + width >? Bitmap.logical_width o)
                || (top + height >? Bitmap.logical_height o)) eqn:Eg.
      * apply Crop_guard. exact Eg.
      * assert (Hgood : ~ (left < 0 \/ top < 0
                           \/ left + width > Bitmap.logical_width o
                           \/ top + height > Bitmap.logical_height o)).
        { rewrite <- Crop_guard, Eg. discriminate. }
        rewrite (Crop_valid _ _ _ _ _ _ _ Ho Hgood) in Hr. discriminate.
    + intros Hbad. rewrite (Crop_invalid _ _ _ _ _ _ _ Ho Hbad). reflexivity.
  - intros Hbad. rewrite (Crop_invalid _ _ _ _ _ _ _ Ho Hbad). cbn [snd].
    rewrite (width_held _ _ _ Ho), (height_held _ _ _ Ho). auto.
Qed.

(** The theorem at the cropped example, whose logical width is 2: a box of
    width 2 from column 1 is refused. *)
Lemma Crop_rejects_exactly_invalid_boxes_witness :
  (Bitmap.Crop 0%nat 1 0 2 1 Bitmap.example_store).1 = Raise ValueError
  /\ (Bitmap.Crop 0%nat 1 0 2 1 Bitmap.example_store).2 = Bitmap.example_store.
Proof.
  pose proof (Crop_rejects_exactly_invalid_boxes Bitmap.example_store 0%nat
                Bitmap.example_cropped 1 0 2 1 eq_refl) as [Hiff Hsame].
  assert (Hbad : 1 < 0 \/ 0 < 0
                 \/ 1 + 2 > Bitmap.logical_width Bitmap.example_cropped
                 \/ 0 + 1 > Bitmap.logical_height Bitmap.example_cropped).
  { right. right. left. vm_compute. reflexivity. }
  split; [apply Hiff; exact Hbad|apply Hsame; exact Hbad].
Defined.

(** C7. A valid [Crop(left, top, width, height)] on a bitmap whose active box
    is [(cur_left, cur_top, _, _)], the whole image when no crop is pending,
    sets the pending box to [(cur_left + left, cur_top + top, width, height)];
    afterwards [width] and [height] report [width] and [height]; the call
    returns the object it was called on and the store holds no new object. *)
Theorem Crop_composes_boxes
    (h : gmap nat Bitmap.t) (self : Bitmap.ref) (o : Bitmap.t)
    (left top width height cur_left cur_top cur_width cur_height : Z) :
  h !! self = Some o ->
  Bitmap.active_box o = (cur_left, cur_top, cur_width, cur_height) ->
  0 <= left -> 0 <= top ->
  left + width <= cur_width -> top + height <= cur_height ->
  let out := Bitmap.Crop self left top width height h in
  out.1 = Ok self
  /\ out.2 = <[self := Bitmap.set_crop_box
                         (Some (cur_left + left, cur_top + top, width, height))
                         o]> h
  /\ Bitmap._crop_box <$> out.2 !! self
     = Some (Some (cur_left + left, cur_top + top, width, height))
  /\ (Bitmap.width self out.2).1 = Ok width
  /\ (Bitmap.height self out.2).1 = Ok height
  /\ dom out.2 = dom h.
Proof.
  intros Ho Hbox Hl Ht Hw Hh out. subst out.
  destruct (active_box_size o) as (l & t & Hsize).
  rewrite Hbox in Hsize. injection Hsize as <- <- Hcw Hch.
  rewrite (Crop_valid _ _ _ _ _ _ _ Ho) by lia.
  rewrite Hbox. cbn [fst snd].
  set (o' := Bitmap.set_crop_box _ o).
  assert (Ho' : <[self := o']> h !! self = Some o') by apply lookup_insert_eq.
  rewrite (width_held _ _ _ Ho'), (height_held _ _ _ Ho'), Ho'.
  repeat split; try reflexivity.
  apply dom_insert_lookup_L. rewrite Ho. eauto.
Qed.

(** The theorem at the cropped example, whose box starts at column 1: a crop
    from (1, 1) gives a box from (2, 1). *)
Lemma Crop_composes_boxes_witness :
  Bitmap._crop_box
  <$> (Bitmap.Crop 0%nat 1 1 1 1 Bitmap.example_store).2 !! 0%nat
  = Some (Some (2, 1, 1, 1)).
Proof.
  apply (Crop_composes_boxes Bitmap.example_store 0%nat
           Bitmap.example_cropped 1 1 1 1 1 0 2 2 eq_refl eq_refl);
    lia.
Defined.

(** C10. [Crop] does not check the sign of [width] and [height]: whenever
    [left] and [top] are not negative and the box ends inside the current
    logical size the call succeeds, also for a zero or negative [width] or
    [height], and the bitmap then reports that width and height, which breaks
    the invariant that both are positive. *)
Theorem Crop_accepts_non_positive_size
    (h : gmap nat Bitmap.t) (self : Bitmap.ref) (o : Bitmap.t)
    (left top width height : Z) :
  h !! self = Some o ->
  0 <= left -> 0 <= top ->
  left + width <= Bitmap.logical_width o ->
  top + height <= Bitmap.logical_height o ->
  let out := Bitmap.Crop self left top width height h in
  out.1 = Ok self
  /\ (Bitmap.width self out.2).1 = Ok width
  /\ (Bitmap.height self out.2).1 = Ok height
  /\ (width <= 0 \/ height <= 0 ->
      exists o', out.2 !! self = Some o'
                 /\ ~ (0 < Bitmap.logical_width o'
                       /\ 0 < Bitmap.logical_height o')).
Proof.
  intros Ho Hl Ht Hw Hh out. subst out.
  rewrite (Crop_valid _ _ _ _ _ _ _ Ho) by lia. cbn [fst snd].
  set (o' := Bitmap.set_crop_box _ o).
  assert (Ho' : <[self := o']> h !! self = Some o') by apply lookup_insert_eq.
  rewrite (width_held _ _ _ Ho'), (height_held _ _ _ Ho').
  repeat split; try reflexivity.
  intros Hneg. exists o'. split; [exact Ho'|].
  subst o'. unfold Bitmap.logical_width, Bitmap.logical_height. simpl. lia.
Qed.

(** The theorem at the whole example: a crop of width -1 and height 0 is
    accepted. *)
Lemma Crop_accepts_non_positive_size_witness :
  (Bitmap.Crop 1%nat 2 1 (-1) 0 Bitmap.example_store).1 = Ok 1%nat
  /\ (Bitmap.width 1%nat
        (Bitmap.Crop 1%nat 2 1 (-1) 0 Bitmap.example_store).2).1 = Ok (-1)
  /\ (Bitmap.height 1%nat
        (Bitmap.Crop 1%nat 2 1 (-1) 0 Bitmap.example_store).2).1 = Ok 0.
Proof.
  pose proof (Crop_accepts_non_positive_size Bitmap.example_store 1%nat
                Bitmap.example_whole 2 1 (-1) 0 eq_refl) as H.
  destruct H as (H1 & H2 & H3 & _);
    try lia; try (vm_compute; discriminate).
  auto.
Defined.

(** ** Loops over the store and loops without it *)

Lemma for_each_fold {A S : Type} (I : gmap nat Bitmap.t -> Prop)
    (body : A -> S -> Bitmap.M S) (f : A -> S -> Res S) :
  (forall x s h, I h -> (body x s h).1 = f x s /\ I (body x s h).2) ->
  forall l s h, I h ->
    (Bitmap.for_each l body s h).1 = Bitmap.fold_res f l s
    /\ I (Bitmap.for_each l body s h).2.
Proof.
  intros Hbody. induction l as [|x l IH]; intros s h HI.
  - split; [reflexivity|exact HI].
  - cbn [Bitmap.for_each Bitmap.fold_res]. unfold Bitmap.bind.
    destruct (Hbody x s h HI) as [Hv Hi].
    destruct (body x s h) as [[s'|e] h1]; cbn [fst snd] in Hv, Hi;
      rewrite <- Hv; cbn [Py.bind].
    + apply IH. exact Hi.
    + split; [reflexivity|exact Hi].
Qed.

Lemma for_return_first {A R : Type} (I : gmap nat Bitmap.t -> Prop)
    (body : A -> Bitmap.M (option R)) (f : A -> Res (option R)) :
  (forall x h, I h -> (body x h).1 = f x /\ I (body x h).2) ->
  forall l h, I h ->
    (Bitmap.for_return l body h).1 = Bitmap.first_return f l
    /\ I (Bitmap.for_return l body h).2.
Proof.
  intros Hbody. induction l as [|x l IH]; intros h HI.
  - split; [reflexivity|exact HI].
  - cbn [Bitmap.for_return Bitmap.first_return]. unfold Bitmap.bind.
    destruct (Hbody x h HI) as [Hv Hi].
    destruct (body x h) as [[[v|]|e] h1]; cbn [fst snd] in Hv, Hi;
      rewrite <- Hv; cbn [Py.bind].
    + split; [reflexivity|exact Hi].
    + apply IH. exact Hi.
    + split; [reflexivity|exact Hi].
Qed.

(** A loop whose turns each establish their own cell and keep the others
    establishes all its cells. *)
Lemma fold_res_cells {A S K : Type} (f : A -> S -> Res S) (key : A -> K)
    (P : S -> Prop) (Q : K -> S -> Prop) :
  forall l : list A,
    NoDup l ->
    (forall x x', x ∈ l -> x' ∈ l -> key x = key x' -> x = x') ->
    (forall x s, x ∈ l -> P s ->
       exists s', f x s = Ok s' /\ P s' /\ Q (key x) s'
                  /\ forall k, k <> key x -> Q k s -> Q k s') ->
    forall s, P s ->
      exists s', Bitmap.fold_res f l s = Ok s' /\ P s'
                 /\ (forall x, x ∈ l -> Q (key x) s')
                 /\ (forall k, (forall x, x ∈ l -> key x <> k) ->
                       Q k s -> Q k s').
Proof.
  induction l as [|x l IH]; intros Hnd Hinj Hstep s HP.
  - exists s. split; [reflexivity|]. split; [exact HP|]. split.
    + intros x Hx. inversion Hx.
    + auto.
  - apply NoDup_cons in Hnd as [Hx Hnd].
    destruct (Hstep x s ltac:(left) HP) as (s1 & Hf & HP1 & HQ1 & Hframe1).
    destruct (IH Hnd) with (s := s1) as (s' & Hfold & HP' & HQ' & Hframe');
      [| |exact HP1|].
    + intros a b Ha Hb. apply Hinj; right; assumption.
    + intros a t Ha. apply Hstep. right. exact Ha.
    + exists s'. cbn [Bitmap.fold_res]. rewrite Hf. cbn [Py.bind].
      split; [exact Hfold|]. split; [exact HP'|]. split.
      * intros a Ha. apply elem_of_cons in Ha as [->|Ha]; [|apply HQ'; exact Ha].
        apply Hframe'; [|exact HQ1].
        intros b Hb Hkey. apply Hx.
        rewrite <- (Hinj b x ltac:(right; exact Hb) ltac:(left) Hkey).
        exact Hb.
      * intros k Hk HQ. apply Hframe'.
        -- intros b Hb. apply Hk. right. exact Hb.
        -- apply Hframe1; [|exact HQ]. intros ->. apply (Hk x); [left|reflexivity].
Qed.

(** ** Cells *)

Lemma set_cell_nat (diff : list (list Z)) (i j : nat) (row : list Z) (v : Z) :
  diff !! i = Some row -> (j < length row)%nat ->
  Bitmap.set_cell diff (Z.of_nat i) (Z.of_nat j) v
  = Ok (<[i := <[j := v]> row]> diff).
Proof.
  intros Hrow Hj. unfold Bitmap.set_cell.
  rewrite (getitem_nat _ _ _ Hrow). cbn [Py.bind].
  rewrite (setitem_nat _ _ _ Hj). cbn [Py.bind].
  apply setitem_nat. eapply lookup_lt_Some. exact Hrow.
Qed.

Lemma in_range_iff (n x : Z) : x ∈ Py.range n <-> 0 <= x < n.
Proof. unfold Py.range. rewrite elem_of_seqZ. lia. Qed.

(** ** The three stores of one pixel *)

Lemma write_pixel_cell (rows cols : Z) (diff : list (list Z)) (i j : nat)
    (c0 c1 : RgbaColor.t) :
  Bitmap.grid_shape rows cols diff ->
  Z.of_nat i < rows -> Z.of_nat j < cols ->
  exists g,
    Bitmap.write_pixel diff (Z.of_nat i) (Z.of_nat j) c0 c1 = Ok g
    /\ Bitmap.grid_shape rows cols g
    /\ Bitmap.cell_holds g i j (Bitmap.channel_diffs c0 c1)
    /\ forall i' j' vals, (i', j') <> (i, j) ->
         Bitmap.cell_holds diff i' j' vals -> Bitmap.cell_holds g i' j' vals.
Proof.
  intros [Hlen Hrows] Hi Hj.
  assert (Hi' : (i < length diff)%nat) by lia.
  destruct (lookup_lt_is_Some_2 diff i Hi') as [row Hrow].
  assert (Hlrow : length row = Z.to_nat (3 * cols)).
  { apply Hrows. eapply list_elem_of_lookup_2. exact Hrow. }
  set (vr := Z.abs (RgbaColor.r c0 - RgbaColor.r c1)).
  set (vg := Z.abs (RgbaColor.g c0 - RgbaColor.g c1)).
  set (vb := Z.abs (RgbaColor.b c0 - RgbaColor.b c1)).
  set (row3 := <[(3 * j + 2)%nat := vb]>
                 (<[(3 * j + 1)%nat := vg]> (<[(3 * j)%nat := vr]> row))).
  exists (<[i := row3]> diff).
  assert (Hl3 : length row3 = length row).
  { subst row3. rewrite !length_insert. reflexivity. }
  split; [|split; [|split]].
  - unfold Bitmap.write_pixel. cbv zeta. fold vr vg vb.
    replace (Z.of_nat j * 3) with (Z.of_nat (3 * j)) by lia.
    replace (Z.of_nat (3 * j) + 1) with (Z.of_nat (3 * j + 1)) by lia.
    replace (Z.of_nat (3 * j) + 2) with (Z.of_nat (3 * j + 2)) by lia.
    rewrite (set_cell_nat diff i (3 * j) row vr Hrow) by lia.
    cbn [Py.bind].
    rewrite (set_cell_nat _ i (3 * j + 1) (<[(3 * j)%nat := vr]> row) vg)
      by (try apply list_lookup_insert_eq; rewrite ?length_insert; lia).
    cbn [Py.bind].
    rewrite (set_cell_nat _ i (3 * j + 2)
               (<[(3 * j + 1)%nat := vg]> (<[(3 * j)%nat := vr]> row)) vb)
      by (try apply list_lookup_insert_eq; rewrite ?length_insert; lia).
    rewrite !list_insert_insert_eq. reflexivity.
  - split; [rewrite length_insert; exact Hlen|].
    intros r Hr. apply list_elem_of_lookup_1 in Hr as [i' Hi'r].
    destruct (decide (i = i')) as [<-|Hne].
    + rewrite list_lookup_insert_eq in Hi'r by exact Hi'.
      injection Hi'r as <-. rewrite Hl3. exact Hlrow.
    + rewrite list_lookup_insert_ne in Hi'r by exact Hne.
      apply Hrows. eapply list_elem_of_lookup_2. exact Hi'r.
  - exists row3. split; [apply list_lookup_insert_eq; exact Hi'|].
    intros k Hk. subst row3.
    destruct k as [|[|[|k]]]; [| | |lia]; cbn [Bitmap.channel_diffs lookup].
    + rewrite Nat.add_0_r.
      rewrite !list_lookup_insert_ne by lia.
      apply list_lookup_insert_eq. lia.
    + rewrite list_lookup_insert_ne by lia.
      apply list_lookup_insert_eq. rewrite length_insert. lia.
    + apply list_lookup_insert_eq. rewrite !length_insert. lia.
  - intros i' j' vals Hne (r & Hr & Hvals).
    destruct (decide (i = i')) as [<-|Hi'ne].
    + rewrite Hrow in Hr. injection Hr as <-.
      exists row3. split; [apply list_lookup_insert_eq; exact Hi'|].
      intros k Hk. rewrite <- (Hvals k Hk). subst row3.
      assert (j' <> j) by congruence.
      rewrite !list_lookup_insert_ne by lia. reflexivity.
    + exists r. split; [|exact Hvals].
      rewrite list_lookup_insert_ne by exact Hi'ne. exact Hr.
Qed.

(** ** The grid of [Diff], without the store *)

Section Grid.

Variables va vb : Bitmap.view_t.
Variables rows cols : Z.

Hypothesis sides_ok :
  forall x y, 0 <= x < cols -> 0 <= y < rows ->
    exists c0 c1, Bitmap.side_of_view va x y = Ok c0
                  /\ Bitmap.side_of_view vb x y = Ok c1.

Lemma Diff_pixel_cell (y x : Z) (diff : list (list Z)) :
  0 <= y < rows -> 0 <= x < cols ->
  Bitmap.grid_shape rows cols diff ->
  exists g,
    Bitmap.Diff_pixel_of_views va vb y x diff = Ok g
    /\ Bitmap.grid_shape rows cols g
    /\ Bitmap.cell_done va vb (Z.to_nat y, Z.to_nat x) g
    /\ forall k, k <> (Z.to_nat y, Z.to_nat x) ->
         Bitmap.cell_done va vb k diff -> Bitmap.cell_done va vb k g.
Proof.
  intros Hy Hx Hshape.
  destruct (sides_ok x y Hx Hy) as (c0 & c1 & H0 & H1).
  destruct (write_pixel_cell rows cols diff (Z.to_nat y) (Z.to_nat x) c0 c1
              Hshape ltac:(lia) ltac:(lia)) as (g & Hg & Hsh & Hcell & Hframe).
  rewrite !Z2Nat.id in Hg by lia.
  exists g. unfold Bitmap.Diff_pixel_of_views. rewrite H0, H1. cbn [Py.bind].
  split; [exact Hg|]. split; [exact Hsh|]. split.
  - exists c0, c1. cbn [fst snd]. rewrite !Z2Nat.id by lia. auto.
  - intros [i j] Hne (d0 & d1 & Hd0 & Hd1 & Hc). exists d0, d1.
    split; [exact Hd0|]. split; [exact Hd1|].
    apply Hframe; [exact Hne|exact Hc].
Qed.

Lemma Diff_row_cells (y : Z) (diff : list (list Z)) :
  0 <= y < rows ->
  Bitmap.grid_shape rows cols diff ->
  exists g,
    Bitmap.fold_res (Bitmap.Diff_pixel_of_views va vb y) (Py.range cols) diff
    = Ok g
    /\ Bitmap.grid_shape rows cols g
    /\ (forall x, 0 <= x < cols ->
          Bitmap.cell_done va vb (Z.to_nat y, Z.to_nat x) g)
    /\ forall k, k.1 <> Z.to_nat y ->
         Bitmap.cell_done va vb k diff -> Bitmap.cell_done va vb k g.
Proof.
  intros Hy Hshape.
  destruct (fold_res_cells (Bitmap.Diff_pixel_of_views va vb y)
              (fun x => (Z.to_nat y, Z.to_nat x))
              (Bitmap.grid_shape rows cols) (Bitmap.cell_done va vb)
              (Py.range cols))
    with (s := diff) as (g & Hg & Hsh & Hcells & Hframe).
  - apply NoDup_seqZ.
  - intros x x' Hx Hx' [= Heq]. apply in_range_iff in Hx, Hx'. lia.
  - intros x s Hx Hs. apply in_range_iff in Hx.
    apply Diff_pixel_cell; assumption.
  - exact Hshape.
  - exists g. split; [exact Hg|]. split; [exact Hsh|]. split.
    + intros x Hx. apply Hcells. apply in_range_iff. exact Hx.
    + intros k Hk. apply Hframe. intros x _ Heq. apply Hk. rewrite <- Heq.
      reflexivity.
Qed.

Lemma Diff_rows_cells (diff : list (list Z)) :
  Bitmap.grid_shape rows cols diff ->
  exists g,
    Bitmap.fold_res
      (fun y => Bitmap.fold_res (Bitmap.Diff_pixel_of_views va vb y)
                  (Py.range cols))
      (Py.range rows) diff = Ok g
    /\ Bitmap.grid_shape rows cols g
    /\ forall x y, 0 <= x < cols -> 0 <= y < rows ->
         Bitmap.cell_done va vb (Z.to_nat y, Z.to_nat x) g.
Proof.
  intros Hshape.
  destruct (fold_res_cells
              (fun y => Bitmap.fold_res (Bitmap.Diff_pixel_of_views va vb y)
                          (Py.range cols))
              Z.to_nat (Bitmap.grid_shape rows cols)
              (fun i g => forall x, 0 <= x < cols ->
                 Bitmap.cell_done va vb (i, Z.to_nat x) g)
              (Py.range rows))
    with (s := diff) as (g & Hg & Hsh & Hcells & _).
  - apply NoDup_seqZ.
  - intros y y' Hy Hy' Heq. apply in_range_iff in Hy, Hy'. lia.
  - intros y s Hy Hs. apply in_range_iff in Hy.
    destruct (Diff_row_cells y s Hy Hs) as (g & Hg & Hsh & Hrow & Hframe).
    exists g. split; [exact Hg|]. split; [exact Hsh|]. split; [exact Hrow|].
    intros i Hi Hold x Hx. apply Hframe; [exact Hi|]. apply Hold. exact Hx.
  - exact Hshape.
  - exists g. split; [exact Hg|]. split; [exact Hsh|].
    intros x y Hx Hy. apply Hcells; [|exact Hx]. apply in_range_iff. exact Hy.
Qed.

End Grid.

(** ** Bitmap.Diff *)

Section DiffGrid.

Context `{Bitmap.PixelEngine}.

Lemma Diff_pixel_views (h0 h : gmap nat Bitmap.t) (a b : Bitmap.ref)
    (oa ob : Bitmap.t) (y x : Z) (diff : list (list Z)) :
  h0 !! a = Some oa -> h0 !! b = Some ob -> Bitmap.shows_same h0 h ->
  (Bitmap.Diff_pixel a b y x diff h).1
  = Bitmap.Diff_pixel_of_views (Bitmap.view oa) (Bitmap.view ob) y x diff
  /\ Bitmap.shows_same h0 (Bitmap.Diff_pixel a b y x diff h).2.
Proof.
  intros Ha Hb Hs. unfold Bitmap.Diff_pixel, Bitmap.Diff_pixel_of_views,
    Bitmap.bind.
  destruct (Hs a oa Ha) as (oa' & Ha' & Hva).
  destruct (side_color_view h a oa' x y Ha') as [Hv1 Hs1].
  rewrite Hva in Hv1.
  destruct (Bitmap.side_color a x y h) as [[c0|e] h1]; cbn [fst snd] in *;
    rewrite <- Hv1; cbn [Py.bind].
  - pose proof (shows_same_trans _ _ _ Hs Hs1) as Hs01.
    destruct (Hs01 b ob Hb) as (ob' & Hb' & Hvb).
    destruct (side_color_view h1 b ob' x y Hb') as [Hv2 Hs2].
    rewrite Hvb in Hv2.
    pose proof (shows_same_trans _ _ _ Hs01 Hs2) as Hs02.
    destruct (Bitmap.side_color b x y h1) as [[c1|e] h2]; cbn [fst snd] in *;
      rewrite <- Hv2; cbn [Py.bind].
    + unfold Bitmap.lift. cbn [fst snd]. split; [reflexivity|exact Hs02].
    + split; [reflexivity|exact Hs02].
  - split; [reflexivity|]. exact (shows_same_trans _ _ _ Hs Hs1).
Qed.

(** [Diff] computes its grid from the two views alone. *)
Lemma Diff_grid_views (h : gmap nat Bitmap.t) (a b : Bitmap.ref)
    (oa ob : Bitmap.t) :
  h !! a = Some oa -> h !! b = Some ob ->
  let cols := Z.max (Bitmap.logical_width oa) (Bitmap.logical_width ob) in
  let rows := Z.max (Bitmap.logical_height oa) (Bitmap.logical_height ob) in
  (Bitmap.Diff_grid a b h).1
  = Bitmap.fold_res
      (fun y => Bitmap.fold_res
                  (Bitmap.Diff_pixel_of_views (Bitmap.view oa) (Bitmap.view ob) y)
                  (Py.range cols))
      (Py.range rows)
      (replicate (Z.to_nat rows) (replicate (Z.to_nat (cols * 3)) 0)).
Proof.
  intros Ha Hb cols rows. unfold Bitmap.Diff_grid, Bitmap.bind.
  rewrite (width_held _ _ _ Ha), (width_held _ _ _ Hb),
    (height_held _ _ _ Ha), (height_held _ _ _ Hb).
  fold cols rows.
  apply (for_each_fold (Bitmap.shows_same h)); [|apply shows_same_refl].
  intros y s h1 Hs1.
  apply (for_each_fold (Bitmap.shows_same h)); [|exact Hs1].
  intros x s' h2 Hs2. apply (Diff_pixel_views h h2 a b oa ob); assumption.
Qed.

Lemma blank_grid_shape (rows cols : Z) :
  Bitmap.grid_shape rows cols
    (replicate (Z.to_nat rows) (replicate (Z.to_nat (cols * 3)) 0)).
Proof.
  split; [apply length_replicate|].
  intros row Hrow. apply elem_of_replicate_inv in Hrow as ->.
  rewrite length_replicate. f_equal. lia.
Qed.

(** A row whose cells all hold three zeros holds only zeros. *)
Lemma zero_cells_zero_row (g : list (list Z)) (cols : Z) (i : nat)
    (row : list Z) :
  g !! i = Some row -> length row = Z.to_nat (3 * cols) ->
  (forall j : nat, Z.of_nat j < cols -> Bitmap.cell_holds g i j [0; 0; 0]) ->
  forall v, v ∈ row -> v = 0.
Proof.
  intros Hrow Hlen Hcells v Hv.
  apply list_elem_of_lookup_1 in Hv as [n Hn].
  pose proof (lookup_lt_Some _ _ _ Hn) as Hlt.
  destruct (Hcells (n / 3)%nat) as (row' & Hrow' & Hvals).
  { pose proof (Nat.div_mod_eq n 3). pose proof (Nat.mod_upper_bound n 3). lia. }
  rewrite Hrow in Hrow'. injection Hrow' as <-.
  pose proof (Hvals (n mod 3)%nat ltac:(apply Nat.mod_upper_bound; lia)) as Hk.
  rewrite <- Nat.div_mod_eq in Hk. rewrite Hn in Hk.
  assert (Hm : (n mod 3 < 3)%nat) by (apply Nat.mod_upper_bound; lia).
  destruct (n mod 3)%nat as [|[|[|k]]]; cbn in Hk; [| | |lia];
    congruence.
Qed.

(** C8. [Diff(a, b)] computes a grid with [max] of the two logical heights
    as its number of rows and three numbers for each of [max] of the two
    logical widths columns.  At each coordinate a bitmap contributes its
    [GetPixelColor] value when its logical range holds the coordinate and the
    transparent black (0,0,0,0) otherwise, and the three numbers stored are
    the absolute differences of the red, green and blue channels; alpha is
    not stored.  A bitmap diffed with itself gives a grid of its own logical
    size that holds only zeros. *)
Theorem Diff_grid_channel_differences (h : gmap nat Bitmap.t)
    (a b : Bitmap.ref) (oa ob : Bitmap.t) :
  h !! a = Some oa -> h !! b = Some ob ->
  Bitmap.well_formed oa -> Bitmap.well_formed ob ->
  let cols := Z.max (Bitmap.logical_width oa) (Bitmap.logical_width ob) in
  let rows := Z.max (Bitmap.logical_height oa) (Bitmap.logical_height ob) in
  exists g,
    (Bitmap.Diff_grid a b h).1 = Ok g
    /\ length g = Z.to_nat rows
    /\ (forall row, row ∈ g -> length row = Z.to_nat (3 * cols))
    /\ (forall x y, 0 <= x < cols -> 0 <= y < rows ->
          exists c0 c1,
            Bitmap.contribution h a oa x y = Ok c0
            /\ Bitmap.contribution h b ob x y = Ok c1
            /\ Bitmap.cell_holds g (Z.to_nat y) (Z.to_nat x)
                 [Z.abs (RgbaColor.r c0 - RgbaColor.r c1);
                  Z.abs (RgbaColor.g c0 - RgbaColor.g c1);
                  Z.abs (RgbaColor.b c0 - RgbaColor.b c1)])
    /\ (a = b ->
        length g = Z.to_nat (Bitmap.logical_height oa)
        /\ forall row, row ∈ g ->
             length row = Z.to_nat (3 * Bitmap.logical_width oa)
             /\ forall v, v ∈ row -> v = 0).
Proof.
  intros Ha Hb Hwa Hwb cols rows.
  destruct (Diff_rows_cells (Bitmap.view oa) (Bitmap.view ob) rows cols)
    with (diff := replicate (Z.to_nat rows)
                    (replicate (Z.to_nat (cols * 3)) 0))
    as (g & Hg & [Hlen Hrows] & Hcells).
  { intros x y Hx Hy.
    destruct (side_of_view_ok oa x y Hwa) as [c0 H0]; [lia..|].
    destruct (side_of_view_ok ob x y Hwb) as [c1 H1]; [lia..|].
    eauto. }
  { apply blank_grid_shape. }
  exists g. rewrite (Diff_grid_views h a b oa ob Ha Hb). fold cols rows.
  split; [exact Hg|]. split; [exact Hlen|]. split; [exact Hrows|]. split.
  - intros x y Hx Hy.
    destruct (Hcells x y Hx Hy) as (c0 & c1 & H0 & H1 & Hc).
    cbn [fst snd] in H0, H1, Hc. rewrite !Z2Nat.id in H0, H1 by lia.
    exists c0, c1. rewrite !contribution_view by assumption. auto.
  - intros <-. rewrite Ha in Hb. injection Hb as <-.
    assert (Hrows_eq : rows = Bitmap.logical_height oa) by (subst rows; lia).
    assert (Hcols_eq : cols = Bitmap.logical_width oa) by (subst cols; lia).
    rewrite <- Hrows_eq, <- Hcols_eq. split; [exact Hlen|].
    intros row Hrow. split; [apply Hrows; exact Hrow|].
    apply list_elem_of_lookup_1 in Hrow as [i Hi].
    pose proof (lookup_lt_Some _ _ _ Hi) as Hlt.
    apply (zero_cells_zero_row g cols i row Hi).
    + apply Hrows. eapply list_elem_of_lookup_2. exact Hi.
    + intros j Hj.
      destruct (Hcells (Z.of_nat j) (Z.of_nat i)) as (c0 & c1 & H0 & H1 & Hc);
        [lia..|].
      cbn [fst snd] in H0, H1, Hc. rewrite !Nat2Z.id in *.
      rewrite H0 in H1. injection H1 as <-.
      unfold Bitmap.channel_diffs in Hc. rewrite !Z.sub_diag in Hc.
      exact Hc.
Qed.

End DiffGrid.

(** The theorem at the cropped and the whole example, with the reference
    engine. *)
Lemma Diff_grid_channel_differences_witness :
  exists g,
    (@Bitmap.Diff_grid Bitmap.reference_engine 0%nat 1%nat
       Bitmap.example_store).1 = Ok g
    /\ length g = 2%nat.
Proof.
  destruct (@Diff_grid_channel_differences Bitmap.reference_engine
              Bitmap.example_store 0%nat 1%nat
              Bitmap.example_cropped Bitmap.example_whole eq_refl eq_refl)
    as (g & Hg & Hlen & _).
  - split; [left; reflexivity|]. split; [vm_compute; discriminate|].
    split; [vm_compute; discriminate|].
    eexists. split; vm_compute; reflexivity.
  - split; [left; reflexivity|]. split; [vm_compute; discriminate|].
    split; [vm_compute; discriminate|].
    eexists. split; vm_compute; reflexivity.
  - exists g. split; [exact Hg|exact Hlen].
Defined.

(** ** Bitmap.IsEqual *)

Section IsEqualViews.

Context `{Bitmap.PixelEngine}.

Lemma pixels_view (h : gmap nat Bitmap.t) (self : Bitmap.ref) (o : Bitmap.t) :
  h !! self = Some o ->
  (Bitmap.pixels self h).1 = (Bitmap.view o).2
  /\ Bitmap.shows_same h (Bitmap.pixels self h).2.
Proof.
  intros Ho. pose proof (shows_same_settled h self o Ho) as Hs.
  unfold Bitmap.settled in Hs.
  destruct ((Bitmap.view o).2) as [buf|e] eqn:Ev.
  - rewrite (pixels_yields h self o buf Ho Ev). auto.
  - rewrite (pixels_raises h self o e Ho Ev). auto.
Qed.

(** The byte comparison of [IsEqual] compares the bytes of the two views. *)
Lemma IsEqual_bytes_views (h : gmap nat Bitmap.t) (a b : Bitmap.ref)
    (oa ob : Bitmap.t) :
  h !! a = Some oa -> h !! b = Some ob ->
  (Bitmap.IsEqual_bytes a b h).1
  = Py.bind (Bitmap.view oa).2 (fun p0 =>
    Py.bind (Bitmap.view ob).2 (fun p1 =>
    Ok (bool_decide (p0 = p1)))).
Proof.
  intros Ha Hb. unfold Bitmap.IsEqual_bytes, Bitmap.bind.
  destruct (pixels_view h a oa Ha) as [Hv1 Hs1].
  destruct (Bitmap.pixels a h) as [[p0|e] h1]; cbn [fst snd] in *;
    rewrite <- Hv1; cbn [Py.bind]; [|reflexivity].
  destruct (Hs1 b ob Hb) as (ob' & Hb' & Hvb).
  destruct (pixels_view h1 b ob' Hb') as [Hv2 _]. rewrite Hvb in Hv2.
  destruct (Bitmap.pixels b h1) as [[p1|e] h2]; cbn [fst snd] in *;
    rewrite <- Hv2; reflexivity.
Qed.

Lemma compare_views (h0 h : gmap nat Bitmap.t) (a b : Bitmap.ref)
    (oa ob : Bitmap.t) (tolerance y x : Z) :
  h0 !! a = Some oa -> h0 !! b = Some ob -> Bitmap.shows_same h0 h ->
  let body :=
    Bitmap.bind (Bitmap.GetPixelColor a x y) (fun c0 =>
    Bitmap.bind (Bitmap.GetPixelColor b x y) (fun c1 =>
    if negb (RgbaColor.IsEqual c0 c1 tolerance)
    then Bitmap.ret (Some false) else Bitmap.ret None)) in
  (body h).1
  = Bitmap.compare_of_views (Bitmap.view oa) (Bitmap.view ob) tolerance y x
  /\ Bitmap.shows_same h0 (body h).2.
Proof.
  intros Ha Hb Hs body. subst body.
  unfold Bitmap.compare_of_views, Bitmap.bind.
  destruct (Hs a oa Ha) as (oa' & Ha' & Hva).
  rewrite (GetPixelColor_view h a oa' x y Ha'). rewrite Hva.
  pose proof (shows_same_trans _ _ _ Hs (shows_same_settled h a oa' Ha'))
    as Hs1.
  destruct (Bitmap.color_of_view (Bitmap.view oa) x y) as [c0|e];
    cbn [Py.bind]; [|auto].
  destruct (Hs1 b ob Hb) as (ob' & Hb' & Hvb).
  rewrite (GetPixelColor_view _ b ob' x y Hb'). rewrite Hvb.
  pose proof (shows_same_trans _ _ _ Hs1 (shows_same_settled _ b ob' Hb'))
    as Hs2.
  destruct (Bitmap.color_of_view (Bitmap.view ob) x y) as [c1|e];
    cbn [Py.bind]; [|auto].
  destruct (RgbaColor.IsEqual c0 c1 tolerance); cbn; auto.
Qed.

(** The pixel loop of [IsEqual] reads the two views alone. *)
Lemma IsEqual_scan_views (h : gmap nat Bitmap.t) (a b : Bitmap.ref)
    (oa ob : Bitmap.t) (tolerance : Z) :
  h !! a = Some oa -> h !! b = Some ob ->
  (Bitmap.IsEqual_scan a b tolerance h).1
  = Py.bind
      (Bitmap.first_return
         (fun y => Bitmap.first_return
                     (Bitmap.compare_of_views (Bitmap.view oa) (Bitmap.view ob)
                        tolerance y)
                     (Py.range (Bitmap.logical_width oa)))
         (Py.range (Bitmap.logical_height oa)))
      (fun r => match r with Some v => Ok v | None => Ok true end).
Proof.
  intros Ha Hb. unfold Bitmap.IsEqual_scan. unfold Bitmap.bind at 1.
  rewrite (height_held _ _ _ Ha). unfold Bitmap.bind at 1.
  destruct (for_return_first (Bitmap.shows_same h)
    (fun y =>
       Bitmap.bind (Bitmap.width a) (fun cols =>
       Bitmap.for_return (Py.range cols) (fun x =>
         Bitmap.bind (Bitmap.GetPixelColor a x y) (fun c0 =>
         Bitmap.bind (Bitmap.GetPixelColor b x y) (fun c1 =>
         if negb (RgbaColor.IsEqual c0 c1 tolerance)
         then Bitmap.ret (Some false) else Bitmap.ret None)))))
    (fun y => Bitmap.first_return
                (Bitmap.compare_of_views (Bitmap.view oa) (Bitmap.view ob)
                   tolerance y)
                (Py.range (Bitmap.logical_width oa))))
    with (l := Py.range (Bitmap.logical_height oa)) (h := h) as [Hv _].
  - intros y h1 Hs1.
    destruct (Hs1 a oa Ha) as (oa' & Ha' & Hva).
    rewrite (bind_ok _ _ _ _ _ (width_held _ _ _ Ha')).
    assert (Hw : Bitmap.logical_width oa' = Bitmap.logical_width oa).
    { unfold Bitmap.view in Hva. congruence. }
    rewrite Hw.
    apply (for_return_first (Bitmap.shows_same h)); [|exact Hs1].
    intros x h2 Hs2. apply (compare_views h h2 a b oa ob); assumption.
  - apply shows_same_refl.
  - destruct (Bitmap.for_return _ _ h) as [[r|e] h1]; cbn [fst] in Hv;
      rewrite <- Hv; cbn [Py.bind]; [|reflexivity].
    destruct r; reflexivity.
Qed.

End IsEqualViews.

(** ** The two comparisons, without the store *)

Lemma first_return_all {A : Type} (f : A -> Res (option bool))
    (p : A -> bool) (l : list A) :
  (forall x, x ∈ l -> f x = Ok (if p x then None else Some false)) ->
  Bitmap.first_return f l = Ok (if forallb p l then None else Some false).
Proof.
  induction l as [|x l IH]; intros Hf; [reflexivity|].
  cbn [Bitmap.first_return forallb]. rewrite (Hf x) by left.
  destruct (p x); cbn; [|reflexivity].
  apply IH. intros x' Hx'. apply Hf. right. exact Hx'.
Qed.

Lemma RgbaColor_IsEqual_exact (c0 c1 : RgbaColor.t) :
  RgbaColor.IsEqual c0 c1 0 = true <-> c0 = c1.
Proof.
  unfold RgbaColor.IsEqual. cbv zeta. rewrite !andb_true_iff, !Z.leb_le.
  destruct c0 as [r0 g0 b0 a0], c1 as [r1 g1 b1 a1]. cbn. split.
  - intros [[[Hr Hg] Hb] Ha]. f_equal; lia.
  - intros [= -> -> -> ->]. rewrite !Z.sub_diag. cbn. lia.
Qed.

Lemma int_of_byte_inj (x y : byte) :
  Bitmap.int_of_byte x = Bitmap.int_of_byte y -> x = y.
Proof.
  unfold Bitmap.int_of_byte. intros Heq. apply N2Z.inj in Heq.
  pose proof (Byte.of_to_N x) as Hx. rewrite Heq, Byte.of_to_N in Hx.
  congruence.
Qed.

(** Every index of a buffer of [bpp * w * hh] bytes is a byte of a pixel. *)
Lemma pixel_index_split (bpp w hh : Z) (i : nat) :
  0 < bpp -> 0 <= w -> 0 <= hh -> Z.of_nat i < bpp * w * hh ->
  exists x y k, 0 <= x < w /\ 0 <= y < hh /\ 0 <= k < bpp
                /\ Z.of_nat i = bpp * (y * w + x) + k.
Proof.
  intros Hb Hw Hh Hi.
  pose proof (Z.div_mod (Z.of_nat i) bpp ltac:(lia)) as Hdm.
  pose proof (Z.mod_pos_bound (Z.of_nat i) bpp Hb) as Hk.
  set (q := Z.of_nat i / bpp) in *.
  assert (Hq0 : 0 <= q) by (apply Z.div_pos; lia).
  assert (Hq : q < w * hh).
  { apply Z.div_lt_upper_bound; [lia|]. lia. }
  assert (Hwpos : 0 < w) by nia.
  pose proof (Z.div_mod q w ltac:(lia)) as Hdm2.
  pose proof (Z.mod_pos_bound q w Hwpos) as Hx.
  assert (Hy0 : 0 <= q / w) by (apply Z.div_pos; lia).
  assert (Hy : q / w < hh) by (apply Z.div_lt_upper_bound; lia).
  exists (q mod w), (q / w), (Z.of_nat i mod bpp).
  split; [exact Hx|]. split; [lia|]. split; [exact Hk|].
  rewrite Hdm at 1. f_equal. f_equal. lia.
Qed.

Section Buffers.

Variables bpp w hh : Z.
Variables bufa bufb : list byte.

Hypothesis bpp_3_or_4 : bpp = 3 \/ bpp = 4.
Hypothesis w_nonneg : 0 <= w.
Hypothesis hh_nonneg : 0 <= hh.
Hypothesis length_a : Z.of_nat (length bufa) = bpp * w * hh.
Hypothesis length_b : Z.of_nat (length bufb) = bpp * w * hh.

Let va : Bitmap.view_t := (bpp, w, hh, Ok bufa).
Let vb : Bitmap.view_t := (bpp, w, hh, Ok bufb).

Lemma compare_same_pixel (tolerance x y : Z) :
  0 <= x < w -> 0 <= y < hh ->
  Bitmap.compare_of_views va vb tolerance y x
  = Ok (if Bitmap.same_pixel va vb tolerance y x then None else Some false).
Proof.
  intros Hx Hy. unfold Bitmap.compare_of_views, Bitmap.same_pixel.
  subst va vb. cbn [Bitmap.color_of_view Py.bind].
  destruct (color_at_ok bpp w hh bufa x y bpp_3_or_4 length_a Hx Hy)
    as [c0 ->].
  destruct (color_at_ok bpp w hh bufb x y bpp_3_or_4 length_b Hx Hy)
    as [c1 ->].
  cbn [Py.bind]. destruct (RgbaColor.IsEqual c0 c1 tolerance); reflexivity.
Qed.

(** Pixels that compare equal at tolerance 0 have the same bytes. *)
Lemma same_pixel_bytes (x y : Z) (n k : nat) :
  0 <= x < w -> 0 <= y < hh ->
  bpp * (y * w + x) = Z.of_nat n -> Z.of_nat k < bpp ->
  Bitmap.same_pixel va vb 0 y x = true ->
  bufa !! (n + k)%nat = bufb !! (n + k)%nat.
Proof.
  intros Hx Hy Hn Hk. unfold Bitmap.same_pixel. subst va vb.
  cbn [Bitmap.color_of_view Py.bind].
  destruct (pixel_offset bpp w hh x y (length bufa)) as (n' & Hn' & Hend);
    [lia|assumption..|].
  assert (n' = n) by lia. subst n'.
  destruct bpp_3_or_4 as [Hb|Hb]; rewrite Hb in *.
  - destruct (lookup_lt_is_Some_2 bufa n) as [a0 Ha0]; [lia|].
    destruct (lookup_lt_is_Some_2 bufa (n + 1)) as [a1 Ha1]; [lia|].
    destruct (lookup_lt_is_Some_2 bufa (n + 2)) as [a2 Ha2]; [lia|].
    destruct (lookup_lt_is_Some_2 bufb n) as [b0 Hb0]; [lia|].
    destruct (lookup_lt_is_Some_2 bufb (n + 1)) as [b1 Hb1]; [lia|].
    destruct (lookup_lt_is_Some_2 bufb (n + 2)) as [b2 Hb2]; [lia|].
    rewrite (color_at_3 w bufa x y n a0 a1 a2) by assumption.
    rewrite (color_at_3 w bufb x y n b0 b1 b2) by assumption.
    intros Heq. apply RgbaColor_IsEqual_exact in Heq.
    injection Heq as E0 E1 E2.
    apply int_of_byte_inj in E0, E1, E2. subst.
    destruct k as [|[|[|k]]]; [| | |lia];
      rewrite ?Nat.add_0_r; congruence.
  - destruct (lookup_lt_is_Some_2 bufa n) as [a0 Ha0]; [lia|].
    destruct (lookup_lt_is_Some_2 bufa (n + 1)) as [a1 Ha1]; [lia|].
    destruct (lookup_lt_is_Some_2 bufa (n + 2)) as [a2 Ha2]; [lia|].
    destruct (lookup_lt_is_Some_2 bufa (n + 3)) as [a3 Ha3]; [lia|].
    destruct (lookup_lt_is_Some_2 bufb n) as [b0 Hb0]; [lia|].
    destruct (lookup_lt_is_Some_2 bufb (n + 1)) as [b1 Hb1]; [lia|].
    destruct (lookup_lt_is_Some_2 bufb (n + 2)) as [b2 Hb2]; [lia|].
    destruct (lookup_lt_is_Some_2 bufb (n + 3)) as [b3 Hb3]; [lia|].
    rewrite (color_at_4 w bufa x y n a0 a1 a2 a3) by assumption.
    rewrite (color_at_4 w bufb x y n b0 b1 b2 b3) by assumption.
    intros Heq. apply RgbaColor_IsEqual_exact in Heq.
    injection Heq as E0 E1 E2 E3.
    apply int_of_byte_inj in E0, E1, E2, E3. subst.
    destruct k as [|[|[|[|k]]]]; [| | | |lia];
      rewrite ?Nat.add_0_r; congruence.
Qed.

(** All pixels compare equal at tolerance 0 exactly when the buffers are
    equal. *)
Lemma all_pixels_same_iff :
  forallb (fun y => forallb (Bitmap.same_pixel va vb 0 y) (Py.range w))
    (Py.range hh) = true
  <-> bufa = bufb.
Proof.
  rewrite forallb_forall. split.
  - intros Hall. apply list_eq. intros i.
    destruct (decide (Z.of_nat i < bpp * w * hh)) as [Hi|Hi].
    + destruct (pixel_index_split bpp w hh i) as (x & y & k & Hx & Hy & Hk & Hs);
        [lia|assumption..|].
      pose proof (Hall y) as Hrow. rewrite forallb_forall in Hrow.
      assert (Hsame : Bitmap.same_pixel va vb 0 y x = true).
      { apply Hrow; apply list_elem_of_In, in_range_iff; assumption. }
      destruct (pixel_offset bpp w hh x y (length bufa)) as (n & Hn & _);
        [lia|assumption..|].
      replace i with (n + Z.to_nat k)%nat by lia.
      apply (same_pixel_bytes x y); [assumption..|lia|exact Hsame].
    + rewrite !lookup_ge_None_2 by lia. reflexivity.
  - intros Heq y Hy. apply forallb_forall. intros x Hx.
    apply list_elem_of_In, in_range_iff in Hx, Hy.
    unfold Bitmap.same_pixel. subst va vb. rewrite <- Heq.
    cbn [Bitmap.color_of_view Py.bind].
    destruct (color_at_ok bpp w hh bufa x y bpp_3_or_4 length_a Hx Hy)
      as [c ->].
    apply RgbaColor_IsEqual_exact. reflexivity.
Qed.

(** The pixel loop at tolerance 0 returns what the byte comparison returns. *)
Lemma scan_of_views_is_byte_equality :
  Py.bind
    (Bitmap.first_return
       (fun y => Bitmap.first_return (Bitmap.compare_of_views va vb 0 y)
                   (Py.range w))
       (Py.range hh))
    (fun r => match r with Some v => Ok v | None => Ok true end)
  = Ok (bool_decide (bufa = bufb)).
Proof.
  rewrite (first_return_all _
             (fun y => forallb (Bitmap.same_pixel va vb 0 y) (Py.range w))).
  - pose proof all_pixels_same_iff as Hiff.
    destruct (forallb _ (Py.range hh)); cbn [Py.bind].
    + rewrite bool_decide_eq_true_2 by (apply Hiff; reflexivity).
      reflexivity.
    + rewrite bool_decide_eq_false_2; [reflexivity|].
      intros Heq. apply Hiff in Heq. discriminate.
  - intros y Hy. apply in_range_iff in Hy.
    apply first_return_all. intros x Hx. apply in_range_iff in Hx.
    apply compare_same_pixel; assumption.
Qed.

End Buffers.

Section IsEqual.

Context `{Bitmap.PixelEngine}.

Lemma IsEqual_size_mismatch (h : gmap nat Bitmap.t) (a b : Bitmap.ref)
    (oa ob : Bitmap.t) (tolerance : Z) :
  h !! a = Some oa -> h !! b = Some ob ->
  Bitmap.logical_width oa <> Bitmap.logical_width ob
  \/ Bitmap.logical_height oa <> Bitmap.logical_height ob ->
  Bitmap.IsEqual a b tolerance h = (Ok false, h).
Proof.
  intros Ha Hb Hne. unfold Bitmap.IsEqual.
  rewrite (bind_ok _ _ _ _ _ (width_held _ _ _ Ha)).
  rewrite (bind_ok _ _ _ _ _ (width_held _ _ _ Hb)).
  destruct (Z.eqb_spec (Bitmap.logical_width oa) (Bitmap.logical_width ob))
    as [Hw|Hw]; cbn [negb].
  - destruct Hne as [Hne|Hne]; [contradiction|].
    unfold Bitmap.bind at 1.
    rewrite (bind_ok _ _ _ _ _ (height_held _ _ _ Ha)).
    rewrite (bind_ok _ _ _ _ _ (height_held _ _ _ Hb)).
    unfold Bitmap.ret.
    destruct (Z.eqb_spec (Bitmap.logical_height oa) (Bitmap.logical_height ob));
      [contradiction|reflexivity].
  - reflexivity.
Qed.

Lemma IsEqual_takes_byte_path (h : gmap nat Bitmap.t) (a b : Bitmap.ref)
    (oa ob : Bitmap.t) :
  h !! a = Some oa -> h !! b = Some ob ->
  Bitmap.logical_width oa = Bitmap.logical_width ob ->
  Bitmap.logical_height oa = Bitmap.logical_height ob ->
  Bitmap._bpp oa = Bitmap._bpp ob ->
  Bitmap.IsEqual a b 0 h = Bitmap.IsEqual_bytes a b h.
Proof.
  intros Ha Hb Hw Hh Hbpp. unfold Bitmap.IsEqual.
  rewrite (bind_ok _ _ _ _ _ (width_held _ _ _ Ha)).
  rewrite (bind_ok _ _ _ _ _ (width_held _ _ _ Hb)).
  rewrite Hw, Z.eqb_refl. cbn [negb].
  unfold Bitmap.bind at 1.
  rewrite (bind_ok _ _ _ _ _ (height_held _ _ _ Ha)).
  rewrite (bind_ok _ _ _ _ _ (height_held _ _ _ Hb)).
  rewrite Hh, Z.eqb_refl. cbn [negb Bitmap.ret Z.eqb].
  unfold Bitmap.bind at 1.
  rewrite (bind_ok _ _ _ _ _ (bpp_held _ _ _ Ha)).
  rewrite (bind_ok _ _ _ _ _ (bpp_held _ _ _ Hb)).
  rewrite Hbpp, Z.eqb_refl. reflexivity.
Qed.

(** C9. [Bitmap.IsEqual] returns false, and reads no pixel so that the store
    is as it was, whenever the logical widths or the logical heights of the
    two bitmaps differ.  For two bitmaps of equal logical size and equal
    bytes per pixel that satisfy the invariant of the data model, a
    tolerance of 0 takes the comparison of the byte buffers, and that
    comparison returns what the scan of the pixels with
    [RgbaColor.IsEqual] at tolerance 0 returns. *)
Theorem IsEqual_byte_path_agrees_with_scan (h : gmap nat Bitmap.t)
    (a b : Bitmap.ref) (oa ob : Bitmap.t) :
  h !! a = Some oa -> h !! b = Some ob ->
  (forall tolerance : Z,
     Bitmap.logical_width oa <> Bitmap.logical_width ob
     \/ Bitmap.logical_height oa <> Bitmap.logical_height ob ->
     Bitmap.IsEqual a b tolerance h = (Ok false, h))
  /\ (Bitmap.logical_width oa = Bitmap.logical_width ob ->
      Bitmap.logical_height oa = Bitmap.logical_height ob ->
      Bitmap._bpp oa = Bitmap._bpp ob ->
      Bitmap.well_formed oa -> Bitmap.well_formed ob ->
      Bitmap.IsEqual a b 0 h = Bitmap.IsEqual_bytes a b h
      /\ exists v : bool,
           (Bitmap.IsEqual_bytes a b h).1 = Ok v
           /\ (Bitmap.IsEqual_scan a b 0 h).1 = Ok v).
Proof.
  intros Ha Hb. split.
  - intros tolerance Hne. apply (IsEqual_size_mismatch h a b oa ob); assumption.
  - intros Hw Hh Hbpp (Hb34 & Hw0 & Hh0 & bufa & Hva & Hla)
      (_ & _ & _ & bufb & Hvb & Hlb).
    split; [apply (IsEqual_takes_byte_path h a b oa ob); assumption|].
    exists (bool_decide (bufa = bufb)).
    rewrite (IsEqual_bytes_views h a b oa ob Ha Hb).
    rewrite (IsEqual_scan_views h a b oa ob 0 Ha Hb).
    rewrite Hva, Hvb. split; [reflexivity|].
    assert (Ea : Bitmap.view oa
                 = (Bitmap._bpp oa, Bitmap.logical_width oa,
                    Bitmap.logical_height oa, Ok bufa)).
    { unfold Bitmap.view in *. cbn [snd] in Hva. rewrite Hva. reflexivity. }
    assert (Eb : Bitmap.view ob
                 = (Bitmap._bpp oa, Bitmap.logical_width oa,
                    Bitmap.logical_height oa, Ok bufb)).
    { unfold Bitmap.view in *. cbn [snd] in Hvb.
      rewrite Hvb, Hw, Hh, Hbpp. reflexivity. }
    rewrite Ea, Eb.
    apply scan_of_views_is_byte_equality; try assumption.
    rewrite Hlb, Hw, Hh, Hbpp. reflexivity.
Qed.

End IsEqual.

(** The theorem at the examples, with the reference engine: objects 0 and 1
    differ in size, objects 0 and 2 in one byte. *)
Lemma IsEqual_byte_path_agrees_with_scan_witness :
  (@Bitmap.IsEqual Bitmap.reference_engine 0%nat 1%nat 0 Bitmap.example_store).1
  = Ok false
  /\ exists v : bool,
       (@Bitmap.IsEqual_bytes Bitmap.reference_engine 0%nat 2%nat
          Bitmap.example_store).1 = Ok v
       /\ (@Bitmap.IsEqual_scan Bitmap.reference_engine 0%nat 2%nat 0
             Bitmap.example_store).1 = Ok v.
Proof.
  split.
  - rewrite (proj1 (@IsEqual_byte_path_agrees_with_scan
                      Bitmap.reference_engine Bitmap.example_store 0%nat 1%nat
                      Bitmap.example_cropped Bitmap.example_whole
                      eq_refl eq_refl) 0).
    + reflexivity.
    + left. vm_compute. discriminate.
  - apply (proj2 (@IsEqual_byte_path_agrees_with_scan
                    Bitmap.reference_engine Bitmap.example_store 0%nat 2%nat
                    Bitmap.example_cropped Bitmap.example_other
                    eq_refl eq_refl)); try reflexivity.
    + split; [left; reflexivity|]. split; [vm_compute; discriminate|].
      split; [vm_compute; discriminate|].
      eexists. split; vm_compute; reflexivity.
    + split; [left; reflexivity|]. split; [vm_compute; discriminate|].
      split; [vm_compute; discriminate|].
      eexists. split; vm_compute; reflexivity.
Defined.

(** The two paths on the example: the crop of object 0 and object 2 differ in
    one byte, and both comparisons say so. *)
Example IsEqual_paths_on_differing_pixel :
  (@Bitmap.IsEqual Bitmap.reference_engine 0%nat 2%nat 0
     Bitmap.example_store).1 = Ok false
  /\ (@Bitmap.IsEqual_scan Bitmap.reference_engine 0%nat 2%nat 0
        Bitmap.example_store).1 = Ok false
  /\ (@Bitmap.IsEqual Bitmap.reference_engine 0%nat 0%nat 0
        Bitmap.example_store).1 = Ok true.
Proof. repeat split; vm_compute; reflexivity. Qed.

(** * Further properties *)

(** ** Signs of rounded floats *)

Lemma shr_1_nonneg (mrs : shr_record) :
  0 <= shr_m mrs -> 0 <= shr_m (shr_1 mrs).
Proof.
  destruct mrs as [m r s]; simpl.
  destruct m as [|[p|p|]|[p|p|]]; simpl; lia.
Qed.

Lemma iter_shr_1_nonneg (k : positive) :
  forall mrs : shr_record,
    0 <= shr_m mrs -> 0 <= shr_m (SpecFloat.iter_pos shr_1 k mrs).
Proof.
  induction k as [k IH|k IH|]; intros mrs Hm; simpl.
  - apply IH, IH, shr_1_nonneg, Hm.
  - apply IH, IH, Hm.
  - apply shr_1_nonneg, Hm.
Qed.

Lemma shr_fexp_nonneg (m e : Z) (l : location) :
  0 <= m -> 0 <= shr_m (shr_fexp prec emax m e l).1.
Proof.
  intros Hm. unfold shr_fexp, shr.
  destruct (fexp prec emax (Zdigits2 m + e) - e) as [|k|k]; cbn [fst].
  - rewrite shr_m_of_loc. exact Hm.
  - apply iter_shr_1_nonneg. rewrite shr_m_of_loc. exact Hm.
  - rewrite shr_m_of_loc. exact Hm.
Qed.

Lemma round_nearest_even_nonneg (mx : Z) (lx : location) :
  0 <= mx -> 0 <= round_nearest_even mx lx.
Proof.
  intros H. destruct lx as [|[]]; simpl; try lia.
  destruct (Z.even mx); lia.
Qed.

(** Rounding a mantissa that is not negative gives a number of the sign
    asked for. *)
Lemma binary_round_aux_sign (sx : bool) (mx ex : Z) (lx : location) :
  0 <= mx -> has_sign sx (binary_round_aux prec emax sx mx ex lx).
Proof.
  intros Hm. unfold binary_round_aux.
  pose proof (shr_fexp_nonneg mx ex lx Hm) as H1.
  destruct (shr_fexp prec emax mx ex lx) as [mrs' e']. cbn [fst] in H1.
  pose proof (round_nearest_even_nonneg (shr_m mrs') (loc_of_shr_record mrs')
                H1) as H2.
  pose proof (shr_fexp_nonneg _ e' loc_Exact H2) as H3.
  destruct (shr_fexp prec emax _ e' loc_Exact) as [mrs'' e''].
  cbn [fst] in H3.
  destruct (shr_m mrs'') as [|m|m]; [reflexivity| |lia].
  destruct (e'' <=? emax - prec); reflexivity.
Qed.

Lemma binary_round_sign (sx : bool) (mx : positive) (ex : Z) :
  has_sign sx (binary_round prec emax sx mx ex).
Proof.
  unfold binary_round.
  destruct (shl_align mx ex _) as [mz ez].
  apply binary_round_aux_sign. lia.
Qed.

Lemma binary_normalize_neg (p : positive) :
  (exists m e, binary_normalize prec emax (Z.neg p) 0 false
               = S754_finite true m e)
  \/ binary_normalize prec emax (Z.neg p) 0 false = S754_infinity true.
Proof.
  unfold binary_normalize, binary_round, shl_align.
  assert (Hf : emin prec emax <= fexp prec emax (Z.pos (digits2_pos p) + 0)).
  { unfold fexp. lia. }
  destruct (fexp prec emax (Z.pos (digits2_pos p) + 0) - 0) as [|k|k];
    apply binary_round_aux_pos;
    first [exact Hf | unfold emin, prec, emax; lia].
Qed.

(** A non-zero int converts to a finite float of its sign, or overflows. *)
Lemma float_of_int_nonzero (n : Z) :
  n <> 0 ->
  (exists m e, float_of_int n = Ok (S754_finite (n <? 0) m e))
  \/ float_of_int n = Raise OverflowError.
Proof.
  intros Hn. destruct n as [|p|p]; [contradiction| |]; unfold float_of_int.
  - destruct (binary_normalize_pos p) as [(m & e & ->)| ->]; eauto.
  - destruct (binary_normalize_neg p) as [(m & e & ->)| ->]; eauto.
Qed.

Lemma float_div_int_nonzero (x : float) (n : Z) :
  n <> 0 ->
  (exists m e, float_of_int n = Ok (S754_finite (n <? 0) m e)
               /\ float_div_int x n
                  = Ok (SFdiv prec emax x (S754_finite (n <? 0) m e)))
  \/ float_div_int x n = Raise OverflowError.
Proof.
  intros Hn. unfold float_div_int.
  destruct (float_of_int_nonzero n Hn) as [(m & e & ->)| ->]; [left|right].
  - exists m, e. split; [reflexivity|]. cbn [Py.bind].
    destruct (n <? 0); reflexivity.
  - reflexivity.
Qed.

Lemma div_core_nonneg (m1 : positive) (e1 : Z) (m2 : positive) (e2 : Z) :
  0 <= (SFdiv_core_binary prec emax (Z.pos m1) e1 (Z.pos m2) e2).1.1.
Proof.
  unfold SFdiv_core_binary. cbv zeta.
  match goal with
  | |- context [Z.div_eucl ?a ?b] =>
      assert (Ha : 0 <= a);
      [|pose proof (Z_div_mod a b ltac:(lia)) as Hdm;
        destruct (Z.div_eucl a b) as [q r]; cbn [fst]; nia]
  end.
  destruct (e1 - e2 - _) as [|s|s]; try lia.
  apply Z.shiftl_nonneg. lia.
Qed.

(** Dividing a number by a finite float gives a number with the product of
    the signs. *)
Lemma SFdiv_sign (sx sy : bool) (x : float) (my : positive) (ey : Z) :
  has_sign sx x ->
  has_sign (xorb sx sy) (SFdiv prec emax x (S754_finite sy my ey)).
Proof.
  destruct x as [s|s| |s mx ex]; cbn [has_sign]; try contradiction;
    intros <-; cbn [SFdiv has_sign]; try reflexivity.
  pose proof (div_core_nonneg mx ex my ey) as Hq.
  destruct (SFdiv_core_binary prec emax (Z.pos mx) ex (Z.pos my) ey)
    as [[mz ez] lz].
  cbn [fst] in Hq. apply binary_round_aux_sign. exact Hq.
Qed.

Lemma float_of_int_sign (z : Z) (f : float) :
  float_of_int z = Ok f -> has_sign (z <? 0) f.
Proof.
  destruct (Z.eq_dec z 0) as [->|Hz].
  - intros [= <-]. reflexivity.
  - destruct (float_of_int_nonzero z Hz) as [(m & e & ->)| ->];
      [|discriminate].
    intros [= <-]. reflexivity.
Qed.

Lemma fabs_sign (s : bool) (f : float) : has_sign s f -> has_sign false (fabs f).
Proof. destruct f; cbn; auto. Qed.

Lemma has_sign_false_fleb (f : float) :
  has_sign false f -> fleb fzero f = true.
Proof.
  destruct f as [[]|[]| |[] m e]; cbn; intros Hs;
    first [reflexivity | discriminate | contradiction].
Qed.

(** The sum of two floats that are not negative is not negative. *)
Lemma fadd_sign (x y : float) :
  has_sign false x -> has_sign false y -> has_sign false (fadd x y).
Proof.
  destruct x as [sx|sx| |sx mx ex], y as [sy|sy| |sy my ey]; cbn [has_sign];
    try contradiction; intros -> ->; try reflexivity.
  unfold fadd. cbn [SFadd cond_Zopp].
  match goal with
  | |- has_sign false (binary_normalize _ _ (Z.pos ?a + Z.pos ?b) ?e _) =>
      change (Z.pos a + Z.pos b) with (Z.pos (a + b))
  end.
  cbn [binary_normalize]. apply binary_round_sign.
Qed.

(** ** HistogramDistance: errors, sign, and histograms at distance zero *)

(** With divisors that are not zero the last line of [HistogramDistance]
    gives a number that is not negative, or overflows. *)
Lemma abs_quotient_outcome (total n1 n2 : Z) :
  n1 <> 0 -> n2 <> 0 ->
  (exists f, abs_quotient total n1 n2 = Ok f /\ has_sign false f)
  \/ abs_quotient total n1 n2 = Raise OverflowError.
Proof.
  intros H1 H2. unfold abs_quotient.
  destruct (float_of_int total) as [t|e] eqn:Et; cbn [Py.bind].
  - pose proof (float_of_int_sign _ _ Et) as Hst.
    destruct (float_div_int_nonzero t n1 H1) as [(m1 & e1 & _ & ->)| ->];
      cbn [Py.bind]; [|auto].
    pose proof (SFdiv_sign _ (n1 <? 0) t m1 e1 Hst) as Hs1.
    destruct (float_div_int_nonzero
                (SFdiv prec emax t (S754_finite (n1 <? 0) m1 e1)) n2 H2)
      as [(m2 & e2 & _ & ->)| ->]; cbn [Py.bind]; [|auto].
    left. eexists. split; [reflexivity|].
    eapply fabs_sign. apply SFdiv_sign. exact Hs1.
  - right. rewrite (float_of_int_raises _ _ Et). reflexivity.
Qed.

Lemma abs_quotient_of_zero (n1 n2 : Z) (f1 f2 : float) :
  n1 <> 0 -> n2 <> 0 ->
  float_of_int n1 = Ok f1 -> float_of_int n2 = Ok f2 ->
  abs_quotient 0 n1 n2 = Ok fzero.
Proof.
  intros H1 H2 Hf1 Hf2. unfold abs_quotient. rewrite float_of_int_0.
  cbn [Py.bind].
  destruct (float_div_int_nonzero fzero n1 H1) as [(m1 & e1 & E1 & ->)|E];
    [|unfold float_div_int in E; rewrite Hf1 in E; cbn in E;
      destruct (feqb f1 fzero); discriminate].
  cbn [Py.bind SFdiv fzero].
  destruct (float_div_int_nonzero (S754_zero (xorb false (n1 <? 0))) n2 H2)
    as [(m2 & e2 & E2 & ->)|E];
    [|unfold float_div_int in E; rewrite Hf2 in E; cbn in E;
      destruct (feqb f2 fzero); discriminate].
  reflexivity.
Qed.

Lemma HistogramDistance_by_walk (hist1 hist2 : list Z) :
  length hist1 = length hist2 ->
  Py.sum hist1 <> 0 -> Py.sum hist2 <> 0 ->
  HistogramDistance hist1 hist2
  = abs_quotient (walk (Py.sum hist1) (Py.sum hist2) hist1 hist2).1
      (Py.sum hist1) (Py.sum hist2).
Proof.
  intros Hlen H1 H2. rewrite walk_full by exact Hlen.
  apply HistogramDistance_reaches_quotient; assumption.
Qed.

Lemma HistogramDistance_length_mismatch (hist1 hist2 : list Z) :
  length hist1 <> length hist2 ->
  HistogramDistance hist1 hist2 = Raise ValueError.
Proof.
  intros Hne. unfold HistogramDistance.
  destruct (Nat.eqb_spec (length hist1) (length hist2));
    [contradiction|reflexivity].
Qed.

Lemma HistogramDistance_no_pixels (hist1 hist2 : list Z) :
  Py.sum hist1 = 0 \/ Py.sum hist2 = 0 ->
  HistogramDistance hist1 hist2 = Raise ValueError.
Proof.
  intros Hz. unfold HistogramDistance.
  destruct (negb _); [reflexivity|]. cbv zeta.
  destruct (Z.eqb_spec (Py.sum hist1) 0); [reflexivity|].
  destruct (Z.eqb_spec (Py.sum hist2) 0); [reflexivity|].
  destruct Hz; contradiction.
Qed.

(** [HistogramDistance] raises [ValueError] exactly when the two sequences
    differ in length or one of them sums to zero. *)
Theorem HistogramDistance_ValueError_iff (hist1 hist2 : list Z) :
  HistogramDistance hist1 hist2 = Raise ValueError
  <-> length hist1 <> length hist2
      \/ Py.sum hist1 = 0 \/ Py.sum hist2 = 0.
Proof.
  split.
  - intros Hr.
    destruct (decide (length hist1 = length hist2)) as [Hlen|Hlen]; [|auto].
    destruct (Z.eq_dec (Py.sum hist1) 0) as [H1|H1]; [auto|].
    destruct (Z.eq_dec (Py.sum hist2) 0) as [H2|H2]; [auto|].
    rewrite (HistogramDistance_by_walk _ _ Hlen H1 H2) in Hr.
    destruct (abs_quotient_outcome
                (walk (Py.sum hist1) (Py.sum hist2) hist1 hist2).1 _ _ H1 H2)
      as [(f & Hf & _)|Hf]; rewrite Hf in Hr; discriminate.
  - intros [Hlen|Hz].
    + apply HistogramDistance_length_mismatch. exact Hlen.
    + apply HistogramDistance_no_pixels. exact Hz.
Qed.

(** [HistogramDistance] returns a float [f] with [0.0 <= f], so never a
    negative number and never a NaN, or raises [ValueError] or
    [OverflowError]; it raises nothing else: not the [AssertionError] of its
    [assert], not [ZeroDivisionError]. *)
Theorem HistogramDistance_outcomes (hist1 hist2 : list Z) :
  (exists f, HistogramDistance hist1 hist2 = Ok f /\ fleb fzero f = true)
  \/ HistogramDistance hist1 hist2 = Raise ValueError
  \/ HistogramDistance hist1 hist2 = Raise OverflowError.
Proof.
  destruct (decide (length hist1 = length hist2)) as [Hlen|Hlen];
    [|right; left; apply HistogramDistance_length_mismatch; exact Hlen].
  destruct (Z.eq_dec (Py.sum hist1) 0) as [H1|H1];
    [right; left; apply HistogramDistance_no_pixels; auto|].
  destruct (Z.eq_dec (Py.sum hist2) 0) as [H2|H2];
    [right; left; apply HistogramDistance_no_pixels; auto|].
  rewrite (HistogramDistance_by_walk _ _ Hlen H1 H2).
  destruct (abs_quotient_outcome
              (walk (Py.sum hist1) (Py.sum hist2) hist1 hist2).1 _ _ H1 H2)
    as [(f & Hf & Hs)|Hf]; rewrite Hf; [left|auto].
  exists f. split; [reflexivity|apply has_sign_false_fleb; exact Hs].
Qed.

(** *** Proportional histograms *)

Lemma sum_scaled (k : Z) (hist : list Z) :
  Py.sum (Z.mul k <$> hist) = k * Py.sum hist.
Proof.
  induction hist as [|x hist IH] using rev_ind; [cbn; lia|].
  rewrite fmap_app. change (Z.mul k <$> [x]) with [k * x].
  rewrite !sum_snoc, IH. lia.
Qed.

Lemma bucket_scaled (k : Z) (hist : list Z) (i : nat) :
  bucket (Z.mul k <$> hist) i = k * bucket hist i.
Proof.
  unfold bucket. revert i.
  induction hist as [|x hist IH]; intros [|i]; cbn; try lia. apply IH.
Qed.

Lemma remainder_after_scaled (k n : Z) (hist : list Z) (j : nat) :
  remainder_after n (k * n) hist (Z.mul k <$> hist) j = 0.
Proof.
  induction j as [|j IH]; [reflexivity|].
  cbn [remainder_after]. rewrite IH, bucket_scaled. lia.
Qed.

Lemma total_after_scaled (k n : Z) (hist : list Z) (j : nat) :
  total_after n (k * n) hist (Z.mul k <$> hist) j = 0.
Proof.
  induction j as [|j IH]; [reflexivity|].
  cbn [total_after]. rewrite IH, remainder_after_scaled. reflexivity.
Qed.

(** A histogram whose counts do not sum to zero and a non-zero multiple of
    it are at distance 0.0, when the two sums convert to floats: the
    distance looks at the shape, not at the number of pixels. *)
Theorem HistogramDistance_proportional (hist : list Z) (k : Z) (f1 f2 : float) :
  k <> 0 -> Py.sum hist <> 0 ->
  float_of_int (Py.sum hist) = Ok f1 ->
  float_of_int (k * Py.sum hist) = Ok f2 ->
  HistogramDistance hist (Z.mul k <$> hist) = Ok fzero.
Proof.
  intros Hk Hs Hf1 Hf2.
  rewrite HistogramDistance_reaches_quotient;
    rewrite ?length_fmap, ?sum_scaled; [|reflexivity|exact Hs|nia].
  rewrite total_after_scaled.
  apply (abs_quotient_of_zero _ _ f1 f2); [exact Hs|nia|assumption..].
Qed.

(** The theorem at a histogram of 6 pixels and the same shape with 18. *)
Lemma HistogramDistance_proportional_witness :
  HistogramDistance [1; 2; 3] [3; 6; 9] = Ok fzero.
Proof.
  apply (HistogramDistance_proportional [1; 2; 3] 3
           (S754_finite false 6755399441055744 (-50))
           (S754_finite false 5066549580791808 (-48)));
    first [lia | vm_compute; discriminate | reflexivity].
Defined.

(** *** Empty buckets at either end *)

Lemma sum_app (l1 l2 : list Z) : Py.sum (l1 ++ l2) = Py.sum l1 + Py.sum l2.
Proof.
  unfold Py.sum. rewrite fold_left_app, sum_from. reflexivity.
Qed.

Lemma sum_zeros (a : nat) : Py.sum (replicate a 0) = 0.
Proof.
  induction a as [|a IH]; [reflexivity|].
  change (replicate (S a) 0) with ([0] ++ replicate a 0).
  rewrite sum_app, IH. reflexivity.
Qed.

Lemma sum_padded (a b : nat) (hist : list Z) :
  Py.sum (replicate a 0 ++ hist ++ replicate b 0) = Py.sum hist.
Proof. rewrite !sum_app, !sum_zeros. lia. Qed.

(** Empty buckets leave the loop where it was when nothing is carried. *)
Lemma walk_step_zeros (n1 n2 total : Z) (a : nat) :
  fold_left (walk_step n1 n2) (zip (replicate a 0) (replicate a 0)) (total, 0)
  = (total, 0).
Proof.
  induction a as [|a IH]; [reflexivity|].
  cbn [replicate zip zip_with fold_left walk_step].
  replace (0 + (0 * n2 - 0 * n1)) with 0 by lia.
  replace (total + Z.abs 0) with total by lia. exact IH.
Qed.

Lemma walk_padded (a b : nat) (hist1 hist2 : list Z) :
  length hist1 = length hist2 ->
  walk (Py.sum hist1) (Py.sum hist2)
    (replicate a 0 ++ hist1 ++ replicate b 0)
    (replicate a 0 ++ hist2 ++ replicate b 0)
  = walk (Py.sum hist1) (Py.sum hist2) hist1 hist2.
Proof.
  intros Hlen. unfold walk at 1.
  rewrite zip_with_app by reflexivity.
  rewrite zip_with_app by exact Hlen.
  rewrite !fold_left_app. rewrite walk_step_zeros.
  fold (walk (Py.sum hist1) (Py.sum hist2) hist1 hist2).
  rewrite (walk_full _ _ hist1 hist2 Hlen).
  rewrite (remainder_after_all hist1 hist2 Hlen).
  apply walk_step_zeros.
Qed.

(** Empty buckets added before and after both histograms do not change
    the outcome of [HistogramDistance], be it a distance or an error. *)
Theorem HistogramDistance_empty_buckets (a b : nat) (hist1 hist2 : list Z) :
  HistogramDistance (replicate a 0 ++ hist1 ++ replicate b 0)
                    (replicate a 0 ++ hist2 ++ replicate b 0)
  = HistogramDistance hist1 hist2.
Proof.
  destruct (decide (length hist1 = length hist2)) as [Hlen|Hlen].
  - destruct (Z.eq_dec (Py.sum hist1) 0) as [H1|H1];
      [rewrite !HistogramDistance_no_pixels;
       rewrite ?sum_padded; auto|].
    destruct (Z.eq_dec (Py.sum hist2) 0) as [H2|H2];
      [rewrite !HistogramDistance_no_pixels;
       rewrite ?sum_padded; auto|].
    rewrite !HistogramDistance_by_walk;
      rewrite ?sum_padded, ?length_app, ?length_replicate; auto.
    rewrite walk_padded by exact Hlen. reflexivity.
  - rewrite !HistogramDistance_length_mismatch;
      rewrite ?length_app, ?length_replicate; auto; lia.
Qed.

(** *** Two spikes *)

Lemma float_same_eq (x y : float) : float_same x y = true -> x = y.
Proof.
  destruct x as [s|s| |s m e], y as [s'|s'| |s' m' e']; cbn;
    try discriminate; try reflexivity.
  - intros ->%eqb_prop. reflexivity.
  - intros ->%eqb_prop. reflexivity.
  - rewrite !andb_true_iff.
    intros [[->%eqb_prop ->%Pos.eqb_eq] ->%Z.eqb_eq]. reflexivity.
Qed.

(** Dividing a small int by one, twice, gives the int back. *)
Lemma abs_quotient_unit (d : Z) :
  0 <= d < 256 ->
  exists f, float_of_int d = Ok f /\ abs_quotient d 1 1 = Ok f.
Proof.
  intros Hd.
  assert (Hall : forallb
            (fun d => match float_of_int d, abs_quotient d 1 1 with
                      | Ok f, Ok g => float_same f g
                      | _, _ => false
                      end) (seqZ 0 256) = true) by (vm_compute; reflexivity).
  rewrite forallb_forall in Hall.
  specialize (Hall d ltac:(apply list_elem_of_In, elem_of_seqZ; lia)).
  destruct (float_of_int d) as [f|]; [|discriminate].
  destruct (abs_quotient d 1 1) as [g|]; [|discriminate].
  apply float_same_eq in Hall as ->. eauto.
Qed.

Lemma sum_take_spike (v : Z) (k : nat) :
  0 <= v -> (k <= 256)%nat ->
  Py.sum (take k (ColorHistogram.spike v))
  = if v <? Z.of_nat k then 1 else 0.
Proof.
  intros Hv. induction k as [|k IH]; intros Hk.
  - destruct (Z.ltb_spec v (Z.of_nat 0)); [lia|reflexivity].
  - rewrite (take_S_r _ _ _ (spike_lookup v k ltac:(lia))).
    rewrite sum_snoc, IH by lia.
    destruct (Z.ltb_spec v (Z.of_nat k)), (Z.ltb_spec v (Z.of_nat (S k))),
      (Z.eqb_spec (Z.of_nat k) v); lia.
Qed.

Lemma sum_spike (v : Z) : 0 <= v < 256 -> Py.sum (ColorHistogram.spike v) = 1.
Proof.
  intros Hv. rewrite <- (firstn_all (ColorHistogram.spike v)).
  rewrite spike_length, sum_take_spike by lia.
  destruct (Z.ltb_spec v (Z.of_nat 256)); [reflexivity|lia].
Qed.

Lemma remainder_after_spikes (i j : Z) (k : nat) :
  0 <= i -> 0 <= j -> (k <= 256)%nat ->
  remainder_after 1 1 (ColorHistogram.spike i) (ColorHistogram.spike j) k
  = (if i <? Z.of_nat k then 1 else 0) - (if j <? Z.of_nat k then 1 else 0).
Proof.
  intros Hi Hj Hk.
  rewrite remainder_after_sums by (rewrite ?spike_length; lia).
  rewrite !sum_take_spike by lia. lia.
Qed.

Lemma total_after_spikes (i j : Z) (k : nat) :
  0 <= i -> 0 <= j -> (k <= 256)%nat ->
  total_after 1 1 (ColorHistogram.spike i) (ColorHistogram.spike j) k
  = Z.min (Z.of_nat k) (Z.max i j) - Z.min (Z.of_nat k) (Z.min i j).
Proof.
  intros Hi Hj. induction k as [|k IH]; intros Hk.
  - cbn [total_after]. lia.
  - cbn [total_after]. rewrite IH by lia.
    rewrite remainder_after_spikes by lia.
    destruct (Z.ltb_spec i (Z.of_nat (S k))),
      (Z.ltb_spec j (Z.of_nat (S k))); lia.
Qed.

(** Two histograms of one pixel each, in buckets [i] and [j], are at the
    distance [|i - j|]: moving a pixel by one bucket costs one. *)
Theorem HistogramDistance_spikes (i j : Z) :
  0 <= i < 256 -> 0 <= j < 256 ->
  exists f, float_of_int (Z.abs (i - j)) = Ok f
            /\ HistogramDistance (ColorHistogram.spike i)
                 (ColorHistogram.spike j) = Ok f.
Proof.
  intros Hi Hj.
  destruct (abs_quotient_unit (Z.abs (i - j)) ltac:(lia)) as (f & Hf & Hq).
  exists f. split; [exact Hf|].
  rewrite HistogramDistance_reaches_quotient;
    rewrite ?spike_length, ?sum_spike by lia; try reflexivity; try lia.
  rewrite total_after_spikes by lia.
  replace (Z.min (Z.of_nat 256) (Z.max i j)
           - Z.min (Z.of_nat 256) (Z.min i j)) with (Z.abs (i - j)) by lia.
  exact Hq.
Qed.

(** The theorem at buckets 10 and 250: the distance is 240.0. *)
Lemma HistogramDistance_spikes_witness :
  HistogramDistance (ColorHistogram.spike 10) (ColorHistogram.spike 250)
  = Ok (S754_finite false 8444249301319680 (-45)).
Proof.
  destruct (HistogramDistance_spikes 10 250) as (f & Hf & Hd); [lia|lia|].
  rewrite Hd, <- Hf. reflexivity.
Defined.

(** ** ColorHistogram.Distance: sign, errors and the default colour *)

Lemma HistogramDistance_cases (hist1 hist2 : list Z) :
  (exists f, HistogramDistance hist1 hist2 = Ok f /\ has_sign false f)
  \/ HistogramDistance hist1 hist2 = Raise ValueError
  \/ HistogramDistance hist1 hist2 = Raise OverflowError.
Proof.
  destruct (decide (length hist1 = length hist2)) as [Hlen|Hlen];
    [|right; left; apply HistogramDistance_length_mismatch; exact Hlen].
  destruct (Z.eq_dec (Py.sum hist1) 0) as [H1|H1];
    [right; left; apply HistogramDistance_no_pixels; auto|].
  destruct (Z.eq_dec (Py.sum hist2) 0) as [H2|H2];
    [right; left; apply HistogramDistance_no_pixels; auto|].
  rewrite (HistogramDistance_by_walk _ _ Hlen H1 H2).
  destruct (abs_quotient_outcome
              (walk (Py.sum hist1) (Py.sum hist2) hist1 hist2).1 _ _ H1 H2)
    as [(f & Hf & Hs)|Hf]; rewrite Hf; eauto.
Qed.

Lemma operand_cases (h : ColorHistogram.t) (i : nat) :
  (exists hist, ColorHistogram.operand h i = Ok hist)
  \/ ColorHistogram.operand h i = Raise ValueError
  \/ ColorHistogram.operand h i = Raise IndexError.
Proof.
  unfold ColorHistogram.operand.
  destruct (Py.sum (ColorHistogram.getitem h i) =? 0); [|eauto].
  destruct (ColorHistogram.default_color h) as [c|]; [|auto].
  unfold Py.setitem. destruct (norm_index _ _); eauto.
Qed.

Lemma channel_distance_cases (self other : ColorHistogram.t) (i : nat) :
  (exists f, ColorHistogram.channel_distance self other i = Ok f
             /\ has_sign false f)
  \/ ColorHistogram.channel_distance self other i = Raise ValueError
  \/ ColorHistogram.channel_distance self other i = Raise OverflowError
  \/ ColorHistogram.channel_distance self other i = Raise IndexError.
Proof.
  unfold ColorHistogram.channel_distance.
  destruct (operand_cases self i) as [[hist1 ->]|[-> | ->]]; cbn [Py.bind];
    [|auto|auto 6].
  destruct (operand_cases other i) as [[hist2 ->]|[-> | ->]]; cbn [Py.bind];
    [|auto|auto 6].
  destruct (HistogramDistance_cases hist1 hist2) as [H|[-> | ->]]; auto 6.
Qed.

Lemma Distance_loop_cases (self other : ColorHistogram.t) :
  forall (channels : list nat) (total : float),
    has_sign false total ->
    (exists f, ColorHistogram.Distance_loop self other total channels = Ok f
               /\ has_sign false f)
    \/ ColorHistogram.Distance_loop self other total channels
       = Raise ValueError
    \/ ColorHistogram.Distance_loop self other total channels
       = Raise OverflowError
    \/ ColorHistogram.Distance_loop self other total channels
       = Raise IndexError.
Proof.
  induction channels as [|i rest IH]; intros total Ht.
  - left. exists total. auto.
  - cbn [ColorHistogram.Distance_loop]. unfold ColorHistogram.Distance_step.
    destruct (channel_distance_cases self other i)
      as [(d & -> & Hd)|[-> |[-> | ->]]]; cbn [Py.bind]; auto 6.
    apply IH. apply fadd_sign; assumption.
Qed.

(** [ColorHistogram.Distance] returns a float [f] with [0.0 <= f], or raises
    [ValueError], [OverflowError] or, for a default colour outside the
    buckets, [IndexError]; it raises nothing else. *)
Theorem ColorHistogram_Distance_outcomes (self other : ColorHistogram.t) :
  (exists f, ColorHistogram.Distance self other = Ok f
             /\ fleb fzero f = true)
  \/ ColorHistogram.Distance self other = Raise ValueError
  \/ ColorHistogram.Distance self other = Raise OverflowError
  \/ ColorHistogram.Distance self other = Raise IndexError.
Proof.
  unfold ColorHistogram.Distance.
  destruct (Distance_loop_cases self other (seq 0 3) fzero eq_refl)
    as [(f & Hf & Hs)|H]; [left|right; exact H].
  exists f. split; [exact Hf|apply has_sign_false_fleb; exact Hs].
Qed.

(** *** The distance of a histogram to itself *)

Lemma HistogramDistance_self (hist : list Z) (f : float) :
  Py.sum hist <> 0 -> float_of_int (Py.sum hist) = Ok f ->
  HistogramDistance hist hist = Ok fzero.
Proof.
  intros Hs Hf.
  rewrite HistogramDistance_reaches_quotient by auto.
  rewrite total_after_self. apply (abs_quotient_of_zero _ _ f f); assumption.
Qed.

Lemma usable_operand (h : ColorHistogram.t) (i : nat) :
  ColorHistogram.usable h i ->
  exists hist f, ColorHistogram.operand h i = Ok hist
                 /\ Py.sum hist <> 0 /\ float_of_int (Py.sum hist) = Ok f.
Proof.
  intros [[Hs Hok]|(Hs & c & Hc & Hv)].
  - exists (ColorHistogram.getitem h i).
    destruct (float_of_int (Py.sum (ColorHistogram.getitem h i))) as [f|]
      eqn:Ef; [|discriminate].
    exists f. split; [apply operand_data; exact Hs|]. auto.
  - exists (ColorHistogram.spike (RgbaColor.getitem c i)).
    rewrite (operand_default h i c Hs Hc Hv), sum_spike by exact Hv.
    eexists. split; [reflexivity|]. split; [lia|reflexivity].
Qed.

Lemma channel_distance_self (h : ColorHistogram.t) (i : nat) :
  ColorHistogram.usable h i ->
  ColorHistogram.channel_distance h h i = Ok fzero.
Proof.
  intros Hu. destruct (usable_operand h i Hu) as (hist & f & Ho & Hs & Hf).
  unfold ColorHistogram.channel_distance. rewrite Ho. cbn [Py.bind].
  apply (HistogramDistance_self hist f); assumption.
Qed.

(** A histogram whose three channels can enter a distance is at distance 0.0
    from itself. *)
Theorem ColorHistogram_Distance_self (h : ColorHistogram.t) :
  (forall i : nat, (i < 3)%nat -> ColorHistogram.usable h i) ->
  ColorHistogram.Distance h h = Ok fzero.
Proof.
  intros Hu. unfold ColorHistogram.Distance.
  cbn [seq ColorHistogram.Distance_loop]. unfold ColorHistogram.Distance_step.
  rewrite !channel_distance_self by (apply Hu; lia). reflexivity.
Qed.

(** The theorem at a histogram with data in red and blue and a default
    colour for its empty green channel. *)
Lemma ColorHistogram_Distance_self_witness :
  ColorHistogram.Distance
    (ColorHistogram.mk [1; 2] [0; 0] [3; 4] (Some (RgbaColor.new 1 1 1)))
    (ColorHistogram.mk [1; 2] [0; 0] [3; 4] (Some (RgbaColor.new 1 1 1)))
  = Ok fzero.
Proof.
  apply ColorHistogram_Distance_self.
  intros [|[|[|i]]] Hi; [left|right|left|lia].
  - split; [vm_compute; discriminate|reflexivity].
  - split; [reflexivity|]. eexists. split; [reflexivity|]. cbn. lia.
  - split; [vm_compute; discriminate|reflexivity].
Defined.

(** *** Two histograms without data *)

Lemma empty_channel_distance (self other : ColorHistogram.t)
    (c d : RgbaColor.t) (i : nat) :
  ColorHistogram.empty self -> ColorHistogram.empty other ->
  ColorHistogram.default_color self = Some c ->
  ColorHistogram.default_color other = Some d ->
  RgbaColor.in_range c -> RgbaColor.in_range d ->
  exists f,
    float_of_int (Z.abs (RgbaColor.getitem c i - RgbaColor.getitem d i)) = Ok f
    /\ ColorHistogram.channel_distance self other i = Ok f.
Proof.
  intros Hes Heo Hc Hd Hrc Hrd.
  destruct (HistogramDistance_spikes (RgbaColor.getitem c i)
              (RgbaColor.getitem d i) (Hrc i) (Hrd i)) as (f & Hf & Hdist).
  exists f. split; [exact Hf|].
  unfold ColorHistogram.channel_distance.
  rewrite (operand_default self i c (Hes i) Hc (Hrc i)).
  rewrite (operand_default other i d (Heo i) Hd (Hrd i)).
  exact Hdist.
Qed.

(** Two histograms without data are as far apart as their default colours:
    the distance is the sum, as floats, of the absolute differences of the
    red, green and blue channels of the two colours. *)
Theorem ColorHistogram_Distance_of_defaults (self other : ColorHistogram.t)
    (c d : RgbaColor.t) :
  ColorHistogram.empty self -> ColorHistogram.empty other ->
  ColorHistogram.default_color self = Some c ->
  ColorHistogram.default_color other = Some d ->
  RgbaColor.in_range c -> RgbaColor.in_range d ->
  exists fr fg fb,
    float_of_int (Z.abs (RgbaColor.r c - RgbaColor.r d)) = Ok fr
    /\ float_of_int (Z.abs (RgbaColor.g c - RgbaColor.g d)) = Ok fg
    /\ float_of_int (Z.abs (RgbaColor.b c - RgbaColor.b d)) = Ok fb
    /\ ColorHistogram.Distance self other
       = Ok (fadd (fadd (fadd fzero fr) fg) fb).
Proof.
  intros Hes Heo Hc Hd Hrc Hrd.
  destruct (empty_channel_distance self other c d 0 Hes Heo Hc Hd Hrc Hrd)
    as (fr & Hfr & Hdr).
  destruct (empty_channel_distance self other c d 1 Hes Heo Hc Hd Hrc Hrd)
    as (fg & Hfg & Hdg).
  destruct (empty_channel_distance self other c d 2 Hes Heo Hc Hd Hrc Hrd)
    as (fb & Hfb & Hdb).
  exists fr, fg, fb. split; [exact Hfr|]. split; [exact Hfg|].
  split; [exact Hfb|].
  unfold ColorHistogram.Distance.
  cbn [seq ColorHistogram.Distance_loop]. unfold ColorHistogram.Distance_step.
  rewrite Hdr, Hdg, Hdb. reflexivity.
Qed.

(** The theorem at two histograms of 256 empty buckets per channel with the
    default colours (222, 100, 13) and white: 33 + 155 + 242 = 430. *)
Lemma ColorHistogram_Distance_of_defaults_witness :
  ColorHistogram.Distance
    (ColorHistogram.mk (replicate 256 0) (replicate 256 0) (replicate 256 0)
       (Some RgbaColor.WEB_PAGE_TEST_ORANGE))
    (ColorHistogram.mk (replicate 256 0) (replicate 256 0) (replicate 256 0)
       (Some RgbaColor.WHITE))
  = float_of_int 430.
Proof.
  destruct (ColorHistogram_Distance_of_defaults
              (ColorHistogram.mk (replicate 256 0) (replicate 256 0)
                 (replicate 256 0) (Some RgbaColor.WEB_PAGE_TEST_ORANGE))
              (ColorHistogram.mk (replicate 256 0) (replicate 256 0)
                 (replicate 256 0) (Some RgbaColor.WHITE))
              RgbaColor.WEB_PAGE_TEST_ORANGE RgbaColor.WHITE)
    as (fr & fg & fb & Hr & Hg & Hb & Hdist).
  - intros [|[|i]]; vm_compute; reflexivity.
  - intros [|[|i]]; vm_compute; reflexivity.
  - reflexivity.
  - reflexivity.
  - intros [|[|[|i]]]; cbn; lia.
  - intros [|[|[|i]]]; cbn; lia.
  - rewrite Hdist.
    injection Hr as <-. injection Hg as <-. injection Hb as <-.
    vm_compute. reflexivity.
Defined.

(** ** RgbaColor: the relation [IsEqual], the packed int, the assertions *)

Lemma RgbaColor_IsEqual_iff (c e : RgbaColor.t) (t : Z) :
  RgbaColor.IsEqual c e t = true
  <-> Z.abs (RgbaColor.r c - RgbaColor.r e) <= t
      /\ Z.abs (RgbaColor.g c - RgbaColor.g e) <= t
      /\ Z.abs (RgbaColor.b c - RgbaColor.b e) <= t
      /\ Z.abs (RgbaColor.a c - RgbaColor.a e) <= t.
Proof.
  unfold RgbaColor.IsEqual. cbv zeta.
  rewrite !andb_true_iff, !Z.leb_le. tauto.
Qed.

Lemma abs_sub_swap (x y : Z) : Z.abs (x - y) = Z.abs (y - x).
Proof. lia. Qed.

(** [IsEqual] does not depend on the order of the two colours, and a colour
    equals itself exactly when the tolerance is not negative: with a
    negative tolerance nothing is equal to anything. *)
Theorem RgbaColor_IsEqual_symmetric_reflexive (c e : RgbaColor.t) (t : Z) :
  RgbaColor.IsEqual c e t = RgbaColor.IsEqual e c t
  /\ (RgbaColor.IsEqual c c t = true <-> 0 <= t)
  /\ (t < 0 -> RgbaColor.IsEqual c e t = false).
Proof.
  split; [|split].
  - apply eq_true_iff_eq. rewrite !RgbaColor_IsEqual_iff.
    rewrite (abs_sub_swap (RgbaColor.r c)), (abs_sub_swap (RgbaColor.g c)),
      (abs_sub_swap (RgbaColor.b c)), (abs_sub_swap (RgbaColor.a c)).
    reflexivity.
  - rewrite RgbaColor_IsEqual_iff, !Z.sub_diag. cbn. lia.
  - intros Ht. apply not_true_is_false. rewrite RgbaColor_IsEqual_iff. lia.
Qed.

Lemma abs_sub_triangle (x y z s t : Z) :
  Z.abs (x - y) <= s -> Z.abs (y - z) <= t -> Z.abs (x - z) <= s + t.
Proof. lia. Qed.

(** Tolerances add up along a chain of colours, and a larger tolerance
    accepts whatever a smaller one accepts. *)
Theorem RgbaColor_IsEqual_triangle (c d e : RgbaColor.t) (s t : Z) :
  RgbaColor.IsEqual c d s = true -> RgbaColor.IsEqual d e t = true ->
  RgbaColor.IsEqual c e (s + t) = true
  /\ forall u, s <= u -> RgbaColor.IsEqual c d u = true.
Proof.
  rewrite !RgbaColor_IsEqual_iff.
  intros (Hr1 & Hg1 & Hb1 & Ha1) (Hr2 & Hg2 & Hb2 & Ha2). split.
  - repeat split; eapply abs_sub_triangle; eassumption.
  - intros u Hu. rewrite RgbaColor_IsEqual_iff.
    repeat split; eapply Z.le_trans; eassumption.
Qed.

(** The theorem at three greys 10, 12 and 15 with tolerances 2 and 3. *)
Lemma RgbaColor_IsEqual_triangle_witness :
  RgbaColor.IsEqual (RgbaColor.new 10 10 10) (RgbaColor.new 15 15 15) (2 + 3)
  = true.
Proof.
  apply (RgbaColor_IsEqual_triangle (RgbaColor.new 10 10 10)
           (RgbaColor.new 12 12 12) (RgbaColor.new 15 15 15) 2 3);
    reflexivity.
Defined.

(** *** [__int__] *)

Lemma byte_bits_above (b n : Z) : 0 <= b < 256 -> 8 <= n -> Z.testbit b n = false.
Proof.
  intros Hb Hn. destruct (Z.eq_dec b 0) as [->|Hne]; [apply Z.bits_0|].
  apply Z.bits_above_log2; [lia|].
  assert (Z.log2 b < 8) by (apply Z.log2_lt_pow2; lia). lia.
Qed.

(** Or-ing a byte under a value shifted by 8 adds it. *)
Lemma lor_shiftl_byte (x b : Z) :
  0 <= b < 256 -> Z.lor (Z.shiftl x 8) b = x * 256 + b.
Proof.
  intros Hb.
  assert (Hland : Z.land (Z.shiftl x 8) b = 0).
  { apply Z.bits_inj'. intros n Hn. rewrite Z.land_spec, Z.bits_0.
    destruct (Z.lt_ge_cases n 8).
    - rewrite Z.shiftl_spec_low by lia. reflexivity.
    - rewrite (byte_bits_above b n) by lia. apply andb_false_r. }
  pose proof (Z.add_lor_land (Z.shiftl x 8) b) as Hadd.
  rewrite Hland, Z.add_0_r in Hadd. rewrite Hadd.
  rewrite Z.shiftl_mul_pow2 by lia. reflexivity.
Qed.

Lemma to_int_sum (c : RgbaColor.t) :
  0 <= RgbaColor.g c < 256 -> 0 <= RgbaColor.b c < 256 ->
  RgbaColor.to_int c
  = RgbaColor.r c * 65536 + RgbaColor.g c * 256 + RgbaColor.b c.
Proof.
  intros Hg Hb. unfold RgbaColor.to_int.
  replace (Z.shiftl (RgbaColor.r c) 16)
    with (Z.shiftl (Z.shiftl (RgbaColor.r c) 8) 8)
    by (rewrite Z.shiftl_shiftl by lia; reflexivity).
  rewrite <- Z.shiftl_lor.
  rewrite (lor_shiftl_byte (RgbaColor.r c) (RgbaColor.g c) Hg).
  rewrite (lor_shiftl_byte _ (RgbaColor.b c) Hb). lia.
Qed.

(** For a colour whose channels are bytes, [int(c)] is
    [r * 65536 + g * 256 + b], a number from 0 to [2 ^ 24 - 1], from which
    shifts and masks give red, green and blue back; alpha takes no part, so
    the int never is the -1 that stands for no colour. *)
Theorem RgbaColor_int_round_trip (c : RgbaColor.t) :
  RgbaColor.in_range c ->
  let n := RgbaColor.to_int c in
  n = RgbaColor.r c * 65536 + RgbaColor.g c * 256 + RgbaColor.b c
  /\ 0 <= n < 2 ^ 24
  /\ Z.land (Z.shiftr n 16) 255 = RgbaColor.r c
  /\ Z.land (Z.shiftr n 8) 255 = RgbaColor.g c
  /\ Z.land n 255 = RgbaColor.b c
  /\ n = RgbaColor.to_int (RgbaColor.new (RgbaColor.r c) (RgbaColor.g c)
                             (RgbaColor.b c)).
Proof.
  intros Hr n.
  pose proof (Hr 0%nat) as H0. pose proof (Hr 1%nat) as H1.
  pose proof (Hr 2%nat) as H2. cbn in H0, H1, H2.
  assert (Hn : n = RgbaColor.r c * 65536 + RgbaColor.g c * 256
                   + RgbaColor.b c) by (apply to_int_sum; assumption).
  assert (E24 : 2 ^ 24 = 16777216) by reflexivity.
  split; [exact Hn|]. split; [rewrite E24; lia|].
  change 255 with (Z.ones 8). rewrite !Z.land_ones by lia.
  rewrite !Z.shiftr_div_pow2 by lia.
  change (2 ^ 16) with 65536. change (2 ^ 8) with 256.
  assert (Hq16 : n / 65536 = RgbaColor.r c).
  { symmetry. apply (Z.div_unique n 65536 _
                       (RgbaColor.g c * 256 + RgbaColor.b c)); lia. }
  assert (Hq8 : n / 256 = RgbaColor.r c * 256 + RgbaColor.g c).
  { symmetry. apply (Z.div_unique n 256 _ (RgbaColor.b c)); lia. }
  rewrite Hq16, Hq8.
  split; [apply Z.mod_small; lia|].
  split; [symmetry;
          apply (Z.mod_unique _ 256 (RgbaColor.r c) (RgbaColor.g c)); lia|].
  split; [symmetry;
          apply (Z.mod_unique n 256 (RgbaColor.r c * 256 + RgbaColor.g c)
                   (RgbaColor.b c)); lia|].
  reflexivity.
Qed.

(** The theorem at the orange of WebPageTest: 222, 100, 13 is 0xDE640D. *)
Lemma RgbaColor_int_round_trip_witness :
  RgbaColor.to_int RgbaColor.WEB_PAGE_TEST_ORANGE = 14574605
  /\ Z.land (Z.shiftr (RgbaColor.to_int RgbaColor.WEB_PAGE_TEST_ORANGE) 8) 255
     = 100.
Proof.
  destruct (RgbaColor_int_round_trip RgbaColor.WEB_PAGE_TEST_ORANGE)
    as (Hn & _ & _ & Hg & _).
  - intros [|[|[|i]]]; cbn; lia.
  - split; [rewrite Hn; reflexivity|exact Hg].
Defined.

(** *** [AssertIsRGB] and [AssertIsRGBA] *)

(** [AssertIsRGB] compares with an opaque colour: called on a colour with
    its own red, green and blue it passes exactly when the alpha of the
    colour is within the tolerance of 255, whereas [AssertIsRGBA] with the
    four channels of the colour passes exactly when the tolerance is not
    negative; what does not pass raises [AssertionError]. *)
Theorem RgbaColor_AssertIsRGB_wants_opaque (c : RgbaColor.t) (t : Z) :
  (RgbaColor.AssertIsRGB c (RgbaColor.r c) (RgbaColor.g c) (RgbaColor.b c) t
   = Ok tt <-> Z.abs (RgbaColor.a c - 255) <= t)
  /\ (RgbaColor.AssertIsRGBA c (RgbaColor.r c) (RgbaColor.g c)
        (RgbaColor.b c) (RgbaColor.a c) t = Ok tt <-> 0 <= t)
  /\ (forall r g b,
        RgbaColor.AssertIsRGB c r g b t = Ok tt
        \/ RgbaColor.AssertIsRGB c r g b t = Raise AssertionError).
Proof.
  unfold RgbaColor.AssertIsRGB, RgbaColor.AssertIsRGBA. split; [|split].
  - destruct (RgbaColor.IsEqual c _ t) eqn:E.
    + apply RgbaColor_IsEqual_iff in E. cbn in E. split; [lia|reflexivity].
    + split; [discriminate|]. intros Ha. exfalso.
      apply not_true_iff_false in E. apply E.
      apply RgbaColor_IsEqual_iff. cbn. rewrite !Z.sub_diag. cbn. lia.
  - destruct (RgbaColor.IsEqual c _ t) eqn:E.
    + apply RgbaColor_IsEqual_iff in E. cbn in E. rewrite !Z.sub_diag in E.
      cbn in E. split; [lia|reflexivity].
    + split; [discriminate|]. intros Ha. exfalso.
      apply not_true_iff_false in E. apply E.
      apply RgbaColor_IsEqual_iff. cbn. rewrite !Z.sub_diag. cbn. lia.
  - intros r g b. destruct (RgbaColor.IsEqual c _ t); auto.
Qed.

(** ** ColorHistogram.Distance: the substitution of empty channels *)









(** ** Bitmap: construction *)

(** [Bitmap(bpp, width, height, pixels)] raises [AssertionError] and leaves
    the store alone unless [bpp] is 3 or 4, both sizes are positive and
    [pixels] has [bpp * width * height] items; otherwise it adds one object
    without a pending crop under a reference that was free, and every other
    object stays what it was.  The items themselves are not looked at. *)
Theorem Bitmap_init_accepts_iff (bpp width height : Z)
    (pixels : Bitmap.pixel_data) (h : gmap nat Bitmap.t) :
  let valid :=
    (bpp = 3 \/ bpp = 4) /\ 0 < width /\ 0 < height
    /\ bpp * width * height = Bitmap.len pixels in
  (valid ->
   exists self,
     Bitmap.__init__ bpp width height pixels h
     = (Ok self, <[self := Bitmap.mk bpp width height pixels None]> h)
     /\ h !! self = None
     /\ forall r, r <> self ->
          (Bitmap.__init__ bpp width height pixels h).2 !! r = h !! r)
  /\ (~ valid ->
      Bitmap.__init__ bpp width height pixels h = (Raise AssertionError, h)).
Proof.
  intros valid. subst valid. unfold Bitmap.__init__, Bitmap.raise. split.
  - intros (Hb & Hw & Hh & Hlen).
    assert (Eb : (bpp =? 3) || (bpp =? 4) = true).
    { destruct Hb as [-> | ->]; reflexivity. }
    rewrite Eb. cbn [negb].
    destruct (Z.gtb_spec width 0); [|lia].
    destruct (Z.gtb_spec height 0); [|lia]. cbn [negb].
    destruct (Z.eqb_spec (Bitmap.len pixels) 0); [nia|].
    destruct (Z.eqb_spec (bpp * width * height) (Bitmap.len pixels)); [|lia].
    cbn [negb]. eexists. split; [reflexivity|].
    split; [apply not_elem_of_dom, is_fresh|].
    intros r Hr. cbn [snd]. apply lookup_insert_ne. congruence.
  - intros Hnot.
    destruct (Z.eqb_spec bpp 3) as [H3|H3]; destruct (Z.eqb_spec bpp 4) as [H4|H4];
      cbn [orb negb]; try reflexivity;
      (destruct (Z.gtb_spec width 0); cbn [negb]; [|reflexivity];
       destruct (Z.gtb_spec height 0); cbn [negb]; [|reflexivity];
       destruct (Z.eqb_spec (Bitmap.len pixels) 0); [reflexivity|];
       destruct (Z.eqb_spec (bpp * width * height) (Bitmap.len pixels));
         cbn [negb]; [|reflexivity];
       exfalso; apply Hnot; repeat split; auto; lia).
Qed.

(** The theorem at a 2 by 1 image of 3 bytes per pixel: it is accepted
    although 300 is no byte. *)
Lemma Bitmap_init_accepts_iff_witness :
  exists self,
    Bitmap.__init__ 3 2 1 (Bitmap.IntSeq [1; 2; 3; 4; 5; 300])
      Bitmap.example_store
    = (Ok self,
       <[self := Bitmap.mk 3 2 1 (Bitmap.IntSeq [1; 2; 3; 4; 5; 300]) None]>
         Bitmap.example_store).
Proof.
  destruct (proj1 (Bitmap_init_accepts_iff 3 2 1
                     (Bitmap.IntSeq [1; 2; 3; 4; 5; 300])
                     Bitmap.example_store)) as (self & Hinit & _).
  - split; [left; reflexivity|]. split; [lia|]. split; [lia|reflexivity].
  - exists self. exact Hinit.
Defined.

(** ** Bitmap: the [pixels] property *)

Section Pixels.

Context `{Bitmap.PixelEngine}.

(** When [pixels] raises, be it the engine that fails or a list item that is
    no byte, the store is what it was: the crop stays pending. *)
Theorem pixels_failure_keeps_store (h h' : gmap nat Bitmap.t)
    (self : Bitmap.ref) (e : exn) :
  Bitmap.pixels self h = (Raise e, h') -> h' = h.
Proof.
  destruct (h !! self) as [o|] eqn:Ho.
  - destruct ((Bitmap.view o).2) as [buf|e'] eqn:Ev.
    + rewrite (pixels_yields h self o buf Ho Ev). discriminate.
    + rewrite (pixels_raises h self o e' Ho Ev). congruence.
  - unfold Bitmap.pixels, Bitmap.bind, Bitmap.get. rewrite Ho. congruence.
Qed.

End Pixels.

(** The theorem at the cropped example with an engine whose binary is
    missing. *)
Lemma pixels_failure_keeps_store_witness :
  (@Bitmap.pixels {| Bitmap.binary_exists := false;
                     Bitmap.crop_pixels_reply := fun _ _ => Ok [] |}
     0%nat Bitmap.example_store).2 = Bitmap.example_store.
Proof.
  apply (@pixels_failure_keeps_store
           {| Bitmap.binary_exists := false;
              Bitmap.crop_pixels_reply := fun _ _ => Ok [] |}
           Bitmap.example_store _ 0%nat AssertionError).
  reflexivity.
Defined.

(** The first read of [pixels] that succeeds applies the pending crop: the
    object then has no crop box, its stored size is the logical size it
    reported before, and its buffer is the bytes returned.  Other objects
    are not touched.  Every later read, with whatever engine, returns the
    same bytes and leaves the store as it is: the engine is asked at most
    once. *)
Theorem pixels_materializes_once (E E' : Bitmap.PixelEngine)
    (h h' : gmap nat Bitmap.t) (self : Bitmap.ref) (o : Bitmap.t)
    (buf : list byte) :
  h !! self = Some o ->
  @Bitmap.pixels E self h = (Ok buf, h') ->
  h' !! self
  = Some (Bitmap.mk (Bitmap._bpp o) (Bitmap.logical_width o)
            (Bitmap.logical_height o) (Bitmap.ByteArray buf) None)
  /\ (forall r, r <> self -> h' !! r = h !! r)
  /\ @Bitmap.pixels E' self h' = (Ok buf, h').
Proof.
  intros Ho Hp.
  destruct ((@Bitmap.view E o).2) as [buf'|e] eqn:Ev.
  - rewrite (@pixels_yields E h self o buf' Ho Ev) in Hp.
    injection Hp as <- <-. split; [apply lookup_insert_eq|]. split.
    + intros r Hr. apply lookup_insert_ne. congruence.
    + rewrite (@pixels_yields E' _ self (Bitmap.materialized o buf') buf'
                 (lookup_insert_eq _ _ _) eq_refl).
      f_equal. rewrite insert_insert_eq. reflexivity.
  - rewrite (@pixels_raises E h self o e Ho Ev) in Hp. discriminate.
Qed.

(** The theorem at the cropped example: the reference engine cuts the two
    right columns, and a second read needs no engine. *)
Lemma pixels_materializes_once_witness :
  exists buf h',
    @Bitmap.pixels Bitmap.reference_engine 0%nat Bitmap.example_store
    = (Ok buf, h')
    /\ Bitmap._crop_box <$> h' !! 0%nat = Some None
    /\ @Bitmap.pixels {| Bitmap.binary_exists := false;
                         Bitmap.crop_pixels_reply := fun _ _ => Ok [] |}
         0%nat h' = (Ok buf, h').
Proof.
  destruct (@Bitmap.pixels Bitmap.reference_engine 0%nat Bitmap.example_store)
    as [[buf|e] h'] eqn:Ep; [|vm_compute in Ep; discriminate].
  destruct (pixels_materializes_once Bitmap.reference_engine
              {| Bitmap.binary_exists := false;
                 Bitmap.crop_pixels_reply := fun _ _ => Ok [] |}
              Bitmap.example_store h' 0%nat Bitmap.example_cropped buf
              eq_refl Ep) as (Hself & _ & Hagain).
  exists buf, h'. split; [reflexivity|]. split; [|exact Hagain].
  exact (f_equal (fmap Bitmap._crop_box) Hself).
Defined.

(** ** Bitmap: [GetPixelColor] without a bounds check *)

Lemma getitem_either {A : Type} (l : list A) (i : Z) (m : nat) (a : A) :
  l !! m = Some a ->
  i = Z.of_nat m \/ i = Z.of_nat m - Z.of_nat (length l) ->
  Py.getitem l i = Ok a.
Proof.
  intros Hl Hi. pose proof (lookup_lt_Some _ _ _ Hl) as Hlt.
  unfold Py.getitem, norm_index.
  destruct Hi as [-> | ->].
  - destruct (Z.ltb_spec (Z.of_nat m) 0); [lia|].
    destruct (Z.leb_spec 0 (Z.of_nat m)); [|lia].
    destruct (Z.ltb_spec (Z.of_nat m) (Z.of_nat (length l))); [|lia].
    cbn. rewrite Nat2Z.id, Hl. reflexivity.
  - destruct (Z.ltb_spec (Z.of_nat m - Z.of_nat (length l)) 0); [|lia].
    replace (Z.of_nat m - Z.of_nat (length l) + Z.of_nat (length l))
      with (Z.of_nat m) by lia.
    destruct (Z.leb_spec 0 (Z.of_nat m)); [|lia].
    destruct (Z.ltb_spec (Z.of_nat m) (Z.of_nat (length l))); [|lia].
    cbn. rewrite Nat2Z.id, Hl. reflexivity.
Qed.

Lemma getitem_outside {A : Type} (l : list A) (i : Z) :
  i < - Z.of_nat (length l) \/ Z.of_nat (length l) <= i ->
  Py.getitem l i = Raise IndexError.
Proof.
  intros Hi. unfold Py.getitem, norm_index.
  destruct (Z.ltb_spec i 0).
  - destruct (Z.leb_spec 0 (i + Z.of_nat (length l))); [lia|]. reflexivity.
  - destruct (Z.leb_spec 0 i); [|lia].
    destruct (Z.ltb_spec i (Z.of_nat (length l))); [lia|]. reflexivity.
Qed.

(** The reads of [GetPixelColor] at offset [bpp * q] get pixel [q] when [q]
    is a pixel of the buffer, and pixel [q + pixels] when [q] is negative
    and not below minus the number of pixels. *)
Lemma color_at_pixel (bpp w : Z) (buf : list byte) (x y : Z) (k : nat)
    (pixels : Z) :
  bpp = 3 \/ bpp = 4 ->
  Z.of_nat (length buf) = bpp * pixels ->
  Z.of_nat k < pixels ->
  y * w + x = Z.of_nat k \/ y * w + x = Z.of_nat k - pixels ->
  exists c, Bitmap.pixel_number bpp buf k = Some c
            /\ Bitmap.color_at bpp w buf x y = Ok c.
Proof.
  intros Hb Hlen Hk Hq.
  set (n := (Z.to_nat bpp * k)%nat).
  assert (Hn : Z.of_nat n = bpp * Z.of_nat k) by (subst n; destruct Hb; lia).
  assert (Hbase : forall j : nat, Z.of_nat j < bpp ->
            bpp * (y * w + x) + Z.of_nat j = Z.of_nat (n + j)
            \/ bpp * (y * w + x) + Z.of_nat j
               = Z.of_nat (n + j) - Z.of_nat (length buf)).
  { intros j Hj. destruct Hq as [-> | ->]; [left|right]; nia. }
  assert (Hget : forall j : nat, Z.of_nat j < bpp ->
            exists b, buf !! (n + j)%nat = Some b
                      /\ Py.getitem buf (bpp * (y * w + x) + Z.of_nat j)
                         = Ok b).
  { intros j Hj.
    destruct (lookup_lt_is_Some_2 buf (n + j)) as [b Hbyte]; [nia|].
    exists b. split; [exact Hbyte|].
    apply (getitem_either buf _ (n + j) b Hbyte). apply Hbase. exact Hj. }
  unfold Bitmap.pixel_number, Bitmap.color_at. cbv zeta. fold n.
  destruct (Hget 0%nat ltac:(destruct Hb; lia)) as (b0 & L0 & G0).
  destruct (Hget 1%nat ltac:(destruct Hb; lia)) as (b1 & L1 & G1).
  destruct (Hget 2%nat ltac:(destruct Hb; lia)) as (b2 & L2 & G2).
  rewrite Nat.add_0_r in L0. change (Z.of_nat 0) with 0 in G0.
  change (Z.of_nat 1) with 1 in G1. change (Z.of_nat 2) with 2 in G2.
  rewrite L0, L1, L2, G0, G1, G2. cbn [mbind option_bind Py.bind].
  destruct Hb as [-> | ->]; cbn [Z.eqb Pos.eqb].
  - eexists. split; reflexivity.
  - destruct (Hget 3%nat ltac:(lia)) as (b3 & L3 & G3).
    change (Z.of_nat 3) with 3 in G3. rewrite L3, G3.
    cbn [mbind option_bind Py.bind]. eexists. split; reflexivity.
Qed.

Lemma color_at_outside (bpp w : Z) (buf : list byte) (x y pixels : Z) :
  bpp = 3 \/ bpp = 4 ->
  Z.of_nat (length buf) = bpp * pixels ->
  y * w + x < - pixels \/ pixels <= y * w + x ->
  Bitmap.color_at bpp w buf x y = Raise IndexError.
Proof.
  intros Hb Hlen Hq. unfold Bitmap.color_at. cbv zeta.
  rewrite (getitem_outside buf (bpp * (y * w + x) + 0)) by (destruct Hb; nia).
  destruct (bpp =? 4); reflexivity.
Qed.

Section GetPixelColor.

Context `{Bitmap.PixelEngine}.

(** [GetPixelColor(x, y)] checks no bounds.  On a bitmap that satisfies the
    invariant, with [n] pixels in rows of [w], it reads pixel number
    [y * w + x] counted row by row whenever that number is from [-n] to
    [n - 1], a negative number counting from the end: [x = w] is the first
    pixel of the next row and [(-1, 0)] is the last pixel of the image.
    Every other coordinate raises [IndexError]. *)
Theorem GetPixelColor_reads_modulo (h : gmap nat Bitmap.t)
    (self : Bitmap.ref) (o : Bitmap.t) (buf : list byte) (x y : Z) :
  h !! self = Some o ->
  Bitmap._bpp o = 3 \/ Bitmap._bpp o = 4 ->
  (Bitmap.view o).2 = Ok buf ->
  Z.of_nat (length buf)
  = Bitmap._bpp o * (Bitmap.logical_width o * Bitmap.logical_height o) ->
  let n := Bitmap.logical_width o * Bitmap.logical_height o in
  let q := y * Bitmap.logical_width o + x in
  (- n <= q < n ->
   exists c,
     Bitmap.pixel_number (Bitmap._bpp o) buf (Z.to_nat (q mod n)) = Some c
     /\ (Bitmap.GetPixelColor self x y h).1 = Ok c)
  /\ (q < - n \/ n <= q ->
      (Bitmap.GetPixelColor self x y h).1 = Raise IndexError).
Proof.
  intros Ho Hb Hv Hlen n q.
  rewrite (GetPixelColor_view h self o x y Ho). cbn [fst].
  unfold Bitmap.color_of_view.
  change (Bitmap.view o)
    with (Bitmap._bpp o, Bitmap.logical_width o, Bitmap.logical_height o,
          (Bitmap.view o).2).
  cbv iota beta. rewrite Hv. cbn [Py.bind]. split.
  - intros Hq.
    assert (Hn : 0 < n) by lia.
    pose proof (Z.mod_pos_bound q n Hn) as Hmod.
    apply (color_at_pixel _ _ buf x y (Z.to_nat (q mod n)) n);
      [exact Hb|exact Hlen|lia|].
    rewrite Z2Nat.id by lia. fold q.
    destruct (Z.lt_ge_cases q 0) as [Hneg|Hpos].
    + right. symmetry. apply Z.add_move_r. symmetry.
      apply (Z.mod_unique q n (-1)); lia.
    + left. symmetry. apply Z.mod_small. lia.
  - intros Hq.
    apply (color_at_outside _ _ buf x y n); [exact Hb|exact Hlen|exact Hq].
Qed.

End GetPixelColor.

(** The theorem at the whole example, 3 by 2 pixels: [(3, 0)] is the first
    pixel of the second row, [(-1, 0)] is the last pixel, and [(0, 2)] is
    outside. *)
Lemma GetPixelColor_reads_modulo_witness :
  (@Bitmap.GetPixelColor Bitmap.reference_engine 1%nat 3 0
     Bitmap.example_store).1 = Ok (RgbaColor.new 10 11 12)
  /\ (@Bitmap.GetPixelColor Bitmap.reference_engine 1%nat (-1) 0
        Bitmap.example_store).1 = Ok (RgbaColor.new 16 17 18)
  /\ (@Bitmap.GetPixelColor Bitmap.reference_engine 1%nat 0 2
        Bitmap.example_store).1 = Raise IndexError.
Proof.
  assert (Hbuf : exists buf,
            (@Bitmap.view Bitmap.reference_engine Bitmap.example_whole).2
            = Ok buf /\ length buf = 18%nat).
  { eexists. split; vm_compute; reflexivity. }
  destruct Hbuf as (buf & Hv & Hlen).
  pose proof (fun x y =>
    @GetPixelColor_reads_modulo Bitmap.reference_engine Bitmap.example_store
      1%nat Bitmap.example_whole buf x y eq_refl (or_introl eq_refl) Hv
      ltac:(rewrite Hlen; reflexivity)) as Hget.
  split; [|split].
  - destruct (proj1 (Hget 3 0)) as (c & Hc & ->); [vm_compute; split; congruence|].
    vm_compute in Hv. injection Hv as <-. vm_compute in Hc.
    injection Hc as <-. reflexivity.
  - destruct (proj1 (Hget (-1) 0)) as (c & Hc & ->);
      [vm_compute; split; congruence|].
    vm_compute in Hv. injection Hv as <-. vm_compute in Hc.
    injection Hc as <-. reflexivity.
  - apply (proj2 (Hget 0 2)). right. vm_compute. discriminate.
Defined.

(** ** Bitmap: how crops compose and what they leave alone *)

(** Two valid crops in a row are one crop: the second is relative to the
    first, and the store after both is the store after a single crop at the
    sum of the two offsets with the size of the second. *)
Theorem Crop_twice_is_one_crop (h : gmap nat Bitmap.t) (self : Bitmap.ref)
    (o : Bitmap.t) (l1 t1 w1 h1 l2 t2 w2 h2 : Z) :
  h !! self = Some o ->
  0 <= l1 -> 0 <= t1 ->
  l1 + w1 <= Bitmap.logical_width o -> t1 + h1 <= Bitmap.logical_height o ->
  0 <= l2 -> 0 <= t2 -> l2 + w2 <= w1 -> t2 + h2 <= h1 ->
  Bitmap.Crop self l2 t2 w2 h2 (Bitmap.Crop self l1 t1 w1 h1 h).2
  = Bitmap.Crop self (l1 + l2) (t1 + t2) w2 h2 h.
Proof.
  intros Ho Hl1 Ht1 Hw1 Hh1 Hl2 Ht2 Hw2 Hh2.
  rewrite (Crop_valid h self o l1 t1 w1 h1 Ho) by lia. cbn [snd].
  set (o1 := Bitmap.set_crop_box _ o).
  assert (Ho1 : <[self := o1]> h !! self = Some o1) by apply lookup_insert_eq.
  rewrite (Crop_valid _ self o1 l2 t2 w2 h2 Ho1) by
    (subst o1; unfold Bitmap.logical_width, Bitmap.logical_height,
       Bitmap.set_crop_box; cbn; lia).
  rewrite (Crop_valid h self o (l1 + l2) (t1 + t2) w2 h2 Ho) by lia.
  rewrite insert_insert_eq. f_equal. f_equal.
  subst o1. unfold Bitmap.set_crop_box, Bitmap.active_box. cbn.
  f_equal. f_equal.
  destruct (Bitmap._crop_box o) as [[[[cl ct] cw] ch]|]; cbn;
    rewrite !Z.add_assoc; reflexivity.
Qed.

(** The theorem at the whole example: the right two columns, then the right
    column of those, is the third column. *)
Lemma Crop_twice_is_one_crop_witness :
  Bitmap.Crop 1%nat 1 1 1 1 (Bitmap.Crop 1%nat 1 0 2 2 Bitmap.example_store).2
  = Bitmap.Crop 1%nat (1 + 1) (0 + 1) 1 1 Bitmap.example_store.
Proof.
  apply (Crop_twice_is_one_crop Bitmap.example_store 1%nat
           Bitmap.example_whole 1 0 2 2 1 1 1 1 eq_refl);
    first [lia | vm_compute; discriminate].
Defined.

(** Crops never touch the backing buffer and never leave it: after any
    sequence of [Crop] calls on a bitmap, accepted or refused, the object
    has the bytes per pixel, stored size and pixels it had, every other
    object of the store is as it was, and a pending box that was inside the
    stored size is still inside it. *)
Theorem Crop_calls_keep_box_inside (boxes : list Bitmap.box)
    (h : gmap nat Bitmap.t) (self : Bitmap.ref) (o : Bitmap.t) :
  h !! self = Some o ->
  Bitmap.box_inside o ->
  let h' := Bitmap.crop_calls self boxes h in
  exists o',
    h' !! self = Some o'
    /\ Bitmap._bpp o' = Bitmap._bpp o
    /\ Bitmap._width o' = Bitmap._width o
    /\ Bitmap._height o' = Bitmap._height o
    /\ Bitmap._pixels o' = Bitmap._pixels o
    /\ Bitmap.box_inside o'
    /\ forall r, r <> self -> h' !! r = h !! r.
Proof.
  cbv zeta. revert h o.
  induction boxes as [|[[[left top] width] height] rest IH]; intros h o Ho Hin.
  - exists o. cbn. auto 10.
  - cbn [Bitmap.crop_calls].
    destruct (decide (left < 0 \/ top < 0
                      \/ left + width > Bitmap.logical_width o
                      \/ top + height > Bitmap.logical_height o))
      as [Hbad|Hgood].
    + rewrite (Crop_invalid h self o left top width height Ho Hbad).
      cbn [snd]. apply IH; assumption.
    + rewrite (Crop_valid h self o left top width height Ho Hgood).
      cbn [snd].
      set (o1 := Bitmap.set_crop_box _ o).
      destruct (IH (<[self := o1]> h) o1) as (o' & Ho' & Hb & Hw & Hh & Hp
                                                & Hin' & Hframe).
      * apply lookup_insert_eq.
      * subst o1. unfold Bitmap.box_inside, Bitmap.active_box,
          Bitmap.logical_width, Bitmap.logical_height in *.
        destruct (Bitmap._crop_box o) as [[[[cl ct] cw] ch]|]; cbn; lia.
      * exists o'. split; [exact Ho'|]. repeat (split; [assumption|]).
        intros r Hr. rewrite (Hframe r Hr). apply lookup_insert_ne. congruence.
Qed.

(** The theorem at the whole example: a crop to the two right columns, a
    refused crop, and a crop to the right column of what is left. *)
Lemma Crop_calls_keep_box_inside_witness :
  exists o',
    Bitmap.crop_calls 1%nat [(1, 0, 2, 2); (0, 0, 3, 1); (1, 1, 1, 1)]
      Bitmap.example_store !! 1%nat = Some o'
    /\ Bitmap._pixels o' = Bitmap.example_pixels
    /\ Bitmap.box_inside o'.
Proof.
  destruct (Crop_calls_keep_box_inside
              [(1, 0, 2, 2); (0, 0, 3, 1); (1, 1, 1, 1)]
              Bitmap.example_store 1%nat Bitmap.example_whole eq_refl I)
    as (o' & Ho' & _ & _ & _ & Hp & Hin & _).
  exists o'. split; [exact Ho'|]. split; [exact Hp|exact Hin].
Defined.

(** ** Bitmap.IsEqual: what it decides *)

Lemma forallb_ext_in {A : Type} (p q : A -> bool) (l : list A) :
  (forall x, x ∈ l -> p x = q x) -> forallb p l = forallb q l.
Proof.
  induction l as [|x l IH]; intros Hpq; [reflexivity|].
  cbn [forallb]. rewrite (Hpq x) by left. f_equal.
  apply IH. intros x' Hx'. apply Hpq. right. exact Hx'.
Qed.

Lemma forallb_range_true (p : Z -> bool) (n : Z) :
  forallb p (Py.range n) = true <-> forall x, 0 <= x < n -> p x = true.
Proof.
  rewrite forallb_forall. split.
  - intros Hall x Hx. apply Hall, list_elem_of_In, in_range_iff. exact Hx.
  - intros Hall x Hx. apply Hall, in_range_iff, list_elem_of_In. exact Hx.
Qed.

Lemma RgbaColor_IsEqual_sym (c e : RgbaColor.t) (t : Z) :
  RgbaColor.IsEqual c e t = RgbaColor.IsEqual e c t.
Proof.
  apply eq_true_iff_eq. rewrite !RgbaColor_IsEqual_iff.
  rewrite (abs_sub_swap (RgbaColor.r c)), (abs_sub_swap (RgbaColor.g c)),
    (abs_sub_swap (RgbaColor.b c)), (abs_sub_swap (RgbaColor.a c)).
  reflexivity.
Qed.

Lemma same_pixel_sym (va vb : Bitmap.view_t) (tolerance y x : Z) :
  Bitmap.same_pixel va vb tolerance y x
  = Bitmap.same_pixel vb va tolerance y x.
Proof.
  unfold Bitmap.same_pixel.
  destruct (Bitmap.color_of_view va x y), (Bitmap.color_of_view vb x y);
    try reflexivity.
  apply RgbaColor_IsEqual_sym.
Qed.

Section IsEqualDecides.

Context `{Bitmap.PixelEngine}.

Lemma IsEqual_same_size (h : gmap nat Bitmap.t) (a b : Bitmap.ref)
    (oa ob : Bitmap.t) (tolerance : Z) :
  h !! a = Some oa -> h !! b = Some ob ->
  Bitmap.logical_width oa = Bitmap.logical_width ob ->
  Bitmap.logical_height oa = Bitmap.logical_height ob ->
  Bitmap.IsEqual a b tolerance h
  = if negb (tolerance =? 0) || negb (Bitmap._bpp oa =? Bitmap._bpp ob)
    then Bitmap.IsEqual_scan a b tolerance h
    else Bitmap.IsEqual_bytes a b h.
Proof.
  intros Ha Hb Hw Hh. unfold Bitmap.IsEqual.
  rewrite (bind_ok _ _ _ _ _ (width_held _ _ _ Ha)).
  rewrite (bind_ok _ _ _ _ _ (width_held _ _ _ Hb)).
  rewrite Hw, Z.eqb_refl. cbn [negb].
  unfold Bitmap.bind at 1.
  rewrite (bind_ok _ _ _ _ _ (height_held _ _ _ Ha)).
  rewrite (bind_ok _ _ _ _ _ (height_held _ _ _ Hb)).
  rewrite Hh, Z.eqb_refl. cbn [negb Bitmap.ret].
  destruct (tolerance =? 0); cbn [negb orb].
  - unfold Bitmap.bind at 1.
    rewrite (bind_ok _ _ _ _ _ (bpp_held _ _ _ Ha)).
    rewrite (bind_ok _ _ _ _ _ (bpp_held _ _ _ Hb)).
    unfold Bitmap.ret.
    destruct (Bitmap._bpp oa =? Bitmap._bpp ob); reflexivity.
  - reflexivity.
Qed.

Lemma compare_pixel (oa ob : Bitmap.t) (tolerance x y : Z) :
  Bitmap.well_formed oa -> Bitmap.well_formed ob ->
  Bitmap.logical_width oa = Bitmap.logical_width ob ->
  Bitmap.logical_height oa = Bitmap.logical_height ob ->
  0 <= x < Bitmap.logical_width oa -> 0 <= y < Bitmap.logical_height oa ->
  Bitmap.compare_of_views (Bitmap.view oa) (Bitmap.view ob) tolerance y x
  = Ok (if Bitmap.same_pixel (Bitmap.view oa) (Bitmap.view ob) tolerance y x
        then None else Some false).
Proof.
  intros Hwa Hwb Hw Hh Hx Hy.
  unfold Bitmap.compare_of_views, Bitmap.same_pixel.
  destruct (color_of_view_ok oa x y Hwa Hx Hy) as [c0 ->].
  destruct (color_of_view_ok ob x y Hwb) as [c1 ->]; [lia..|].
  cbn [Py.bind]. destruct (RgbaColor.IsEqual c0 c1 tolerance); reflexivity.
Qed.

Lemma IsEqual_scan_decides (h : gmap nat Bitmap.t) (a b : Bitmap.ref)
    (oa ob : Bitmap.t) (tolerance : Z) :
  h !! a = Some oa -> h !! b = Some ob ->
  Bitmap.well_formed oa -> Bitmap.well_formed ob ->
  Bitmap.logical_width oa = Bitmap.logical_width ob ->
  Bitmap.logical_height oa = Bitmap.logical_height ob ->
  (Bitmap.IsEqual_scan a b tolerance h).1
  = Ok (Bitmap.all_pixels_within oa ob tolerance).
Proof.
  intros Ha Hb Hwa Hwb Hw Hh.
  rewrite (IsEqual_scan_views h a b oa ob tolerance Ha Hb).
  rewrite (first_return_all _
             (fun y => forallb
                         (Bitmap.same_pixel (Bitmap.view oa) (Bitmap.view ob)
                            tolerance y)
                         (Py.range (Bitmap.logical_width oa)))).
  - unfold Bitmap.all_pixels_within.
    destruct (forallb _ (Py.range (Bitmap.logical_height oa))); reflexivity.
  - intros y Hy. apply in_range_iff in Hy.
    apply first_return_all. intros x Hx. apply in_range_iff in Hx.
    apply compare_pixel; assumption.
Qed.

Lemma IsEqual_bytes_decides (h : gmap nat Bitmap.t) (a b : Bitmap.ref)
    (oa ob : Bitmap.t) :
  h !! a = Some oa -> h !! b = Some ob ->
  Bitmap.well_formed oa -> Bitmap.well_formed ob ->
  Bitmap.logical_width oa = Bitmap.logical_width ob ->
  Bitmap.logical_height oa = Bitmap.logical_height ob ->
  Bitmap._bpp oa = Bitmap._bpp ob ->
  (Bitmap.IsEqual_bytes a b h).1 = Ok (Bitmap.all_pixels_within oa ob 0).
Proof.
  intros Ha Hb Hwa Hwb Hw Hh Hbpp.
  rewrite <- (IsEqual_scan_decides h a b oa ob 0) by assumption.
  destruct Hwa as (Hb34 & Hw0 & Hh0 & bufa & Hva & Hla).
  destruct Hwb as (_ & _ & _ & bufb & Hvb & Hlb).
  rewrite (IsEqual_bytes_views h a b oa ob Ha Hb).
  rewrite (IsEqual_scan_views h a b oa ob 0 Ha Hb).
  rewrite Hva, Hvb. cbn [Py.bind].
  assert (Ea : Bitmap.view oa
               = (Bitmap._bpp oa, Bitmap.logical_width oa,
                  Bitmap.logical_height oa, Ok bufa)).
  { unfold Bitmap.view in *. cbn [snd] in Hva. rewrite Hva. reflexivity. }
  assert (Eb : Bitmap.view ob
               = (Bitmap._bpp oa, Bitmap.logical_width oa,
                  Bitmap.logical_height oa, Ok bufb)).
  { unfold Bitmap.view in *. cbn [snd] in Hvb.
    rewrite Hvb, Hw, Hh, Hbpp. reflexivity. }
  rewrite Ea, Eb. symmetry.
  apply scan_of_views_is_byte_equality; try assumption.
  rewrite Hlb, Hw, Hh, Hbpp. reflexivity.
Qed.

(** The value of [IsEqual] on two well-formed bitmaps. *)
Lemma IsEqual_value (h : gmap nat Bitmap.t) (a b : Bitmap.ref)
    (oa ob : Bitmap.t) (tolerance : Z) :
  h !! a = Some oa -> h !! b = Some ob ->
  Bitmap.well_formed oa -> Bitmap.well_formed ob ->
  (Bitmap.IsEqual a b tolerance h).1
  = Ok ((Bitmap.logical_width oa =? Bitmap.logical_width ob)
        && (Bitmap.logical_height oa =? Bitmap.logical_height ob)
        && Bitmap.all_pixels_within oa ob tolerance).
Proof.
  intros Ha Hb Hwa Hwb.
  destruct (Z.eqb_spec (Bitmap.logical_width oa) (Bitmap.logical_width ob))
    as [Hw|Hw]; cbn [andb];
    [|rewrite (IsEqual_size_mismatch h a b oa ob) by auto; reflexivity].
  destruct (Z.eqb_spec (Bitmap.logical_height oa) (Bitmap.logical_height ob))
    as [Hh|Hh]; cbn [andb];
    [|rewrite (IsEqual_size_mismatch h a b oa ob) by auto; reflexivity].
  rewrite (IsEqual_same_size h a b oa ob tolerance Ha Hb Hw Hh).
  destruct (Z.eqb_spec tolerance 0) as [->|Ht]; cbn [negb orb].
  - destruct (Z.eqb_spec (Bitmap._bpp oa) (Bitmap._bpp ob)) as [Hbpp|Hbpp];
      cbn [negb].
    + apply IsEqual_bytes_decides; assumption.
    + apply IsEqual_scan_decides; assumption.
  - apply IsEqual_scan_decides; assumption.
Qed.

Lemma all_pixels_within_iff (h : gmap nat Bitmap.t) (a b : Bitmap.ref)
    (oa ob : Bitmap.t) (tolerance : Z) :
  h !! a = Some oa -> h !! b = Some ob ->
  Bitmap.all_pixels_within oa ob tolerance = true
  <-> forall x y,
        0 <= x < Bitmap.logical_width oa ->
        0 <= y < Bitmap.logical_height oa ->
        exists c0 c1,
          (Bitmap.GetPixelColor a x y h).1 = Ok c0
          /\ (Bitmap.GetPixelColor b x y h).1 = Ok c1
          /\ RgbaColor.IsEqual c0 c1 tolerance = true.
Proof.
  intros Ha Hb. unfold Bitmap.all_pixels_within. rewrite forallb_range_true.
  split.
  - intros Hall x y Hx Hy. specialize (Hall y Hy).
    rewrite forallb_range_true in Hall. specialize (Hall x Hx).
    unfold Bitmap.same_pixel in Hall.
    rewrite (GetPixelColor_view h a oa x y Ha),
      (GetPixelColor_view h b ob x y Hb). cbn [fst].
    destruct (Bitmap.color_of_view (Bitmap.view oa) x y) as [c0|];
      [|discriminate].
    destruct (Bitmap.color_of_view (Bitmap.view ob) x y) as [c1|];
      [|discriminate].
    eauto.
  - intros Hall y Hy. apply forallb_range_true. intros x Hx.
    destruct (Hall x y Hx Hy) as (c0 & c1 & H0 & H1 & Heq).
    rewrite (GetPixelColor_view h a oa x y Ha) in H0.
    rewrite (GetPixelColor_view h b ob x y Hb) in H1. cbn [fst] in H0, H1.
    unfold Bitmap.same_pixel. rewrite H0, H1. exact Heq.
Qed.

(** On two well-formed bitmaps [IsEqual] does not raise, and it returns true
    exactly when the logical widths agree, the logical heights agree, and at
    every coordinate of that size the two [GetPixelColor] values pass
    [RgbaColor.IsEqual] at the tolerance: all four channels, the alpha of a
    bitmap of 3 bytes per pixel being 255. *)
Theorem IsEqual_decides_pixelwise (h : gmap nat Bitmap.t) (a b : Bitmap.ref)
    (oa ob : Bitmap.t) (tolerance : Z) :
  h !! a = Some oa -> h !! b = Some ob ->
  Bitmap.well_formed oa -> Bitmap.well_formed ob ->
  exists v : bool,
    (Bitmap.IsEqual a b tolerance h).1 = Ok v
    /\ (v = true
        <-> Bitmap.logical_width oa = Bitmap.logical_width ob
            /\ Bitmap.logical_height oa = Bitmap.logical_height ob
            /\ forall x y,
                 0 <= x < Bitmap.logical_width oa ->
                 0 <= y < Bitmap.logical_height oa ->
                 exists c0 c1,
                   (Bitmap.GetPixelColor a x y h).1 = Ok c0
                   /\ (Bitmap.GetPixelColor b x y h).1 = Ok c1
                   /\ RgbaColor.IsEqual c0 c1 tolerance = true).
Proof.
  intros Ha Hb Hwa Hwb. eexists. split.
  - apply (IsEqual_value h a b oa ob); assumption.
  - rewrite !andb_true_iff, !Z.eqb_eq.
    rewrite (all_pixels_within_iff h a b oa ob tolerance Ha Hb). tauto.
Qed.

(** [IsEqual] on well-formed bitmaps does not depend on the order of the two
    bitmaps.  A bitmap equals itself at every tolerance that is not negative;
    at a negative tolerance a bitmap with a pixel does not equal itself. *)
Theorem IsEqual_symmetric_reflexive (h : gmap nat Bitmap.t)
    (a b : Bitmap.ref) (oa ob : Bitmap.t) (tolerance : Z) :
  h !! a = Some oa -> h !! b = Some ob ->
  Bitmap.well_formed oa -> Bitmap.well_formed ob ->
  (Bitmap.IsEqual a b tolerance h).1 = (Bitmap.IsEqual b a tolerance h).1
  /\ (0 <= tolerance -> (Bitmap.IsEqual a a tolerance h).1 = Ok true)
  /\ (tolerance < 0 ->
      0 < Bitmap.logical_width oa -> 0 < Bitmap.logical_height oa ->
      (Bitmap.IsEqual a a tolerance h).1 = Ok false).
Proof.
  intros Ha Hb Hwa Hwb.
  rewrite (IsEqual_value h a b oa ob tolerance Ha Hb Hwa Hwb).
  rewrite (IsEqual_value h b a ob oa tolerance Hb Ha Hwb Hwa).
  rewrite (IsEqual_value h a a oa oa tolerance Ha Ha Hwa Hwa).
  rewrite !Z.eqb_refl. cbn [andb].
  split; [|split].
  - f_equal.
    rewrite (Z.eqb_sym (Bitmap.logical_width ob)),
      (Z.eqb_sym (Bitmap.logical_height ob)).
    destruct (Z.eqb_spec (Bitmap.logical_width oa) (Bitmap.logical_width ob))
      as [Hw|Hw]; cbn [andb]; [|reflexivity].
    destruct (Z.eqb_spec (Bitmap.logical_height oa) (Bitmap.logical_height ob))
      as [Hh|Hh]; cbn [andb]; [|reflexivity].
    unfold Bitmap.all_pixels_within. rewrite <- Hw, <- Hh.
    apply forallb_ext_in. intros y _. apply forallb_ext_in. intros x _.
    apply same_pixel_sym.
  - intros Ht. f_equal. apply forallb_range_true. intros y Hy.
    apply forallb_range_true. intros x Hx. unfold Bitmap.same_pixel.
    destruct (color_of_view_ok oa x y Hwa Hx Hy) as [c ->].
    apply RgbaColor_IsEqual_iff. rewrite !Z.sub_diag. cbn. lia.
  - intros Ht Hw Hh. f_equal. apply not_true_is_false. intros Hall.
    unfold Bitmap.all_pixels_within in Hall.
    rewrite forallb_range_true in Hall. specialize (Hall 0 ltac:(lia)).
    rewrite forallb_range_true in Hall. specialize (Hall 0 ltac:(lia)).
    unfold Bitmap.same_pixel in Hall.
    destruct (Bitmap.color_of_view (Bitmap.view oa) 0 0) as [c|];
      [|discriminate].
    apply RgbaColor_IsEqual_iff in Hall. lia.
Qed.

End IsEqualDecides.

(** The theorem at the examples, with the reference engine: the crop of
    object 0 and object 2 have the same size and differ by 81 in the last
    byte, which a tolerance of 5 does not cover. *)
Lemma IsEqual_decides_pixelwise_witness :
  (@Bitmap.IsEqual Bitmap.reference_engine 0%nat 2%nat 5
     Bitmap.example_store).1 = Ok false.
Proof.
  destruct (@IsEqual_decides_pixelwise Bitmap.reference_engine
              Bitmap.example_store 0%nat 2%nat
              Bitmap.example_cropped Bitmap.example_other 5 eq_refl eq_refl)
    as (v & Hv & Hiff).
  - split; [left; reflexivity|]. split; [vm_compute; discriminate|].
    split; [vm_compute; discriminate|].
    eexists. split; vm_compute; reflexivity.
  - split; [left; reflexivity|]. split; [vm_compute; discriminate|].
    split; [vm_compute; discriminate|].
    eexists. split; vm_compute; reflexivity.
  - rewrite Hv. f_equal. destruct v; [|reflexivity].
    destruct (proj1 Hiff eq_refl) as (_ & _ & Hall).
    destruct (Hall 1 1) as (c0 & c1 & H0 & H1 & Heq);
      [vm_compute; split; congruence..|].
    vm_compute in H0, H1. injection H0 as <-. injection H1 as <-.
    vm_compute in Heq. discriminate.
Defined.

(** The theorem at the examples, with the reference engine. *)
Lemma IsEqual_symmetric_reflexive_witness :
  (@Bitmap.IsEqual Bitmap.reference_engine 0%nat 2%nat 0
     Bitmap.example_store).1
  = (@Bitmap.IsEqual Bitmap.reference_engine 2%nat 0%nat 0
       Bitmap.example_store).1
  /\ (@Bitmap.IsEqual Bitmap.reference_engine 0%nat 0%nat 0
        Bitmap.example_store).1 = Ok true
  /\ (@Bitmap.IsEqual Bitmap.reference_engine 0%nat 0%nat (-1)
        Bitmap.example_store).1 = Ok false.
Proof.
  assert (Hwa : @Bitmap.well_formed Bitmap.reference_engine
                  Bitmap.example_cropped).
  { split; [left; reflexivity|]. split; [vm_compute; discriminate|].
    split; [vm_compute; discriminate|].
    eexists. split; vm_compute; reflexivity. }
  assert (Hwb : @Bitmap.well_formed Bitmap.reference_engine
                  Bitmap.example_other).
  { split; [left; reflexivity|]. split; [vm_compute; discriminate|].
    split; [vm_compute; discriminate|].
    eexists. split; vm_compute; reflexivity. }
  split; [|split].
  - apply (@IsEqual_symmetric_reflexive Bitmap.reference_engine
             Bitmap.example_store 0%nat 2%nat
             Bitmap.example_cropped Bitmap.example_other 0
             eq_refl eq_refl Hwa Hwb).
  - apply (@IsEqual_symmetric_reflexive Bitmap.reference_engine
             Bitmap.example_store 0%nat 2%nat
             Bitmap.example_cropped Bitmap.example_other 0
             eq_refl eq_refl Hwa Hwb). lia.
  - apply (@IsEqual_symmetric_reflexive Bitmap.reference_engine
             Bitmap.example_store 0%nat 2%nat
             Bitmap.example_cropped Bitmap.example_other (-1)
             eq_refl eq_refl Hwa Hwb); [lia|reflexivity|reflexivity].
Defined.

(** ** Bitmap: reading does not change what bitmaps show *)

Section Reads.

Context `{Bitmap.PixelEngine}.

Lemma keeps_ret {A : Type} (a : A) : Bitmap.keeps_views (Bitmap.ret a).
Proof. intros h. apply shows_same_refl. Qed.

Lemma keeps_lift {A : Type} (m : Res A) : Bitmap.keeps_views (Bitmap.lift m).
Proof. intros h. apply shows_same_refl. Qed.

Lemma keeps_get (self : Bitmap.ref) : Bitmap.keeps_views (Bitmap.get self).
Proof.
  intros h. unfold Bitmap.get. destruct (h !! self); apply shows_same_refl.
Qed.

Lemma keeps_bind {A B : Type} (m : Bitmap.M A) (k : A -> Bitmap.M B) :
  Bitmap.keeps_views m -> (forall a, Bitmap.keeps_views (k a)) ->
  Bitmap.keeps_views (Bitmap.bind m k).
Proof.
  intros Hm Hk h. unfold Bitmap.bind. specialize (Hm h).
  destruct (m h) as [[a|e] h1]; cbn [snd] in *; [|exact Hm].
  exact (shows_same_trans _ _ _ Hm (Hk a h1)).
Qed.

Lemma keeps_width (self : Bitmap.ref) : Bitmap.keeps_views (Bitmap.width self).
Proof. apply keeps_bind; [apply keeps_get|intros o; apply keeps_ret]. Qed.

Lemma keeps_height (self : Bitmap.ref) :
  Bitmap.keeps_views (Bitmap.height self).
Proof. apply keeps_bind; [apply keeps_get|intros o; apply keeps_ret]. Qed.

Lemma keeps_bpp (self : Bitmap.ref) : Bitmap.keeps_views (Bitmap.bpp self).
Proof. apply keeps_bind; [apply keeps_get|intros o; apply keeps_ret]. Qed.

Lemma keeps_pixels (self : Bitmap.ref) :
  Bitmap.keeps_views (Bitmap.pixels self).
Proof.
  intros h. destruct (h !! self) as [o|] eqn:Ho.
  - apply (pixels_view h self o Ho).
  - unfold Bitmap.pixels, Bitmap.bind, Bitmap.get. rewrite Ho.
    apply shows_same_refl.
Qed.

Lemma keeps_GetPixelColor (self : Bitmap.ref) (x y : Z) :
  Bitmap.keeps_views (Bitmap.GetPixelColor self x y).
Proof.
  apply keeps_bind; [apply keeps_pixels|]. intros p.
  apply keeps_bind; [apply keeps_get|]. intros o. apply keeps_lift.
Qed.

Lemma keeps_for_return {A R : Type} (l : list A)
    (body : A -> Bitmap.M (option R)) :
  (forall x, Bitmap.keeps_views (body x)) ->
  Bitmap.keeps_views (Bitmap.for_return l body).
Proof.
  intros Hbody. induction l as [|x l IH]; [apply keeps_ret|].
  cbn [Bitmap.for_return]. apply keeps_bind; [apply Hbody|].
  intros [v|]; [apply keeps_ret|exact IH].
Qed.

Lemma keeps_for_each {A S : Type} (l : list A) (body : A -> S -> Bitmap.M S) :
  (forall x s, Bitmap.keeps_views (body x s)) ->
  forall s, Bitmap.keeps_views (Bitmap.for_each l body s).
Proof.
  intros Hbody. induction l as [|x l IH]; intros s; [apply keeps_ret|].
  cbn [Bitmap.for_each]. apply keeps_bind; [apply Hbody|exact IH].
Qed.

Lemma keeps_IsEqual_scan (a b : Bitmap.ref) (tolerance : Z) :
  Bitmap.keeps_views (Bitmap.IsEqual_scan a b tolerance).
Proof.
  apply keeps_bind; [apply keeps_height|]. intros rows.
  apply keeps_bind.
  - apply keeps_for_return. intros y.
    apply keeps_bind; [apply keeps_width|]. intros cols.
    apply keeps_for_return. intros x.
    apply keeps_bind; [apply keeps_GetPixelColor|]. intros c0.
    apply keeps_bind; [apply keeps_GetPixelColor|]. intros c1.
    destruct (negb _); apply keeps_ret.
  - intros [v|]; apply keeps_ret.
Qed.

Lemma keeps_IsEqual_bytes (a b : Bitmap.ref) :
  Bitmap.keeps_views (Bitmap.IsEqual_bytes a b).
Proof.
  apply keeps_bind; [apply keeps_pixels|]. intros p0.
  apply keeps_bind; [apply keeps_pixels|]. intros p1. apply keeps_ret.
Qed.

Lemma keeps_IsEqual (a b : Bitmap.ref) (tolerance : Z) :
  Bitmap.keeps_views (Bitmap.IsEqual a b tolerance).
Proof.
  apply keeps_bind; [apply keeps_width|]. intros w0.
  apply keeps_bind; [apply keeps_width|]. intros w1.
  apply keeps_bind.
  - destruct (negb _); [apply keeps_ret|].
    apply keeps_bind; [apply keeps_height|]. intros h0.
    apply keeps_bind; [apply keeps_height|]. intros h1. apply keeps_ret.
  - intros [|]; [apply keeps_ret|].
    apply keeps_bind.
    + destruct (negb _); [apply keeps_ret|].
      apply keeps_bind; [apply keeps_bpp|]. intros b0.
      apply keeps_bind; [apply keeps_bpp|]. intros b1. apply keeps_ret.
    + intros [|]; [apply keeps_IsEqual_scan|apply keeps_IsEqual_bytes].
Qed.

Lemma keeps_side_color (self : Bitmap.ref) (x y : Z) :
  Bitmap.keeps_views (Bitmap.side_color self x y).
Proof.
  apply keeps_bind; [apply keeps_width|]. intros w.
  apply keeps_bind.
  - destruct (x <? w); [|apply keeps_ret].
    apply keeps_bind; [apply keeps_height|]. intros hh. apply keeps_ret.
  - intros [|]; [apply keeps_GetPixelColor|apply keeps_ret].
Qed.

Lemma keeps_Diff_grid (a b : Bitmap.ref) :
  Bitmap.keeps_views (Bitmap.Diff_grid a b).
Proof.
  apply keeps_bind; [apply keeps_width|]. intros w0.
  apply keeps_bind; [apply keeps_width|]. intros w1.
  apply keeps_bind; [apply keeps_height|]. intros h0.
  apply keeps_bind; [apply keeps_height|]. intros h1.
  apply keeps_for_each. intros y s. apply keeps_for_each. intros x s'.
  apply keeps_bind; [apply keeps_side_color|]. intros c0.
  apply keeps_bind; [apply keeps_side_color|]. intros c1. apply keeps_lift.
Qed.

(** Stores that show the same answer the reads of a bitmap alike. *)
Lemma shows_same_reads (h h' : gmap nat Bitmap.t) (r : Bitmap.ref)
    (o : Bitmap.t) :
  h !! r = Some o -> Bitmap.shows_same h h' -> Bitmap.reads_same h h' r.
Proof.
  intros Ho Hs. destruct (Hs r o Ho) as (o' & Ho' & Hv).
  assert (Hb : Bitmap._bpp o' = Bitmap._bpp o)
    by (unfold Bitmap.view in Hv; congruence).
  assert (Hw : Bitmap.logical_width o' = Bitmap.logical_width o)
    by (unfold Bitmap.view in Hv; congruence).
  assert (Hh : Bitmap.logical_height o' = Bitmap.logical_height o)
    by (unfold Bitmap.view in Hv; congruence).
  unfold Bitmap.reads_same.
  rewrite (bpp_held _ _ _ Ho), (bpp_held _ _ _ Ho'),
    (width_held _ _ _ Ho), (width_held _ _ _ Ho'),
    (height_held _ _ _ Ho), (height_held _ _ _ Ho').
  cbn [fst]. rewrite Hb, Hw, Hh.
  rewrite (proj1 (pixels_view h r o Ho)), (proj1 (pixels_view h' r o' Ho')).
  rewrite Hv. repeat split.
  intros x y.
  rewrite (GetPixelColor_view h r o x y Ho),
    (GetPixelColor_view h' r o' x y Ho'). cbn [fst]. rewrite Hv. reflexivity.
Qed.

(** Reading pixels, comparing and diffing may rewrite the objects they read:
    a pending crop is applied, a list of ints becomes a byte array.  They
    never change what a bitmap of the store shows: after [pixels],
    [GetPixelColor], [IsEqual] or [Diff] on any bitmaps, every bitmap [r]
    of the store has the [bpp], [width], [height] and [pixels] it had and
    gives the same [GetPixelColor] at every coordinate. *)
Theorem reads_keep_what_bitmaps_show (h : gmap nat Bitmap.t)
    (a b r : Bitmap.ref) (o : Bitmap.t) (tolerance x y : Z) :
  h !! r = Some o ->
  Bitmap.reads_same h (Bitmap.pixels a h).2 r
  /\ Bitmap.reads_same h (Bitmap.GetPixelColor a x y h).2 r
  /\ Bitmap.reads_same h (Bitmap.IsEqual a b tolerance h).2 r
  /\ Bitmap.reads_same h (Bitmap.Diff_grid a b h).2 r.
Proof.
  intros Ho.
  split; [|split; [|split]]; apply (shows_same_reads h _ r o Ho).
  - exact (keeps_pixels a h).
  - exact (keeps_GetPixelColor a x y h).
  - exact (keeps_IsEqual a b tolerance h).
  - exact (keeps_Diff_grid a b h).
Qed.

End Reads.

(** The theorem at the examples, with the reference engine: comparing the
    cropped object 0 with object 2 applies the crop of object 0, whose width
    stays 2. *)
Lemma reads_keep_what_bitmaps_show_witness :
  (Bitmap.width 0%nat
     (@Bitmap.IsEqual Bitmap.reference_engine 0%nat 2%nat 0
        Bitmap.example_store).2).1 = Ok 2
  /\ Bitmap._crop_box
     <$> (@Bitmap.IsEqual Bitmap.reference_engine 0%nat 2%nat 0
            Bitmap.example_store).2 !! 0%nat = Some None.
Proof.
  split; [|vm_compute; reflexivity].
  destruct (@reads_keep_what_bitmaps_show Bitmap.reference_engine
              Bitmap.example_store 0%nat 2%nat 0%nat Bitmap.example_cropped
              0 0 0 eq_refl) as (_ & _ & (_ & Hw & _) & _).
  rewrite Hw. reflexivity.
Defined.

(** ** Bitmap.Diff: symmetry, and what [IsEqual] says about it *)

Lemma fold_res_ext {A S : Type} (f g : A -> S -> Res S) (l : list A) :
  (forall x s, x ∈ l -> f x s = g x s) ->
  forall s, Bitmap.fold_res f l s = Bitmap.fold_res g l s.
Proof.
  induction l as [|x l IH]; intros Hfg s; [reflexivity|].
  cbn [Bitmap.fold_res]. rewrite (Hfg x s) by left.
  destruct (g x s) as [s'|e]; cbn [Py.bind]; [|reflexivity].
  apply IH. intros x' s'' Hx'. apply Hfg. right. exact Hx'.
Qed.

Lemma write_pixel_sym (diff : list (list Z)) (y x : Z) (c0 c1 : RgbaColor.t) :
  Bitmap.write_pixel diff y x c0 c1 = Bitmap.write_pixel diff y x c1 c0.
Proof.
  unfold Bitmap.write_pixel.
  replace (Z.abs (RgbaColor.r c1 - RgbaColor.r c0))
    with (Z.abs (RgbaColor.r c0 - RgbaColor.r c1)) by lia.
  replace (Z.abs (RgbaColor.g c1 - RgbaColor.g c0))
    with (Z.abs (RgbaColor.g c0 - RgbaColor.g c1)) by lia.
  replace (Z.abs (RgbaColor.b c1 - RgbaColor.b c0))
    with (Z.abs (RgbaColor.b c0 - RgbaColor.b c1)) by lia.
  reflexivity.
Qed.

(** A row all of whose cells hold three numbers with a property holds only
    numbers with that property. *)
Lemma cells_bound_row (P : Z -> Prop) (g : list (list Z)) (cols : Z) (i : nat)
    (row : list Z) :
  g !! i = Some row -> length row = Z.to_nat (3 * cols) ->
  (forall j : nat, Z.of_nat j < cols ->
     exists v0 v1 v2, Bitmap.cell_holds g i j [v0; v1; v2]
                      /\ P v0 /\ P v1 /\ P v2) ->
  forall v, v ∈ row -> P v.
Proof.
  intros Hrow Hlen Hcells v Hv.
  apply list_elem_of_lookup_1 in Hv as [n Hn].
  pose proof (lookup_lt_Some _ _ _ Hn) as Hlt.
  destruct (Hcells (n / 3)%nat) as (v0 & v1 & v2 & (row' & Hrow' & Hvals) & Hp).
  { pose proof (Nat.div_mod_eq n 3). pose proof (Nat.mod_upper_bound n 3). lia. }
  rewrite Hrow in Hrow'. injection Hrow' as <-.
  pose proof (Hvals (n mod 3)%nat ltac:(apply Nat.mod_upper_bound; lia)) as Hk.
  rewrite <- Nat.div_mod_eq in Hk. rewrite Hn in Hk.
  assert (Hm : (n mod 3 < 3)%nat) by (apply Nat.mod_upper_bound; lia).
  destruct (n mod 3)%nat as [|[|[|k]]]; cbn in Hk; [| | |lia];
    injection Hk as ->; tauto.
Qed.

Section DiffMore.

Context `{Bitmap.PixelEngine}.

(** On well-formed bitmaps the grid of [Diff] does not depend on the order
    of the two bitmaps. *)
Theorem Diff_grid_symmetric (h : gmap nat Bitmap.t) (a b : Bitmap.ref)
    (oa ob : Bitmap.t) :
  h !! a = Some oa -> h !! b = Some ob ->
  Bitmap.well_formed oa -> Bitmap.well_formed ob ->
  (Bitmap.Diff_grid a b h).1 = (Bitmap.Diff_grid b a h).1.
Proof.
  intros Ha Hb Hwa Hwb.
  rewrite (Diff_grid_views h a b oa ob Ha Hb),
    (Diff_grid_views h b a ob oa Hb Ha). cbv zeta.
  rewrite (Z.max_comm (Bitmap.logical_width ob)),
    (Z.max_comm (Bitmap.logical_height ob)).
  apply fold_res_ext. intros y s Hy. apply in_range_iff in Hy.
  apply fold_res_ext. intros x s' Hx. apply in_range_iff in Hx.
  unfold Bitmap.Diff_pixel_of_views.
  destruct (side_of_view_ok oa x y Hwa) as [c0 ->]; [lia..|].
  destruct (side_of_view_ok ob x y Hwb) as [c1 ->]; [lia..|].
  cbn [Py.bind]. apply write_pixel_sym.
Qed.

(** Two well-formed bitmaps that [IsEqual] accepts at a tolerance have a
    [Diff] grid of their common size in which every number lies between 0
    and the tolerance; at tolerance 0 the grid holds only zeros. *)
Theorem IsEqual_bounds_Diff (h : gmap nat Bitmap.t) (a b : Bitmap.ref)
    (oa ob : Bitmap.t) (tolerance : Z) :
  h !! a = Some oa -> h !! b = Some ob ->
  Bitmap.well_formed oa -> Bitmap.well_formed ob ->
  (Bitmap.IsEqual a b tolerance h).1 = Ok true ->
  exists g,
    (Bitmap.Diff_grid a b h).1 = Ok g
    /\ length g = Z.to_nat (Bitmap.logical_height oa)
    /\ forall row, row ∈ g ->
         length row = Z.to_nat (3 * Bitmap.logical_width oa)
         /\ forall v, v ∈ row -> 0 <= v <= tolerance.
Proof.
  intros Ha Hb Hwa Hwb Heq.
  rewrite (IsEqual_value h a b oa ob tolerance Ha Hb Hwa Hwb) in Heq.
  injection Heq as Heq. rewrite !andb_true_iff, !Z.eqb_eq in Heq.
  destruct Heq as [[Hw Hh] Hall].
  set (cols := Bitmap.logical_width oa). set (rows := Bitmap.logical_height oa).
  destruct (Diff_rows_cells (Bitmap.view oa) (Bitmap.view ob) rows cols)
    with (diff := replicate (Z.to_nat rows)
                    (replicate (Z.to_nat (cols * 3)) 0))
    as (g & Hg & [Hlen Hrows] & Hcells).
  { intros x y Hx Hy.
    destruct (side_of_view_ok oa x y Hwa) as [c0 H0]; [lia..|].
    destruct (side_of_view_ok ob x y Hwb) as [c1 H1]; [lia..|].
    eauto. }
  { apply blank_grid_shape. }
  exists g. rewrite (Diff_grid_views h a b oa ob Ha Hb). cbv zeta.
  rewrite <- Hw, <- Hh, !Z.max_id. fold cols rows.
  split; [exact Hg|]. split; [exact Hlen|].
  intros row Hrow. split; [apply Hrows; exact Hrow|].
  apply list_elem_of_lookup_1 in Hrow as [i Hi].
  pose proof (lookup_lt_Some _ _ _ Hi) as Hlt.
  apply (cells_bound_row (fun v => 0 <= v <= tolerance) g cols i row Hi).
  { apply Hrows. eapply list_elem_of_lookup_2. exact Hi. }
  intros j Hj.
  destruct (Hcells (Z.of_nat j) (Z.of_nat i)) as (c0 & c1 & H0 & H1 & Hc);
    [lia..|].
  cbn [fst snd] in H0, H1, Hc. rewrite !Nat2Z.id in *.
  unfold Bitmap.all_pixels_within in Hall.
  rewrite forallb_range_true in Hall.
  specialize (Hall (Z.of_nat i) ltac:(fold rows; lia)).
  rewrite forallb_range_true in Hall.
  specialize (Hall (Z.of_nat j) ltac:(fold cols; lia)).
  unfold Bitmap.same_pixel in Hall.
  unfold Bitmap.side_of_view in H0, H1.
  change (Bitmap.view oa)
    with (Bitmap._bpp oa, Bitmap.logical_width oa, Bitmap.logical_height oa,
          (Bitmap.view oa).2) in H0 at 1.
  change (Bitmap.view ob)
    with (Bitmap._bpp ob, Bitmap.logical_width ob, Bitmap.logical_height ob,
          (Bitmap.view ob).2) in H1 at 1.
  cbv iota beta in H0, H1. rewrite <- Hw, <- Hh in H1. fold cols rows in H0, H1.
  replace (Z.of_nat j <? cols) with true in H0, H1
    by (symmetry; apply Z.ltb_lt; lia).
  replace (Z.of_nat i <? rows) with true in H0, H1
    by (symmetry; apply Z.ltb_lt; lia).
  cbn [andb] in H0, H1. rewrite H0, H1 in Hall.
  apply RgbaColor_IsEqual_iff in Hall.
  unfold Bitmap.channel_diffs in Hc.
  eexists _, _, _. split; [exact Hc|]. lia.
Qed.

End DiffMore.

(** The theorem at the examples, with the reference engine: the grids of
    objects 0 and 2 in the two orders. *)
Lemma Diff_grid_symmetric_witness :
  (@Bitmap.Diff_grid Bitmap.reference_engine 0%nat 2%nat
     Bitmap.example_store).1
  = (@Bitmap.Diff_grid Bitmap.reference_engine 2%nat 0%nat
       Bitmap.example_store).1.
Proof.
  apply (@Diff_grid_symmetric Bitmap.reference_engine Bitmap.example_store
           0%nat 2%nat Bitmap.example_cropped Bitmap.example_other
           eq_refl eq_refl).
  - split; [left; reflexivity|]. split; [vm_compute; discriminate|].
    split; [vm_compute; discriminate|].
    eexists. split; vm_compute; reflexivity.
  - split; [left; reflexivity|]. split; [vm_compute; discriminate|].
    split; [vm_compute; discriminate|].
    eexists. split; vm_compute; reflexivity.
Defined.

(** The theorem at the examples, with the reference engine: the crop of
    object 0 and object 2 are equal at tolerance 81, and no number of their
    grid exceeds 81. *)
Lemma IsEqual_bounds_Diff_witness :
  exists g,
    (@Bitmap.Diff_grid Bitmap.reference_engine 0%nat 2%nat
       Bitmap.example_store).1 = Ok g
    /\ length g = 2%nat
    /\ forall row, row ∈ g -> forall v, v ∈ row -> 0 <= v <= 81.
Proof.
  destruct (@IsEqual_bounds_Diff Bitmap.reference_engine Bitmap.example_store
              0%nat 2%nat Bitmap.example_cropped Bitmap.example_other 81
              eq_refl eq_refl)
    as (g & Hg & Hlen & Hrows).
  - split; [left; reflexivity|]. split; [vm_compute; discriminate|].
    split; [vm_compute; discriminate|].
    eexists. split; vm_compute; reflexivity.
  - split; [left; reflexivity|]. split; [vm_compute; discriminate|].
    split; [vm_compute; discriminate|].
    eexists. split; vm_compute; reflexivity.
  - vm_compute. reflexivity.
  - exists g. split; [exact Hg|]. split; [exact Hlen|].
    intros row Hrow. apply (Hrows row Hrow).
Defined.

(** ** _BitmapTools: the bytes of the protocol *)

Lemma int_of_byte_range (x : byte) : 0 <= Bitmap.int_of_byte x < 256.
Proof.
  unfold Bitmap.int_of_byte. pose proof (Byte.to_N_bounded x). lia.
Qed.

Lemma int_of_byte_of_Z (z : Z) :
  Bitmap.int_of_byte (BitmapTools.byte_of_Z z) = z mod 256.
Proof.
  unfold BitmapTools.byte_of_Z, Bitmap.int_of_byte.
  pose proof (Z.mod_pos_bound z 256 ltac:(lia)) as Hm.
  destruct (Byte.of_N (Z.to_N (z mod 256))) as [x|] eqn:E.
  - apply Byte.to_of_N in E. rewrite E. lia.
  - apply Byte.of_N_None_iff in E. lia.
Qed.

Lemma int32_range (z : Z) :
  Bitmap.int32 z = true <-> - 2147483648 <= z < 2147483648.
Proof.
  unfold Bitmap.int32. rewrite andb_true_iff, Z.leb_le, Z.ltb_lt.
  change (2 ^ 31) with 2147483648. reflexivity.
Qed.

Lemma int_of_bytes_le_range (b0 b1 b2 b3 : byte) :
  Bitmap.int32 (BitmapTools.int_of_bytes_le b0 b1 b2 b3) = true.
Proof.
  apply int32_range. unfold BitmapTools.int_of_bytes_le. cbv zeta.
  pose proof (int_of_byte_range b0). pose proof (int_of_byte_range b1).
  pose proof (int_of_byte_range b2). pose proof (int_of_byte_range b3).
  change (2 ^ 31) with 2147483648. change (2 ^ 32) with 4294967296.
  destruct (Z.ltb_spec
              (Bitmap.int_of_byte b0 + 256 * Bitmap.int_of_byte b1
               + 65536 * Bitmap.int_of_byte b2
               + 16777216 * Bitmap.int_of_byte b3) 2147483648); lia.
Qed.

(** Decoding the four bytes of a C int gives the int back. *)
Lemma int_of_bytes_le_int_bytes (z : Z) :
  Bitmap.int32 z = true ->
  BitmapTools.int_of_bytes_le (BitmapTools.byte_of_Z z)
    (BitmapTools.byte_of_Z (z / 256)) (BitmapTools.byte_of_Z (z / 65536))
    (BitmapTools.byte_of_Z (z / 16777216)) = z.
Proof.
  intros Hz. apply int32_range in Hz.
  unfold BitmapTools.int_of_bytes_le. rewrite !int_of_byte_of_Z. cbv zeta.
  change (2 ^ 31) with 2147483648. change (2 ^ 32) with 4294967296.
  pose proof (Z.div_mod z 256 ltac:(lia)) as E0.
  pose proof (Z.mod_pos_bound z 256 ltac:(lia)) as B0.
  pose proof (Z.div_mod (z / 256) 256 ltac:(lia)) as E1.
  pose proof (Z.mod_pos_bound (z / 256) 256 ltac:(lia)) as B1.
  pose proof (Z.div_mod (z / 256 / 256) 256 ltac:(lia)) as E2.
  pose proof (Z.mod_pos_bound (z / 256 / 256) 256 ltac:(lia)) as B2.
  pose proof (Z.div_mod (z / 256 / 256 / 256) 256 ltac:(lia)) as E3.
  pose proof (Z.mod_pos_bound (z / 256 / 256 / 256) 256 ltac:(lia)) as B3.
  replace (z / 65536) with (z / 256 / 256)
    by (rewrite Z.div_div by lia; reflexivity).
  replace (z / 16777216) with (z / 256 / 256 / 256)
    by (rewrite !Z.div_div by lia; reflexivity).
  set (r0 := z mod 256) in *. set (q1 := z / 256) in *.
  set (r1 := q1 mod 256) in *. set (q2 := q1 / 256) in *.
  set (r2 := q2 mod 256) in *. set (q3 := q2 / 256) in *.
  set (r3 := q3 mod 256) in *. set (q4 := q3 / 256) in *.
  destruct (Z.ltb_spec (r0 + 256 * r1 + 65536 * r2 + 16777216 * r3)
              2147483648); lia.
Qed.

Section Bytes.

Context `{BitmapTools.Host}.

Lemma length_int_bytes (z : Z) : length (BitmapTools.int_bytes z) = 4%nat.
Proof.
  unfold BitmapTools.int_bytes. destruct BitmapTools.big_endian; reflexivity.
Qed.

Lemma length_packed (l : list Z) :
  length (concat (BitmapTools.int_bytes <$> l)) = (4 * length l)%nat.
Proof.
  induction l as [|z l IH]; [reflexivity|].
  cbn [fmap list_fmap concat]. rewrite length_app, length_int_bytes.
  change (length (concat (BitmapTools.int_bytes <$> l)))
    with (length (concat (BitmapTools.int_bytes <$> l))) in IH.
  cbn [length]. lia.
Qed.

Lemma ints_int_bytes (z : Z) (rest : list byte) :
  Bitmap.int32 z = true ->
  BitmapTools.ints (BitmapTools.int_bytes z ++ rest)
  = z :: BitmapTools.ints rest.
Proof.
  intros Hz. unfold BitmapTools.int_bytes.
  destruct BitmapTools.big_endian eqn:E; cbn; unfold BitmapTools.int_of_bytes;
    rewrite E; rewrite (int_of_bytes_le_int_bytes z Hz); reflexivity.
Qed.

Lemma ints_packed (l : list Z) (rest : list byte) :
  forallb Bitmap.int32 l = true ->
  BitmapTools.ints (concat (BitmapTools.int_bytes <$> l) ++ rest)
  = l ++ BitmapTools.ints rest.
Proof.
  induction l as [|z l IH]; intros Hl; [reflexivity|].
  cbn [forallb] in Hl. apply andb_true_iff in Hl as [Hz Hl].
  cbn [fmap list_fmap concat]. rewrite <- app_assoc.
  rewrite (ints_int_bytes z _ Hz). cbn [app]. f_equal. apply IH. exact Hl.
Qed.

Lemma ints_facts (n : nat) :
  forall s : list byte,
    (length s <= n)%nat ->
    forallb Bitmap.int32 (BitmapTools.ints s) = true
    /\ length (BitmapTools.ints s) = (length s / 4)%nat.
Proof.
  induction n as [n IH] using lt_wf_ind. intros s Hs.
  destruct s as [|b0 [|b1 [|b2 [|b3 rest]]]]; try (split; reflexivity).
  cbn [BitmapTools.ints forallb length].
  destruct (IH (length rest) ltac:(cbn [length] in Hs; lia) rest (le_n _))
    as [Hall Hlen].
  split.
  - rewrite Hall, andb_true_r. unfold BitmapTools.int_of_bytes.
    destruct BitmapTools.big_endian; apply int_of_bytes_le_range.
  - rewrite Hlen.
    replace (S (S (S (S (length rest))))) with (1 * 4 + length rest)%nat
      by lia.
    rewrite Nat.div_add_l by lia. reflexivity.
Qed.

Lemma unpack_packed (l : list Z) :
  forallb Bitmap.int32 l = true ->
  BitmapTools.unpack (length l) (concat (BitmapTools.int_bytes <$> l)) = Ok l.
Proof.
  intros Hl. unfold BitmapTools.unpack.
  rewrite length_packed, Nat.eqb_refl.
  rewrite <- (app_nil_r (concat _)), (ints_packed l [] Hl).
  cbn. rewrite app_nil_r. reflexivity.
Qed.

End Bytes.

(** ** _BitmapTools: one command and its reply *)

Section Tools.

Context `{BitmapTools.Host}.

Lemma pack_ok (l : list Z) :
  forallb Bitmap.int32 l = true ->
  BitmapTools.pack l = Ok (concat (BitmapTools.int_bytes <$> l)).
Proof. intros Hl. unfold BitmapTools.pack. rewrite Hl. reflexivity. Qed.

Lemma read_4 (n : Z) (body : list byte) :
  BitmapTools.read 4 (BitmapTools.int_bytes n ++ body)
  = BitmapTools.int_bytes n.
Proof.
  unfold BitmapTools.read. change (4 <? 0) with false. cbv iota.
  apply take_app_length'. rewrite length_int_bytes. reflexivity.
Qed.

Lemma drop_4 (n : Z) (body : list byte) :
  drop 4 (BitmapTools.int_bytes n ++ body) = body.
Proof. apply drop_app_length'. rewrite length_int_bytes. reflexivity. Qed.

Lemma RunCommand_ok (self : BitmapTools.t) (command : list Z) (n : Z)
    (body : list byte) :
  BitmapTools.closed self = false ->
  forallb Bitmap.int32 command = true ->
  Bitmap.int32 n = true ->
  (BitmapTools.child
     (BitmapTools.written self
      ++ concat (BitmapTools.int_bytes <$> command))).1
  = BitmapTools.int_bytes n ++ body ->
  BitmapTools._RunCommand self command
  = (Ok (BitmapTools.read n body),
     BitmapTools.mk
       (BitmapTools.written self
        ++ concat (BitmapTools.int_bytes <$> command)) true).
Proof.
  intros Hopen Hcmd Hn Hout. unfold BitmapTools._RunCommand.
  rewrite Hopen, (pack_ok command Hcmd). cbv zeta.
  cbn [BitmapTools.written]. rewrite Hout, read_4, drop_4.
  rewrite length_int_bytes. cbn [Nat.eqb].
  pose proof (unpack_packed [n]) as Hu.
  cbn [forallb fmap list_fmap concat length] in Hu.
  rewrite app_nil_r, Hn in Hu. rewrite (Hu eq_refl). reflexivity.
Qed.

(** [_RunCommand] on an open tools object whose command packs: an empty
    stdout raises the bare [Exception], one to three bytes raise
    [struct.error], and a stdout that starts with the four bytes of an int
    [n] gives the bytes after them, the first [n] when [n] is not negative.
    In each case stdin is closed afterwards, so that a second command on the
    object raises [AssertionError]. *)
Theorem RunCommand_frames_reply (self : BitmapTools.t) (command : list Z) :
  BitmapTools.closed self = false ->
  forallb Bitmap.int32 command = true ->
  let stdout :=
    (BitmapTools.child
       (BitmapTools.written self
        ++ concat (BitmapTools.int_bytes <$> command))).1 in
  let out := BitmapTools._RunCommand self command in
  (stdout = [] -> out.1 = Raise EngineError)
  /\ ((0 < length stdout < 4)%nat -> out.1 = Raise StructError)
  /\ (forall n body,
        Bitmap.int32 n = true -> stdout = BitmapTools.int_bytes n ++ body ->
        out.1 = Ok (if n <? 0 then body else take (Z.to_nat n) body))
  /\ BitmapTools.closed out.2 = true
  /\ forall command',
       (BitmapTools._RunCommand out.2 command').1 = Raise AssertionError.
Proof.
  intros Hopen Hcmd stdout out.
  assert (Hout : out
                 = ((if (length (BitmapTools.read 4 stdout) =? 0)%nat
                     then Raise EngineError
                     else
                       Py.bind (BitmapTools.unpack 1
                                  (BitmapTools.read 4 stdout))
                         (fun unpacked =>
                          Py.bind (Py.getitem unpacked 0) (fun length =>
                          Ok (BitmapTools.read length (drop 4 stdout))))),
                    BitmapTools.mk
                      (BitmapTools.written self
                       ++ concat (BitmapTools.int_bytes <$> command)) true)).
  { subst out stdout. unfold BitmapTools._RunCommand.
    rewrite Hopen, (pack_ok command Hcmd). reflexivity. }
  split; [|split; [|split; [|split]]].
  - intros Hempty. rewrite Hout, Hempty. reflexivity.
  - intros Hshort. rewrite Hout. cbn [fst].
    assert (Hread : BitmapTools.read 4 stdout = stdout).
    { unfold BitmapTools.read. cbn [Z.ltb Z.compare].
      apply take_ge. change (Z.to_nat 4) with 4%nat. lia. }
    rewrite Hread. unfold BitmapTools.unpack.
    destruct (Nat.eqb_spec (length stdout) 0); [lia|].
    destruct (Nat.eqb_spec (length stdout) (4 * 1)); [lia|]. reflexivity.
  - intros n body Hn Hstd. subst out.
    rewrite (RunCommand_ok self command n body Hopen Hcmd Hn Hstd).
    reflexivity.
  - rewrite Hout. reflexivity.
  - intros command'. rewrite Hout. reflexivity.
Qed.

End Tools.

(** The theorem at an open tools object of the example host, whose child
    announces 20 bytes and sends them. *)
Lemma RunCommand_frames_reply_witness :
  (@BitmapTools._RunCommand
     (BitmapTools.example_host BitmapTools.example_box_reply)
     (BitmapTools.mk [] false) [2; 0; 0]).1
  = Ok (concat (BitmapTools.int_bytes_le <$> [0; 0; -1; -1; 0])).
Proof.
  destruct (@RunCommand_frames_reply
              (BitmapTools.example_host BitmapTools.example_box_reply)
              (BitmapTools.mk [] false) [2; 0; 0] eq_refl eq_refl)
    as (_ & _ & Hreply & _).
  etransitivity.
  - apply (Hreply 20
             (concat (BitmapTools.int_bytes_le <$> [0; 0; -1; -1; 0])));
      vm_compute; reflexivity.
  - reflexivity.
Defined.

(** ** Bitmap.ColorHistogram, Bitmap.GetBoundingBox and the crop, by the
    protocol *)

Section Queries.

Context `{BitmapTools.Host}.

Lemma length_dimensions (o : Bitmap.t) :
  length (BitmapTools.dimensions o) = 7%nat.
Proof.
  unfold BitmapTools.dimensions.
  destruct (Bitmap.active_box o) as [[[l t] w] hh]. reflexivity.
Qed.

Lemma PrepareTools_ok (o : Bitmap.t) (px : list byte) :
  BitmapTools.binary_exists = true ->
  forallb Bitmap.int32 (BitmapTools.dimensions o) = true ->
  Bitmap.bytearray (Bitmap._pixels o) = Ok px ->
  BitmapTools._PrepareTools o
  = Ok (BitmapTools.mk
          (concat (BitmapTools.int_bytes <$> BitmapTools.dimensions o) ++ px)
          false).
Proof.
  intros Hbin Hdims Hpx. unfold BitmapTools._PrepareTools, BitmapTools.__init__.
  rewrite Hbin, length_dimensions, (pack_ok _ Hdims), Hpx. reflexivity.
Qed.

(** A reply that does not decode leaves no histogram: what [Histogram]
    returns has three channels of 256 buckets. *)
Lemma Histogram_shape (tools : BitmapTools.t)
    (ignore_color : option RgbaColor.t) (tolerance : Z)
    (hist : ColorHistogram.t) :
  (BitmapTools.Histogram tools ignore_color tolerance).1 = Ok hist ->
  length (ColorHistogram.r hist) = 256%nat
  /\ length (ColorHistogram.g hist) = 256%nat
  /\ length (ColorHistogram.b hist) = 256%nat
  /\ forallb Bitmap.int32
       (ColorHistogram.r hist ++ ColorHistogram.g hist
        ++ ColorHistogram.b hist) = true
  /\ ColorHistogram.default_color hist = ignore_color.
Proof.
  unfold BitmapTools.Histogram. cbv zeta. cbn [fst].
  destruct (BitmapTools._RunCommand tools _).1 as [response|e];
    cbn [Py.bind]; [|discriminate].
  unfold BitmapTools.fromstring.
  destruct (length response mod 4 =? 0)%nat; cbn [Py.bind]; [|discriminate].
  destruct (ints_facts (length response) response (le_n _)) as [Hall _].
  set (out := BitmapTools.ints response) in *.
  destruct (Nat.eqb_spec (length out) 768) as [Hlen|]; cbn [negb];
    [|discriminate].
  intros [= <-]. cbn.
  rewrite length_take, !length_take, !length_drop, Hlen.
  repeat (split; [reflexivity|]). split; [|reflexivity].
  assert (Hsplit : take 256 out ++ take 256 (drop 256 out) ++ drop 512 out
                   = out).
  { change 512%nat with (256 + 256)%nat.
    rewrite <- drop_drop, take_drop, take_drop. reflexivity. }
  rewrite Hsplit. exact Hall.
Qed.

(** [Bitmap.ColorHistogram] never changes the store: a pending crop is sent
    to the tool and stays pending.  When it returns, the histogram has three
    channels of exactly 256 buckets, each the value of a C int, and carries
    the [ignore_color] of the call as its default colour. *)
Theorem ColorHistogram_returns_256_buckets (h : gmap nat Bitmap.t)
    (self : Bitmap.ref) (ignore_color : option RgbaColor.t) (tolerance : Z) :
  let out := BitmapTools.Bitmap_ColorHistogram self ignore_color tolerance h in
  out.2 = h
  /\ forall hist,
       out.1 = Ok hist ->
       length (ColorHistogram.r hist) = 256%nat
       /\ length (ColorHistogram.g hist) = 256%nat
       /\ length (ColorHistogram.b hist) = 256%nat
       /\ forallb Bitmap.int32
            (ColorHistogram.r hist ++ ColorHistogram.g hist
             ++ ColorHistogram.b hist) = true
       /\ ColorHistogram.default_color hist = ignore_color.
Proof.
  cbv zeta. unfold BitmapTools.Bitmap_ColorHistogram, Bitmap.bind, Bitmap.get,
    Bitmap.lift.
  destruct (h !! self) as [o|]; cbn [fst snd];
    [|split; [reflexivity|discriminate]].
  split; [reflexivity|]. intros hist.
  destruct (BitmapTools._PrepareTools o) as [tools|e]; cbn [Py.bind];
    [|discriminate].
  apply Histogram_shape.
Qed.

(** The request of [Bitmap.ColorHistogram] and the decoding of its reply:
    the child is sent the seven dimensions, with the pending crop box, the
    pixels, and the command 1 with the int of the colour to ignore, -1 for
    none, and the tolerance.  When it answers 3072 and the 768 ints of three
    channels, those channels are the histogram, and the store is as it
    was. *)
Theorem ColorHistogram_decodes_reply (h : gmap nat Bitmap.t)
    (self : Bitmap.ref) (o : Bitmap.t) (px : list byte)
    (ignore_color : option RgbaColor.t) (tolerance : Z) (r g b : list Z) :
  h !! self = Some o ->
  BitmapTools.binary_exists = true ->
  forallb Bitmap.int32 (BitmapTools.dimensions o) = true ->
  Bitmap.bytearray (Bitmap._pixels o) = Ok px ->
  Bitmap.int32 (BitmapTools.ignore_color_int ignore_color) = true ->
  Bitmap.int32 tolerance = true ->
  length r = 256%nat -> length g = 256%nat -> length b = 256%nat ->
  forallb Bitmap.int32 (r ++ g ++ b) = true ->
  (BitmapTools.child
     (BitmapTools.request o px
        [BitmapTools.HISTOGRAM; BitmapTools.ignore_color_int ignore_color;
         tolerance])).1
  = BitmapTools.int_bytes 3072
    ++ concat (BitmapTools.int_bytes <$> (r ++ g ++ b)) ->
  BitmapTools.Bitmap_ColorHistogram self ignore_color tolerance h
  = (Ok (ColorHistogram.mk r g b ignore_color), h).
Proof.
  intros Ho Hbin Hdims Hpx Hign Htol Hr Hg Hb Hall Hreply.
  unfold BitmapTools.Bitmap_ColorHistogram, Bitmap.bind.
  rewrite (get_held _ _ _ Ho). unfold Bitmap.lift. f_equal.
  rewrite (PrepareTools_ok o px Hbin Hdims Hpx). cbn [Py.bind].
  unfold BitmapTools.Histogram. cbv zeta. cbn [fst].
  assert (Hcmd : forallb Bitmap.int32
                   [BitmapTools.HISTOGRAM;
                    BitmapTools.ignore_color_int ignore_color; tolerance]
                 = true)
    by (cbn [forallb]; rewrite Hign, Htol; reflexivity).
  rewrite (RunCommand_ok
             (BitmapTools.mk
                (concat (BitmapTools.int_bytes <$> BitmapTools.dimensions o)
                 ++ px) false)
             _ 3072 (concat (BitmapTools.int_bytes <$> (r ++ g ++ b)))
             eq_refl Hcmd eq_refl Hreply).
  cbn [fst Py.bind].
  set (body := concat (BitmapTools.int_bytes <$> (r ++ g ++ b))).
  assert (Hlen : length body = 3072%nat).
  { subst body. rewrite length_packed, !length_app, Hr, Hg, Hb. reflexivity. }
  assert (Hread : BitmapTools.read 3072 body = body).
  { unfold BitmapTools.read. change (3072 <? 0) with false. cbv iota.
    apply take_ge. rewrite Hlen. reflexivity. }
  rewrite Hread. unfold BitmapTools.fromstring. rewrite Hlen.
  change (3072 mod 4 =? 0)%nat with true. cbv iota. cbn [Py.bind].
  subst body. rewrite <- (app_nil_r (concat _)), (ints_packed _ [] Hall).
  cbn [BitmapTools.ints]. rewrite app_nil_r.
  rewrite !length_app, Hr, Hg, Hb. change (256 + (256 + 256) =? 768)%nat
    with true. cbn [negb]. f_equal. f_equal.
  - apply take_app_length'. symmetry. exact Hr.
  - rewrite drop_app_length' by (symmetry; exact Hr).
    apply take_app_length'. symmetry. exact Hg.
  - rewrite (app_assoc r g b). apply drop_app_length'.
    rewrite length_app, Hr, Hg. reflexivity.
Qed.

(** The request of [Bitmap.GetBoundingBox] and the decoding of its reply:
    the child is sent the seven dimensions, with the pending crop box, the
    pixels, and the command 2 with the int of the colour and the tolerance.
    When it answers 20 and five ints, the first four are the box and the
    fifth is the count; a negative third or fourth int turns the box into
    [None] and keeps the count.  The store is as it was. *)
Theorem GetBoundingBox_decodes_reply (h : gmap nat Bitmap.t)
    (self : Bitmap.ref) (o : Bitmap.t) (px : list byte)
    (color : RgbaColor.t) (tolerance l t w hh count : Z) :
  h !! self = Some o ->
  BitmapTools.binary_exists = true ->
  forallb Bitmap.int32 (BitmapTools.dimensions o) = true ->
  Bitmap.bytearray (Bitmap._pixels o) = Ok px ->
  Bitmap.int32 (RgbaColor.to_int color) = true ->
  Bitmap.int32 tolerance = true ->
  forallb Bitmap.int32 [l; t; w; hh; count] = true ->
  (BitmapTools.child
     (BitmapTools.request o px
        [BitmapTools.BOUNDING_BOX; RgbaColor.to_int color; tolerance])).1
  = BitmapTools.int_bytes 20
    ++ concat (BitmapTools.int_bytes <$> [l; t; w; hh; count]) ->
  BitmapTools.GetBoundingBox self color tolerance h
  = (Ok (if (w <? 0) || (hh <? 0) then None else Some (l, t, w, hh), count),
     h).
Proof.
  intros Ho Hbin Hdims Hpx Hcol Htol Hall Hreply.
  unfold BitmapTools.GetBoundingBox, Bitmap.bind.
  rewrite (get_held _ _ _ Ho). unfold Bitmap.lift. f_equal.
  rewrite (PrepareTools_ok o px Hbin Hdims Hpx). cbn [Py.bind].
  unfold BitmapTools.BoundingBox. cbv zeta. cbn [fst].
  assert (Hcmd : forallb Bitmap.int32
                   [BitmapTools.BOUNDING_BOX; RgbaColor.to_int color;
                    tolerance] = true)
    by (cbn [forallb]; rewrite Hcol, Htol; reflexivity).
  rewrite (RunCommand_ok
             (BitmapTools.mk
                (concat (BitmapTools.int_bytes <$> BitmapTools.dimensions o)
                 ++ px) false)
             _ 20 (concat (BitmapTools.int_bytes <$> [l; t; w; hh; count]))
             eq_refl Hcmd eq_refl Hreply).
  cbn [fst Py.bind].
  set (body := concat (BitmapTools.int_bytes <$> [l; t; w; hh; count])).
  assert (Hlen : length body = 20%nat).
  { subst body. rewrite length_packed. reflexivity. }
  assert (Hread : BitmapTools.read 20 body = body).
  { unfold BitmapTools.read. change (20 <? 0) with false. cbv iota.
    apply take_ge. rewrite Hlen. reflexivity. }
  rewrite Hread. subst body.
  rewrite (unpack_packed [l; t; w; hh; count] Hall). reflexivity.
Qed.

(** [pixels] with the engine of the host: a bitmap with a pending crop box
    sends its dimensions, the box, its pixels and the command 0, and takes
    what the child sends after the four bytes of the int [n], cut to [n]
    bytes when [n] is not negative, as its new pixels.  Its size becomes the
    size of the box.  The length of the reply is not compared with that
    size. *)
Theorem pixels_takes_child_reply (h : gmap nat Bitmap.t)
    (self : Bitmap.ref) (o : Bitmap.t) (px body : list byte)
    (l t w hh n : Z) :
  h !! self = Some o ->
  Bitmap._crop_box o = Some (l, t, w, hh) ->
  BitmapTools.binary_exists = true ->
  forallb Bitmap.int32 (BitmapTools.dimensions o) = true ->
  Bitmap.bytearray (Bitmap._pixels o) = Ok px ->
  Bitmap.int32 n = true ->
  (BitmapTools.child (BitmapTools.request o px [BitmapTools.CROP_PIXELS])).1
  = BitmapTools.int_bytes n ++ body ->
  @Bitmap.pixels BitmapTools.engine_of_host self h
  = (Ok (BitmapTools.read n body),
     <[self := Bitmap.mk (Bitmap._bpp o) w hh
                 (Bitmap.ByteArray (BitmapTools.read n body)) None]> h).
Proof.
  intros Ho Hbox Hbin Hdims Hpx Hn Hreply.
  rewrite (@pixels_yields BitmapTools.engine_of_host h self o
             (BitmapTools.read n body) Ho).
  - unfold Bitmap.materialized, Bitmap.logical_width, Bitmap.logical_height.
    rewrite Hbox. reflexivity.
  - unfold Bitmap.view. cbn [snd]. rewrite Hbox.
    unfold Bitmap._PrepareTools_CropPixels, Bitmap.CropPixels.
    unfold BitmapTools.dimensions in Hdims.
    unfold BitmapTools.request, BitmapTools.dimensions in Hreply.
    destruct (Bitmap.active_box o) as [[[bl bt] bw] bh].
    cbn [Bitmap.binary_exists BitmapTools.engine_of_host].
    rewrite Hbin. cbn [negb]. unfold Bitmap.struct_pack_i.
    rewrite Hdims, Hpx. cbn [Py.bind].
    cbv [Bitmap.crop_pixels_reply BitmapTools.engine_of_host
         BitmapTools.CropPixels].
    rewrite (RunCommand_ok
               (BitmapTools.mk
                  (concat (BitmapTools.int_bytes <$> [Bitmap._bpp o;
                     Bitmap._width o; Bitmap._height o; bl; bt; bw; bh])
                   ++ px) false)
               [BitmapTools.CROP_PIXELS] n body eq_refl eq_refl Hn Hreply).
    reflexivity.
Qed.

End Queries.

(** The theorem at the whole example and a child that sends a histogram. *)
Lemma ColorHistogram_decodes_reply_witness :
  @BitmapTools.Bitmap_ColorHistogram
    (BitmapTools.example_host BitmapTools.example_histogram_reply)
    1%nat None 0 Bitmap.example_store
  = (Ok (ColorHistogram.mk BitmapTools.example_channel
           BitmapTools.example_channel BitmapTools.example_channel None),
     Bitmap.example_store).
Proof.
  apply (@ColorHistogram_decodes_reply
           (BitmapTools.example_host BitmapTools.example_histogram_reply)
           Bitmap.example_store 1%nat Bitmap.example_whole
           (BitmapTools.byte_of_Z <$> seqZ 1 18) None 0
           BitmapTools.example_channel BitmapTools.example_channel
           BitmapTools.example_channel eq_refl eq_refl);
    vm_compute; reflexivity.
Defined.

(** The theorem at the cropped example and a child that found no pixel of
    the colour. *)
Lemma GetBoundingBox_decodes_reply_witness :
  @BitmapTools.GetBoundingBox
    (BitmapTools.example_host BitmapTools.example_box_reply)
    0%nat RgbaColor.WHITE 0 Bitmap.example_store
  = (Ok (None, 0), Bitmap.example_store).
Proof.
  apply (@GetBoundingBox_decodes_reply
           (BitmapTools.example_host BitmapTools.example_box_reply)
           Bitmap.example_store 0%nat Bitmap.example_cropped
           (BitmapTools.byte_of_Z <$> seqZ 1 18) RgbaColor.WHITE 0
           0 0 (-1) (-1) 0 eq_refl eq_refl);
    vm_compute; reflexivity.
Defined.

(** The theorem at the cropped example and a child that sends twelve
    bytes. *)
Lemma pixels_takes_child_reply_witness :
  (@Bitmap.pixels
     (@BitmapTools.engine_of_host
        (BitmapTools.example_host BitmapTools.example_crop_reply))
     0%nat Bitmap.example_store).1
  = Ok (BitmapTools.byte_of_Z <$> seqZ 1 12).
Proof.
  rewrite (@pixels_takes_child_reply
             (BitmapTools.example_host BitmapTools.example_crop_reply)
             Bitmap.example_store 0%nat Bitmap.example_cropped
             (BitmapTools.byte_of_Z <$> seqZ 1 18)
             (BitmapTools.byte_of_Z <$> seqZ 1 12) 1 0 2 2 12
             eq_refl eq_refl eq_refl);
    vm_compute; reflexivity.
Defined.
